(** * Moving-average crossover trading bot: signal engine and simulated ledger

    Shallow embedding of [trading_bot.py] (live variant),
    [test_trading_bot.py] (simulation variant) and [balance_checker.py].

    Numbers.  The program computes with Python floats, IEEE 754 binary64.
    They are modelled twice.  The modules [Binary64] and [Simulation64]
    and the instance [binary64] of the rolling mean compute on Rocq's
    primitive binary64 floats, with the rounding, the infinities and the
    NaN of the machine.  The other modules idealise a float as an exact
    rational ([Qc], the canonical rationals, so that equal amounts are
    Leibniz-equal) or NaN ([None]); they are the exact-arithmetic reading
    of the same code, and say nothing about rounding. *)

From Stdlib Require Import Floats.
From Stdlib Require Import QArith Qcanon ZArith Ascii String.
From stdpp Require Import base numbers option list strings gmap fin_maps.

Local Open Scope Qc_scope.
Set Warnings "-inexact-float".

(** ** Amounts *)

Definition Qc_of_nat (n : nat) : Qc := Qc_of_Z (Z.of_nat n).

(** A decimal literal [m / 10^k], e.g. [0.001 = dec 1 3]. *)
Definition dec (m : Z) (k : nat) : Qc := Q2Qc (m # Pos.pow 10 (Pos.of_nat k)).

Fixpoint Qc_sum (l : list Qc) : Qc :=
  match l with
  | [] => 0
  | x :: l' => x + Qc_sum l'
  end.

(** A float in exact arithmetic: a rational, or NaN. *)
Definition float := option Qc.

Definition float_gt (a b : float) : bool :=
  match a, b with
  | Some x, Some y => bool_decide (y < x)
  | _, _ => false
  end.

Definition float_lt (a b : float) : bool := float_gt b a.

(** ** Float arithmetic

    The operations on C doubles that the rolling mean uses, as an
    interface with two instances: [binary64], the doubles the program
    computes with, and [exact], the same operations without rounding on
    rationals extended with NaN. *)

Class FloatOps (F : Type) := {
  fadd : F → F → F;
  fsub : F → F → F;
  fopp : F → F;
  fdiv : F → F → F;
  feqb : F → F → bool;
  fltb : F → F → bool;
  signbit : F → bool;
  of_count : nat → F;
  fzero : F;
  NaN : F
}.

#[global] Instance binary64 : FloatOps PrimFloat.float := {|
  fadd := PrimFloat.add;
  fsub := PrimFloat.sub;
  fopp := PrimFloat.opp;
  fdiv := PrimFloat.div;
  feqb := PrimFloat.eqb;
  fltb := PrimFloat.ltb;
  signbit := PrimFloat.get_sign;
  of_count n := PrimFloat.of_uint63 (Uint63Axioms.of_Z (Z.of_nat n));
  fzero := PrimFloat.zero;
  NaN := PrimFloat.nan
|}.

#[global] Instance exact : FloatOps (option Qc) := {|
  fadd a b := match a, b with Some x, Some y => Some (x + y) | _, _ => None end;
  fsub a b := match a, b with Some x, Some y => Some (x - y) | _, _ => None end;
  fopp a := match a with Some x => Some (- x) | None => None end;
  fdiv a b := match a, b with Some x, Some y => Some (x / y) | _, _ => None end;
  feqb a b := match a, b with Some x, Some y => bool_decide (x = y) | _, _ => false end;
  fltb := float_lt;
  signbit a := match a with Some x => bool_decide (x < 0) | None => false end;
  of_count n := Some (Qc_of_nat n);
  fzero := Some 0;
  NaN := None
|}.

(** ** pandas: [Series.rolling(window=w).mean()]

    [roll_mean] of [pandas/_libs/window/aggregations.pyx], over the
    bounds of a fixed window: row [i] covers [values[start:end]] with
    [start = max(i + 1 - w, 0)] and [end = i + 1], and [min_periods] is
    the window.  pandas slides the window keeping a running sum with
    Kahan compensation: [add_mean] takes in the value that enters,
    [remove_mean] takes out the one that leaves, and [calc_mean] divides
    by the count of observations; it answers [prev_value] itself when the
    whole window repeats one value, clamps a mean of the wrong sign to
    zero, and answers NaN while fewer than [min_periods] observations
    are in the window. *)

Module Pandas.

Section roll_mean.
Context {F : Type} `{FloatOps F}.

Record mean_state := {
  nobs : nat;
  sum_x : F;
  neg_ct : nat;
  compensation_add : F;
  compensation_remove : F;
  num_consecutive_same_value : nat;
  prev_value : F
}.

(** [if val == val:] skips NaN. *)
Definition add_mean (val : F) (st : mean_state) : mean_state :=
  if feqb val val then
    let y := fsub val (compensation_add st) in
    let t := fadd (sum_x st) y in
    {| nobs := S (nobs st);
       sum_x := t;
       neg_ct := if signbit val then S (neg_ct st) else neg_ct st;
       compensation_add := fsub (fsub t (sum_x st)) y;
       compensation_remove := compensation_remove st;
       num_consecutive_same_value :=
         if feqb val (prev_value st) then S (num_consecutive_same_value st) else 1;
       prev_value := val |}
  else st.

Definition remove_mean (val : F) (st : mean_state) : mean_state :=
  if feqb val val then
    let y := fsub (fopp val) (compensation_remove st) in
    let t := fadd (sum_x st) y in
    {| nobs := pred (nobs st);
       sum_x := t;
       neg_ct := if signbit val then pred (neg_ct st) else neg_ct st;
       compensation_add := compensation_add st;
       compensation_remove := fsub (fsub t (sum_x st)) y;
       num_consecutive_same_value := num_consecutive_same_value st;
       prev_value := prev_value st |}
  else st.

Definition calc_mean (minp : nat) (st : mean_state) : F :=
  if bool_decide (minp ≤ nobs st)%nat && bool_decide (0 < nobs st)%nat then
    let result := fdiv (sum_x st) (of_count (nobs st)) in
    if bool_decide (nobs st ≤ num_consecutive_same_value st)%nat then prev_value st
    else if bool_decide (neg_ct st = 0%nat) && fltb result fzero then fzero
    else if bool_decide (neg_ct st = nobs st) && fltb fzero result then fzero
    else result
  else NaN.

(** The variables as the set-up branch of the loop leaves them. *)
Definition setup (prev : F) : mean_state :=
  {| nobs := 0; sum_x := fzero; neg_ct := 0;
     compensation_add := fzero; compensation_remove := fzero;
     num_consecutive_same_value := 0; prev_value := prev |}.

(** [values[a:b]] *)
Definition slice (values : list F) (a b : nat) : list F := drop a (take b values).

(** [start[i]] of a fixed window of [w] rows. *)
Definition window_start (w i : nat) : nat := (S i - w)%nat.

(** The body of the loop for row [i]: set up from scratch on the first
    row and when the window shares nothing with the one before
    ([s >= end[i - 1]]); otherwise take out [values[start[i - 1]:s]] and
    take in [values[end[i - 1]:e]]. *)
Definition roll_step (w : nat) (values : list F) (i : nat) (st : mean_state)
    : mean_state :=
  let s := window_start w i in
  let e := S i in
  if bool_decide (i = 0%nat) || bool_decide (i ≤ s)%nat then
    foldl (λ st val, add_mean val st) (setup (default NaN (values !! s)))
      (slice values s e)
  else
    let st := foldl (λ st val, remove_mean val st) st
                (slice values (window_start w (i - 1)) s) in
    foldl (λ st val, add_mean val st) st (slice values i e).

Fixpoint roll_loop (w : nat) (values : list F) (i : nat) (st : mean_state)
    (rows : nat) : list F :=
  match rows with
  | 0%nat => []
  | S rows' =>
      let st' := roll_step w values i st in
      calc_mean w st' :: roll_loop w values (S i) st' rows'
  end.

Definition roll_mean (w : nat) (values : list F) : list F :=
  roll_loop w values 0 (setup NaN) (length values).

End roll_mean.

Arguments mean_state F : clear implicits.

(** The rolling mean of a column of closes in exact arithmetic. *)
Definition rolling_mean (w : nat) (values : list Qc) : list float :=
  @roll_mean (option Qc) exact w (Some <$> values).

(** [Series.iloc[-k]]: the k-th element from the end; [None] stands for
    the IndexError pandas raises when the series is too short. *)
Definition iloc_neg {A} (l : list A) (k : nat) : option A :=
  if bool_decide (1 ≤ k ≤ length l)%nat then l !! (length l - k)%nat else None.

End Pandas.

(** ** The data frame of [calculate_signals] *)

Record frame := {
  close : list Qc;
  MA_short : list float;
  MA_long : list float;
  signal : list Z
}.

(** [df['signal'] = 0], then [1] where [MA_short > MA_long], then [-1] where
    [MA_short < MA_long]. *)
Definition signal_row (ma_short ma_long : float) : Z :=
  let s := 0%Z in
  let s := if float_gt ma_short ma_long then 1%Z else s in
  let s := if float_lt ma_short ma_long then (-1)%Z else s in
  s.

Definition signal_column (ma_short ma_long : list float) : list Z :=
  zip_with signal_row ma_short ma_long.

Definition calculate_signals (moving_avg_short moving_avg_long : nat)
    (closes : list Qc) : frame :=
  let ma_s := Pandas.rolling_mean moving_avg_short closes in
  let ma_l := Pandas.rolling_mean moving_avg_long closes in
  {| close := closes; MA_short := ma_s; MA_long := ma_l;
     signal := signal_column ma_s ma_l |}.

(** ** Signals and actions *)

Inductive Signal := UP | DOWN | FLAT.

Definition signal_value (s : Signal) : Z :=
  match s with UP => 1 | DOWN => -1 | FLAT => 0 end%Z.

Inductive Action := NONE | ENTER_LONG | EXIT_LONG.

(** The signal-change test of [run_bot] (identical in both variants):
<<
    if current_signal != previous_signal:
        if current_signal == 1 and previous_signal == -1:    # Buy signal
        elif current_signal == -1 and previous_signal == 1:  # Sell signal
>> *)
Definition detectTransition (previous_signal current_signal : Z) : Action :=
  if negb (current_signal =? previous_signal)%Z then
    if (current_signal =? 1)%Z && (previous_signal =? -1)%Z then ENTER_LONG
    else if (current_signal =? -1)%Z && (previous_signal =? 1)%Z then EXIT_LONG
    else NONE
  else NONE.


(** [symbol.replace('USDT', '')]: every non-overlapping occurrence of
    "USDT" is removed, scanning from the left. *)
Fixpoint remove_USDT (s : string) : string :=
  match s with
  | EmptyString => EmptyString
  | String c1 s1 =>
      match s1 with
      | String c2 (String c3 (String c4 rest)) =>
          if (Ascii.eqb c1 "U"%char && Ascii.eqb c2 "S"%char &&
              Ascii.eqb c3 "D"%char && Ascii.eqb c4 "T"%char)%bool
          then remove_USDT rest
          else String c1 (remove_USDT s1)
      | _ => String c1 (remove_USDT s1)
      end
  end.

(** ** Python exceptions and logging, shared by both variants *)

Inductive exn :=
  | KeyError (key : string)
  | IndexError
  | TypeError
  | AttributeError (name : string).

Inductive level := INFO | WARNING | ERROR.

Inductive result (A : Type) :=
  | Ok (a : A)
  | Raise (e : exn).
Arguments Ok {A} a.
Arguments Raise {A} e.

(** A method body: it runs on a state [St], may change it, and either
    returns or raises; the state reached when it raises is kept, as Python
    keeps whatever was mutated before the exception. *)
Definition Py (St A : Type) : Type := St → result A * St.

Definition ret {St A} (a : A) : Py St A := λ s, (Ok a, s).
Definition raise {St A} (e : exn) : Py St A := λ s, (Raise e, s).
Definition bind {St A B} (m : Py St A) (k : A → Py St B) : Py St B :=
  λ s, match m s with
       | (Ok a, s') => k a s'
       | (Raise e, s') => (Raise e, s')
       end.
Definition get {St} : Py St St := λ s, (Ok s, s).
Definition modify {St} (f : St → St) : Py St unit := λ s, (Ok tt, f s).

(** [try: body except Exception as e: handler(e)] *)
Definition try_except {St A} (body : Py St A) (handler : exn → Py St A) : Py St A :=
  λ s, match body s with
       | (Ok a, s') => (Ok a, s')
       | (Raise e, s') => handler e s'
       end.

Definition from_option {St A} (e : exn) (o : option A) : Py St A :=
  match o with Some a => ret a | None => raise e end.

Declare Scope py_scope.
Delimit Scope py_scope with py.
Notation "x <- m ;; k" := (bind m (λ x, k))
  (at level 100, m at next level, right associativity) : py_scope.
Notation "m ;; k" := (bind m (λ _, k))
  (at level 100, right associativity) : py_scope.

Fixpoint for_each {St A} (l : list A) (body : A → Py St unit) : Py St unit :=
  match l with
  | [] => ret tt
  | a :: l' => (body a ;; for_each l' body)%py
  end.

Definition exec {St A} (m : Py St A) (s : St) : St := (m s).2.

(** ** JSON documents, as [json.dump] lays out Python values *)

#[warnings="-register-all"] Inductive json :=
  | JNum (x : Qc)
  | JStr (s : string)
  | JArr (items : list json)
  | JObj (fields : list (string * json)).

(** * The simulation variant ([test_trading_bot.py]) *)

Module Simulation.

(** One element of [self.trade_log]:
    [{"type": .., "quantity": .., "price": .., "balance": dict(self.digital_balance)}];
    [dict(..)] copies the balances, so the entry owns its snapshot. *)
Record trade := {
  trade_type : string;
  trade_quantity : Qc;
  trade_price : Qc;
  trade_balance : gmap string Qc
}.

Inductive message :=
  | Msg_fetching (symbol : string)
  | Msg_generated
  | Msg_calculating
  | Msg_simulating (side : string) (quantity : Qc) (symbol : string) (price : Qc)
  | Msg_buy_completed
  | Msg_not_enough_USDT
  | Msg_sell_completed
  | Msg_not_enough_BTC
  | Msg_current_balance
  | Msg_asset_balance (asset : string) (balance : Qc)
  | Msg_signals (previous_signal current_signal : Z)
  | Msg_buy_signal
  | Msg_sell_signal
  | Msg_trade_log_saved
  | Msg_waiting
  | Msg_loop_error (e : exn).

(** The attributes [__init__] sets on the instance, with the two things
    outside the instance that the bot writes: the records sent to
    [self.logger] and the files dumped under [simulation_results/].  The
    dict [digital_balance] is a finite map together with [balance_order],
    its keys in the order they were inserted, which is the order a Python
    dict iterates in. *)
Record bot := {
  logger : list (level * message);
  simulation_mode : bool;
  symbol : string;
  interval : string;
  quantity : Qc;
  moving_avg_short : nat;
  moving_avg_long : nat;
  digital_balance : gmap string Qc;
  balance_order : list string;
  trade_log : list trade;
  simulation_results : list json
}.

Definition set_logger (f : list (level * message) → list (level * message))
    (b : bot) : bot :=
  {| logger := f (logger b); simulation_mode := simulation_mode b;
     symbol := symbol b; interval := interval b; quantity := quantity b;
     moving_avg_short := moving_avg_short b;
     moving_avg_long := moving_avg_long b;
     digital_balance := digital_balance b;
     balance_order := balance_order b; trade_log := trade_log b;
     simulation_results := simulation_results b |}.

Definition set_digital_balance (f : gmap string Qc → gmap string Qc)
    (b : bot) : bot :=
  {| logger := logger b; simulation_mode := simulation_mode b;
     symbol := symbol b; interval := interval b; quantity := quantity b;
     moving_avg_short := moving_avg_short b;
     moving_avg_long := moving_avg_long b;
     digital_balance := f (digital_balance b);
     balance_order := balance_order b; trade_log := trade_log b;
     simulation_results := simulation_results b |}.

Definition set_trade_log (f : list trade → list trade) (b : bot) : bot :=
  {| logger := logger b; simulation_mode := simulation_mode b;
     symbol := symbol b; interval := interval b; quantity := quantity b;
     moving_avg_short := moving_avg_short b;
     moving_avg_long := moving_avg_long b;
     digital_balance := digital_balance b;
     balance_order := balance_order b; trade_log := f (trade_log b);
     simulation_results := simulation_results b |}.

Definition set_simulation_results (f : list json → list json) (b : bot) : bot :=
  {| logger := logger b; simulation_mode := simulation_mode b;
     symbol := symbol b; interval := interval b; quantity := quantity b;
     moving_avg_short := moving_avg_short b;
     moving_avg_long := moving_avg_long b;
     digital_balance := digital_balance b;
     balance_order := balance_order b; trade_log := trade_log b;
     simulation_results := f (simulation_results b) |}.

(** [CryptoTradingBot.__init__]; the dict display
    [{"USDT": initial_balance, base: 0}] inserts the keys left to right,
    and a repeated key keeps its first place and its last value. *)
Definition init (symbol : string) (interval : string) (simulation_mode : bool)
    (initial_balance : Qc) : bot :=
  {| logger := [];
     simulation_mode := simulation_mode;
     symbol := symbol;
     interval := interval;
     quantity := dec 1 3;
     moving_avg_short := 20;
     moving_avg_long := 50;
     digital_balance := <[remove_USDT symbol := 0]> (<["USDT" := initial_balance]> ∅);
     balance_order :=
       if String.eqb (remove_USDT symbol) "USDT" then ["USDT"]
       else ["USDT"; remove_USDT symbol];
     trade_log := [];
     simulation_results := [] |}.

Local Open Scope py_scope.

Definition log (l : level) (m : message) : Py bot unit :=
  modify (set_logger (λ records, records ++ [(l, m)])).

(** [self.digital_balance[key]] *)
Definition balance_getitem (key : string) : Py bot Qc :=
  self <- get ;;
  from_option (KeyError key) (digital_balance self !! key).

(** The store half of [-=] and [+=]: the key is present, since the read
    half has just found it, so its place in the dict does not change. *)
Definition balance_setitem (key : string) (value : Qc) : Py bot unit :=
  modify (set_digital_balance (insert key value)).

(** [self.digital_balance[key] -= amount] and [+= amount]: read, then
    store. *)
Definition balance_isub (key : string) (amount : Qc) : Py bot unit :=
  old <- balance_getitem key ;;
  balance_setitem key (old - amount)%Qc.

Definition balance_iadd (key : string) (amount : Qc) : Py bot unit :=
  old <- balance_getitem key ;;
  balance_setitem key (old + amount)%Qc.

(** [self.trade_log.append({...})] *)
Definition trade_log_append (type : string) (quantity price : Qc) : Py bot unit :=
  self <- get ;;
  modify (set_trade_log (λ entries, entries ++
    [{| trade_type := type; trade_quantity := quantity;
        trade_price := price; trade_balance := digital_balance self |}])).

(** [dict.items()]: the entries, in the order of insertion. *)
Definition items (order : list string) (balance : gmap string Qc)
    : list (string * Qc) :=
  omap (λ asset, (λ amount, (asset, amount)) <$> balance !! asset) order.

Definition digital_balance_items (b : bot) : list (string * Qc) :=
  items (balance_order b) (digital_balance b).

Definition log_current_balance : Py bot unit :=
  log INFO Msg_current_balance ;;
  self <- get ;;
  for_each (digital_balance_items self)
    (λ item, log INFO (Msg_asset_balance item.1 item.2)).

(** The body of [place_order_simulation] (lines 85-112). *)
Definition place_order_simulation (side : string) (quantity price : Qc)
    : Py bot unit :=
  self <- get ;;
  let base_asset := remove_USDT (symbol self) in
  log INFO (Msg_simulating side quantity (symbol self) price) ;;
  (if String.eqb side "BUY" then
     let cost := (quantity * price)%Qc in
     usdt <- balance_getitem "USDT" ;;
     if bool_decide (cost ≤ usdt)%Qc then
       balance_isub "USDT" cost ;;
       balance_iadd base_asset quantity ;;
       trade_log_append "BUY" quantity price ;;
       log INFO Msg_buy_completed
     else
       log WARNING Msg_not_enough_USDT
   else if String.eqb side "SELL" then
     held <- balance_getitem base_asset ;;
     if bool_decide (quantity ≤ held)%Qc then
       balance_isub base_asset quantity ;;
       balance_iadd "USDT" (quantity * price)%Qc ;;
       trade_log_append "SELL" quantity price ;;
       log INFO Msg_sell_completed
     else
       log WARNING Msg_not_enough_BTC
   else ret tt) ;;
  log_current_balance.

(** [json.dump(self.trade_log, f, indent=4)]; the members of a JSON
    object are taken as a set, so their order is not modelled. *)
Definition balance_to_json (balance : gmap string Qc) : json :=
  JObj ((λ item : string * Qc, (item.1, JNum item.2)) <$> map_to_list balance).

Definition trade_to_json (t : trade) : json :=
  JObj [("type", JStr (trade_type t));
        ("quantity", JNum (trade_quantity t));
        ("price", JNum (trade_price t));
        ("balance", balance_to_json (trade_balance t))].

Definition trade_log_to_json (entries : list trade) : json :=
  JArr (trade_to_json <$> entries).

Definition save_trade_log : Py bot unit :=
  self <- get ;;
  modify (set_simulation_results (λ files, files ++ [trade_log_to_json (trade_log self)])) ;;
  log INFO Msg_trade_log_saved.

(** The column [close] of [get_historical_data]: [periods =
    moving_avg_long + 10] rows, each a draw of [np.random.normal];
    [draws n] is the [n]-th number the generator hands out in the
    cycle. *)
Definition historical_closes (draws : nat → Qc) (b : bot) : list Qc :=
  draws <$> seq 0 (moving_avg_long b + 10).

Definition get_historical_data (draws : nat → Qc) : Py bot (list Qc) :=
  self <- get ;;
  log INFO (Msg_fetching (symbol self)) ;;
  log INFO Msg_generated ;;
  ret (historical_closes draws self).

(** [calculate_signals] as a method: it logs, computes the frame and
    returns it.  The [def place_order_simulation] that follows the
    [return] inside its body is never reached, so the class gets no
    attribute of that name (see [class_attributes]). *)
Definition calculate_signals_method (closes : list Qc) : Py bot frame :=
  self <- get ;;
  log INFO Msg_calculating ;;
  ret (calculate_signals (moving_avg_short self) (moving_avg_long self) closes).

(** Names bound at class level by the [def] statements of the class body,
    and names bound on the instance by [__init__]. *)
Definition class_attributes : list string :=
  ["__init__"; "save_trade_log"; "get_historical_data"; "calculate_signals";
   "log_current_balance"; "run_bot"].

Definition instance_attributes : list string :=
  ["logger"; "simulation_mode"; "symbol"; "interval"; "quantity";
   "moving_avg_short"; "moving_avg_long"; "digital_balance"; "trade_log"].

(** [self.name(...)]: attribute lookup on the instance, then the class;
    a miss raises AttributeError before the call is made. *)
Definition call_method {A} (name : string) (body : Py bot A) : Py bot A :=
  if bool_decide (name ∈ instance_attributes ++ class_attributes)
  then body
  else raise (AttributeError name).

(** One pass of the [while True] loop of [run_bot]; [time.sleep] is not
    modelled. *)
Definition run_bot_try (draws : nat → Qc) : Py bot unit :=
  closes <- call_method "get_historical_data" (get_historical_data draws) ;;
  df <- call_method "calculate_signals" (calculate_signals_method closes) ;;
  call_method "log_current_balance" log_current_balance ;;
  current_signal <- from_option IndexError (Pandas.iloc_neg (signal df) 1) ;;
  previous_signal <- from_option IndexError (Pandas.iloc_neg (signal df) 2) ;;
  log INFO (Msg_signals previous_signal current_signal) ;;
  (if negb (current_signal =? previous_signal)%Z then
     current_price <- from_option IndexError (Pandas.iloc_neg (close df) 1) ;;
     self <- get ;;
     if (current_signal =? 1)%Z && (previous_signal =? -1)%Z then
       log INFO Msg_buy_signal ;;
       call_method "place_order_simulation"
         (place_order_simulation "BUY" (quantity self) current_price)
     else if (current_signal =? -1)%Z && (previous_signal =? 1)%Z then
       log INFO Msg_sell_signal ;;
       call_method "place_order_simulation"
         (place_order_simulation "SELL" (quantity self) current_price)
     else ret tt
   else ret tt) ;;
  call_method "save_trade_log" save_trade_log ;;
  log INFO Msg_waiting.

Definition run_bot_cycle (draws : nat → Qc) : Py bot unit :=
  try_except (run_bot_try draws) (λ e, log ERROR (Msg_loop_error e)).

(** The first [length cycles] passes of the loop, one sequence of draws
    per pass. *)
Definition run_bot (cycles : list (nat → Qc)) : Py bot unit :=
  for_each cycles run_bot_cycle.

(** A sequence of direct calls of [place_order_simulation]; a call that
    raises leaves the state it reached and the next call goes on from
    it. *)
Record order := { order_side : string; order_quantity : Qc; order_price : Qc }.

Definition place order_ : bot → bot :=
  exec (place_order_simulation (order_side order_) (order_quantity order_)
          (order_price order_)).

Definition place_all (orders : list order) (b : bot) : bot :=
  foldl (λ b o, place o b) b orders.

End Simulation.

(** * The live variant ([trading_bot.py]) *)

Module Live.

(** What the Binance client answers during one pass of the loop; [None]
    is a call that raises. *)
Record exchange := {
  klines : option (list Qc);                  (* closes of get_historical_klines *)
  account : option (list (string * (Qc * Qc)));  (* asset, free, locked *)
  order_ack : option (Z * string)             (* orderId, status of create_order *)
}.

Inductive message :=
  | Msg_fetching (symbol : string)
  | Msg_fetched
  | Msg_fetch_error
  | Msg_calculating
  | Msg_market_conditions (price : Qc) (ma_short ma_long : float)
  | Msg_calculate_error
  | Msg_market_data_saved
  | Msg_checking_balance
  | Msg_current_balances
  | Msg_asset_balance (asset : string) (free locked : Qc)
  | Msg_balance_error
  | Msg_attempting (side : string) (quantity : Qc) (symbol : string)
  | Msg_order_placed (order_id : Z) (side : string) (quantity : Qc) (status : string)
  | Msg_order_error
  | Msg_signal_analysis (previous_signal current_signal : Z)
  | Msg_buy_signal
  | Msg_sell_signal
  | Msg_waiting
  | Msg_loop_error (e : exn).

Inductive file :=
  | Market_data (df : frame)
  | Order_json (order_id : Z) (status : string).

(** The instance attributes, the log, the files under [trading_results/]
    and the orders submitted to the exchange. *)
Record bot := {
  logger : list (level * message);
  symbol : string;
  interval : string;
  quantity : Qc;
  moving_avg_short : nat;
  moving_avg_long : nat;
  trading_results : list file;
  submitted : list (string * Qc)
}.

Definition set_logger (f : list (level * message) → list (level * message))
    (b : bot) : bot :=
  {| logger := f (logger b); symbol := symbol b; interval := interval b;
     quantity := quantity b; moving_avg_short := moving_avg_short b;
     moving_avg_long := moving_avg_long b;
     trading_results := trading_results b; submitted := submitted b |}.

Definition set_trading_results (f : list file → list file) (b : bot) : bot :=
  {| logger := logger b; symbol := symbol b; interval := interval b;
     quantity := quantity b; moving_avg_short := moving_avg_short b;
     moving_avg_long := moving_avg_long b;
     trading_results := f (trading_results b); submitted := submitted b |}.

Definition set_submitted (f : list (string * Qc) → list (string * Qc))
    (b : bot) : bot :=
  {| logger := logger b; symbol := symbol b; interval := interval b;
     quantity := quantity b; moving_avg_short := moving_avg_short b;
     moving_avg_long := moving_avg_long b;
     trading_results := trading_results b; submitted := f (submitted b) |}.

Definition init (symbol interval : string) : bot :=
  {| logger := []; symbol := symbol; interval := interval;
     quantity := dec 1 3; moving_avg_short := 20; moving_avg_long := 50;
     trading_results := []; submitted := [] |}.

Local Open Scope py_scope.

Definition log (l : level) (m : message) : Py bot unit :=
  modify (set_logger (λ records, records ++ [(l, m)])).

Definition get_historical_data (ex : exchange) : Py bot (option (list Qc)) :=
  self <- get ;;
  log INFO (Msg_fetching (symbol self)) ;;
  match klines ex with
  | Some closes => log INFO Msg_fetched ;; ret (Some closes)
  | None => log ERROR Msg_fetch_error ;; ret None
  end.

(** The [try] block reads [df['close'].iloc[-1]] for the log line; on an
    empty frame that raises, and the method returns [None]. *)
Definition calculate_signals_method (closes : list Qc) : Py bot (option frame) :=
  self <- get ;;
  log INFO Msg_calculating ;;
  let df := calculate_signals (moving_avg_short self) (moving_avg_long self) closes in
  match Pandas.iloc_neg (close df) 1, Pandas.iloc_neg (MA_short df) 1,
        Pandas.iloc_neg (MA_long df) 1 with
  | Some current_price, Some current_ma_short, Some current_ma_long =>
      log INFO (Msg_market_conditions current_price current_ma_short current_ma_long) ;;
      ret (Some df)
  | _, _, _ => log ERROR Msg_calculate_error ;; ret None
  end.

(** [df.to_csv(filename)]; on [None] the attribute lookup raises. *)
Definition save_market_data (df : option frame) : Py bot unit :=
  match df with
  | Some df =>
      modify (set_trading_results (λ files, files ++ [Market_data df])) ;;
      log INFO Msg_market_data_saved
  | None => raise (AttributeError "to_csv")
  end.

Definition nonzero (entry : string * (Qc * Qc)) : bool :=
  bool_decide (0 < entry.2.1)%Qc || bool_decide (0 < entry.2.2)%Qc.

(** The dict comprehension over [account['balances']]: the assets with a
    positive free or locked amount, a later duplicate replacing an
    earlier one. *)
Definition nonzero_balances (assets : list (string * (Qc * Qc)))
    : gmap string (Qc * Qc) :=
  foldl (λ m entry, <[entry.1 := entry.2]> m) ∅
    (filter (λ entry, nonzero entry = true) assets).

(** [d[key] = value] on the entries of a dict in insertion order: a key
    already present keeps its place and takes the new value, a new key
    goes to the end. *)
Fixpoint dict_setitem (key : string) (value : Qc * Qc)
    (entries : list (string * (Qc * Qc))) : list (string * (Qc * Qc)) :=
  match entries with
  | [] => [(key, value)]
  | (k, v) :: rest =>
      if String.eqb k key then (k, value) :: rest
      else (k, v) :: dict_setitem key value rest
  end.

(** [balances.items()] for the dict of [nonzero_balances]. *)
Definition nonzero_items (assets : list (string * (Qc * Qc)))
    : list (string * (Qc * Qc)) :=
  foldl (λ entries entry, dict_setitem entry.1 entry.2 entries) []
    (filter (λ entry, nonzero entry = true) assets).

Definition check_account_balance (ex : exchange)
    : Py bot (option (gmap string (Qc * Qc))) :=
  log INFO Msg_checking_balance ;;
  match account ex with
  | Some assets =>
      let balances := nonzero_balances assets in
      log INFO Msg_current_balances ;;
      for_each (nonzero_items assets)
        (λ item, log INFO (Msg_asset_balance item.1 item.2.1 item.2.2)) ;;
      ret (Some balances)
  | None => log ERROR Msg_balance_error ;; ret None
  end.

Definition place_order (ex : exchange) (side : string) (quantity : Qc)
    : Py bot (option (Z * string)) :=
  self <- get ;;
  log INFO (Msg_attempting side quantity (symbol self)) ;;
  modify (set_submitted (λ orders, orders ++ [(side, quantity)])) ;;
  match order_ack ex with
  | Some (order_id, status) =>
      modify (set_trading_results (λ files, files ++ [Order_json order_id status])) ;;
      log INFO (Msg_order_placed order_id side quantity status) ;;
      ret (Some (order_id, status))
  | None => log ERROR Msg_order_error ;; ret None
  end.

(** [balances and asset in balances] *)
Definition holds (balances : option (gmap string (Qc * Qc))) (asset : string) : bool :=
  match balances with
  | Some m => negb (bool_decide (m = ∅)) && bool_decide (is_Some (m !! asset))
  | None => false
  end.

Definition run_bot_try (ex : exchange) : Py bot unit :=
  df <- get_historical_data ex ;;
  match df with
  | Some closes =>
      df <- calculate_signals_method closes ;;
      save_market_data df ;;
      column <- from_option TypeError (signal <$> df) ;;
      current_signal <- from_option IndexError (Pandas.iloc_neg column 1) ;;
      previous_signal <- from_option IndexError (Pandas.iloc_neg column 2) ;;
      log INFO (Msg_signal_analysis previous_signal current_signal) ;;
      if negb (current_signal =? previous_signal)%Z then
        balances <- check_account_balance ex ;;
        self <- get ;;
        if (current_signal =? 1)%Z && (previous_signal =? -1)%Z then
          log INFO Msg_buy_signal ;;
          if holds balances "USDT"
          then (place_order ex "BUY" (quantity self) ;; ret tt)
          else ret tt
        else if (current_signal =? -1)%Z && (previous_signal =? 1)%Z then
          log INFO Msg_sell_signal ;;
          let base_asset := remove_USDT (symbol self) in
          if holds balances base_asset
          then (place_order ex "SELL" (quantity self) ;; ret tt)
          else ret tt
        else ret tt
      else ret tt
  | None => ret tt
  end ;;
  log INFO Msg_waiting.

Definition run_bot_cycle (ex : exchange) : Py bot unit :=
  try_except (run_bot_try ex) (λ e, log ERROR (Msg_loop_error e)).

Definition run_bot (cycles : list exchange) : Py bot unit :=
  for_each cycles run_bot_cycle.

End Live.

(** * Specification-side definitions *)

(** The arithmetic mean of a list of closes. *)
Definition arithmetic_mean (l : list Qc) : Qc := Qc_sum l / Qc_of_nat (length l).

(** The last [n] elements pushed. *)
Definition last_n {A} (n : nat) (l : list A) : list A := drop (length l - n) l.

(** [shortAverage()] / [longAverage()] in the words of the specification:
    the mean of the last [w] closes, or "insufficient data" ([None]) while
    fewer than [w] points exist. *)
Definition window_average (w : nat) (pushed : list Qc) : float :=
  if bool_decide (w ≤ length pushed)%nat
  then Some (arithmetic_mean (last_n w pushed))
  else None.

(** The state of the rolling mean once [rows] rows have been processed. *)
Fixpoint state_after {F} `{FloatOps F} (w : nat) (values : list F) (rows : nat)
    : Pandas.mean_state F :=
  match rows with
  | 0%nat => Pandas.setup NaN
  | S i => Pandas.roll_step w values i (state_after w values i)
  end.

(** How many elements of [l] satisfy [p]. *)
Fixpoint count_if {A} (p : A → bool) (l : list A) : nat :=
  match l with
  | [] => 0
  | x :: l' => ((if p x then 1 else 0) + count_if p l')%nat
  end.

(** A value that is not NaN: it compares equal to itself. *)
Definition observed {F} `{FloatOps F} (v : F) : bool := feqb v v.

Definition negative (x : Qc) : bool := bool_decide (x < 0).

(** * Specification-side notions for the simulated ledger *)

Module SimulationSpec.
Import Simulation.

(** The records [log_current_balance] writes for the entries [entries]. *)
Definition balance_records (entries : list (string * Qc)) : list (level * message) :=
  (INFO, Msg_current_balance) ::
  ((λ item : string * Qc, (INFO, Msg_asset_balance item.1 item.2)) <$> entries).

Definition base_asset (b : bot) : string := remove_USDT (symbol b).


(** The ledger has an entry for the quote asset and for the base asset,
    as [__init__] creates it. *)
Definition has_accounts (b : bot) : Prop :=
  is_Some (digital_balance b !! "USDT") ∧ is_Some (digital_balance b !! base_asset b).

(** The precondition of [apply]: ENTER_LONG needs
    [balance[quote] >= quantity * price], EXIT_LONG needs
    [balance[base] >= quantity]. *)
Definition funds_suffice (o : order) (b : bot) : bool :=
  if String.eqb (order_side o) "BUY" then
    match digital_balance b !! "USDT" with
    | Some usdt => bool_decide (order_quantity o * order_price o ≤ usdt)
    | None => false
    end
  else if String.eqb (order_side o) "SELL" then
    match digital_balance b !! base_asset b with
    | Some held => bool_decide (order_quantity o ≤ held)
    | None => false
    end
  else false.

(** The entry a filled order leaves in the log. *)
Definition entry_of (o : order) (resulting : gmap string Qc) : trade :=
  {| trade_type := order_side o; trade_quantity := order_quantity o;
     trade_price := order_price o; trade_balance := resulting |}.

(** The entries a sequence of orders should leave, in call order: one per
    order whose funds suffice, holding the balances right after it. *)
Fixpoint fills_of (orders : list order) (b : bot) : list trade :=
  match orders with
  | [] => []
  | o :: orders' =>
      (if funds_suffice o b then [entry_of o (digital_balance (place o b))] else [])
      ++ fills_of orders' (place o b)
  end.

(** The ledger of [b'] is that of [b]: same balances, same trade log. *)
Definition same_ledger (b b' : bot) : Prop :=
  digital_balance b' = digital_balance b ∧ trade_log b' = trade_log b.

(** How many of the orders were filled. *)
Fixpoint filled_count (orders : list order) (b : bot) : nat :=
  match orders with
  | [] => 0
  | o :: orders' =>
      ((if funds_suffice o b then 1 else 0) + filled_count orders' (place o b))%nat
  end.

(** The draws of a cycle that ends on a DOWN to UP edge: thirty-nine
    closes at 200, twenty at 100, then one at 10000. *)
Definition edge_draws (n : nat) : Qc :=
  if (n <? 39)%nat then Qc_of_Z 200
  else if (n <? 59)%nat then Qc_of_Z 100
  else Qc_of_Z 10000.

(** Reading a dumped trade log back, as [json.load] followed by the
    field accesses would: the inverse of [trade_log_to_json]. *)
Fixpoint field (name : string) (fields : list (string * json)) : option json :=
  match fields with
  | [] => None
  | (k, v) :: fields' => if String.eqb k name then Some v else field name fields'
  end.

Definition json_number (j : json) : option Qc :=
  match j with JNum x => Some x | _ => None end.

Definition json_string (j : json) : option string :=
  match j with JStr s => Some s | _ => None end.

Definition json_object (j : json) : option (list (string * json)) :=
  match j with JObj fields => Some fields | _ => None end.

Definition json_array (j : json) : option (list json) :=
  match j with JArr items => Some items | _ => None end.

Definition balance_of_json (j : json) : option (gmap string Qc) :=
  fields ← json_object j;
  items ← mapM (λ item : string * json, (λ x, (item.1, x)) <$> json_number item.2) fields;
  Some (list_to_map items).

Definition trade_of_json (j : json) : option trade :=
  fields ← json_object j;
  type ← field "type" fields ≫= json_string;
  quantity ← field "quantity" fields ≫= json_number;
  price ← field "price" fields ≫= json_number;
  balance ← field "balance" fields ≫= balance_of_json;
  Some {| trade_type := type; trade_quantity := quantity;
          trade_price := price; trade_balance := balance |}.

Definition trade_log_of_json (j : json) : option (list trade) :=
  items ← json_array j; mapM trade_of_json items.

End SimulationSpec.

(** * Specification-side notions for the live loop *)

Module LiveSpec.
Import Live.

(** What [check_account_balance] returns for the exchange's answer. *)
Definition balances_of (ex : exchange) : option (gmap string (Qc * Qc)) :=
  nonzero_balances <$> account ex.

(** The orders a cycle submits for an action: a buy needs a USDT entry
    among the balances, a sell an entry for the base asset. *)
Definition orders_for (a : Action) (ex : exchange) (b : bot) : list (string * Qc) :=
  match a with
  | NONE => []
  | ENTER_LONG =>
      if holds (balances_of ex) "USDT" then [("BUY", quantity b)] else []
  | EXIT_LONG =>
      if holds (balances_of ex) (remove_USDT (symbol b))
      then [("SELL", quantity b)] else []
  end.

(** The (previous, current) pairs a run has logged, one per cycle that
    got as far as reading them. *)
Definition samples (records : list (level * message)) : list (Z * Z) :=
  omap (λ record : level * message,
          match record.2 with
          | Msg_signal_analysis previous current => Some (previous, current)
          | _ => None
          end) records.

(** The sample invariant as the specification words it: in every cycle
    after the first, [previous] is the [current] of the cycle before. *)
Definition previous_is_prior_current (pairs : list (Z * Z)) : Prop :=
  ∀ i earlier later,
    pairs !! i = Some earlier → pairs !! S i = Some later → later.1 = earlier.2.

(** A fetched series that ends on a DOWN to UP edge: thirty closes at 200,
    twenty at 100, then one at 10000. *)
Definition edge_closes : list Qc :=
  replicate 30 (Qc_of_Z 200) ++ replicate 20 (Qc_of_Z 100) ++ [Qc_of_Z 10000].

Definition edge_exchange : exchange :=
  {| klines := Some edge_closes;
     account := Some [("USDT", (Qc_of_Z 1000, 0))];
     order_ack := Some (1%Z, "FILLED") |}.

End LiveSpec.

(** * The crossover scenario of the specification *)

(** Forty-nine closes at 100 followed by one at 200. *)
Definition scenario_closes : list Qc := replicate 49 (Qc_of_Z 100) ++ [Qc_of_Z 200].

Definition scenario_frame : frame := calculate_signals 20 50 scenario_closes.

(** [x], written with two decimals (as the bot's log line does with
    [:.2f]), reads [hundredths / 100]. *)
Definition shows_as (x : Qc) (hundredths : Z) : Prop :=
  dec (10 * hundredths - 5) 3 ≤ x ∧ x < dec (10 * hundredths + 5) 3.

(** * Further specification-side notions *)

(** Whether the character [c] occurs in [s]. *)
Fixpoint mentions (c : ascii) (s : string) : bool :=
  match s with
  | EmptyString => false
  | String c' s' => Ascii.eqb c' c || mentions c s'
  end.

(** What one cycle of the live loop may add to the submitted orders:
    nothing, one buy or one sell of the configured quantity. *)
Definition at_most_one_order (quantity : Qc) (added : list (string * Qc)) : Prop :=
  added = [] ∨ added = [("BUY", quantity)] ∨ added = [("SELL", quantity)].

(** * The balance checker ([balance_checker.py]) *)

Module BalanceChecker.

(** One element of [account['balances']]; [None] for an amount is a
    string on which [float(..)] raises. *)
Record entry := {
  asset : string;
  free : option Qc;
  locked : option Qc
}.

(** What the Binance client does during one call of [check_balance]:
    whether [Client(..)] and [get_system_status()] return, and what
    [get_account()] answers ([None] when it raises). *)
Record answers := {
  client_ok : bool;
  status_ok : bool;
  account : option (list entry)
}.

(** The [print] calls, one constructor per call site. *)
Inductive line :=
  | Connecting
  | Connection_successful
  | Connection_test_failed
  | Checking_balance
  | Your_current_balances
  | Rule
  | Asset_name (asset : string)
  | Free_amount (free_balance : Qc)
  | Locked_amount (locked_balance : Qc)
  | No_balances_found
  | Account_error
  | Client_error.

(** [float(balance['free'])] then [float(balance['locked'])]. *)
Definition amounts (e : entry) : option (Qc * Qc) :=
  match free e with
  | Some free_balance =>
      match locked e with
      | Some locked_balance => Some (free_balance, locked_balance)
      | None => None
      end
  | None => None
  end.

(** The [for balance in account['balances']] loop: the lines printed and
    the final [found_balance], or [None] in its place when a conversion
    raised. *)
Fixpoint list_balances (balances : list entry) (found_balance : bool)
    : list line * option bool :=
  match balances with
  | [] => ([], Some found_balance)
  | e :: rest =>
      match amounts e with
      | Some (free_balance, locked_balance) =>
          if bool_decide (0 < free_balance) || bool_decide (0 < locked_balance) then
            let '(printed, found) := list_balances rest true in
            ([Asset_name (asset e); Free_amount free_balance;
              Locked_amount locked_balance; Rule] ++ printed, found)
          else list_balances rest found_balance
      | None => ([], None)
      end
  end.

Definition check_balance (a : answers) : list line :=
  [Connecting] ++
  if negb (client_ok a) then [Client_error]
  else if negb (status_ok a) then [Connection_test_failed]
  else
    [Connection_successful; Checking_balance] ++
    match account a with
    | None => [Account_error]
    | Some balances =>
        let '(printed, found) := list_balances balances false in
        [Your_current_balances; Rule] ++ printed ++
        match found with
        | Some true => []
        | Some false => [No_balances_found]
        | None => [Account_error]
        end
    end.

(** An entry whose amounts convert and of which one is positive. *)
Definition has_balance (e : entry) : bool :=
  match amounts e with
  | Some (free_balance, locked_balance) =>
      bool_decide (0 < free_balance) || bool_decide (0 < locked_balance)
  | None => false
  end.

(** The four lines printed for a listed entry. *)
Definition block (e : entry) : list line :=
  match amounts e with
  | Some (free_balance, locked_balance) =>
      [Asset_name (asset e); Free_amount free_balance;
       Locked_amount locked_balance; Rule]
  | None => []
  end.

End BalanceChecker.

(** * The program on binary64 *)

(** ** The frame of [calculate_signals] *)

Module Binary64.

Record frame := {
  close : list PrimFloat.float;
  MA_short : list PrimFloat.float;
  MA_long : list PrimFloat.float;
  signal : list Z
}.

(** [df['signal'] = 0], then [1] where [MA_short > MA_long], then [-1] where
    [MA_short < MA_long]; [a > b] is [b < a]. *)
Definition signal_row (ma_short ma_long : PrimFloat.float) : Z :=
  let s := 0%Z in
  let s := if PrimFloat.ltb ma_long ma_short then 1%Z else s in
  let s := if PrimFloat.ltb ma_short ma_long then (-1)%Z else s in
  s.

Definition signal_column (ma_short ma_long : list PrimFloat.float) : list Z :=
  zip_with signal_row ma_short ma_long.

Definition calculate_signals (moving_avg_short moving_avg_long : nat)
    (closes : list PrimFloat.float) : frame :=
  let ma_s := Pandas.roll_mean moving_avg_short closes in
  let ma_l := Pandas.roll_mean moving_avg_long closes in
  {| close := closes; MA_short := ma_s; MA_long := ma_l;
     signal := signal_column ma_s ma_l |}.

(** The rational that a finite binary64 value stands for; infinities
    and NaN stand for none. *)
Definition value (x : PrimFloat.float) : option Qc :=
  match Prim2SF x with
  | S754_zero _ => Some 0
  | S754_finite s m e =>
      Some (Q2Qc (((if s then -1 else 1) * Z.pos m # 1) * Qpower 2 e))
  | _ => None
  end.

(** The arithmetic mean of the rationals that the values of [window]
    stand for. *)
Definition exact_mean (window : list PrimFloat.float) : float :=
  arithmetic_mean <$> mapM value window.

(** [r], the result of a float operation on [x] and [y], is the exact
    result [op] of the rationals they stand for: nothing was rounded. *)
Definition exact_result (op : Qc → Qc → Qc) (x y r : PrimFloat.float) : Prop :=
  ∃ vx vy, value x = Some vx ∧ value y = Some vy ∧ value r = Some (op vx vy).

End Binary64.

(** ** The simulated ledger

    [place_order_simulation] and what it calls, as in [Simulation], with
    the amounts as the doubles they are.  An int amount (the default
    [initial_balance], the [0] of the base asset) is the double of the
    same value, which Python makes of it at the first [-=] or [+=]. *)

Module Simulation64.

Record trade := {
  trade_type : string;
  trade_quantity : PrimFloat.float;
  trade_price : PrimFloat.float;
  trade_balance : gmap string PrimFloat.float
}.

Inductive message :=
  | Msg_simulating (side : string) (quantity : PrimFloat.float) (symbol : string)
      (price : PrimFloat.float)
  | Msg_buy_completed
  | Msg_not_enough_USDT
  | Msg_sell_completed
  | Msg_not_enough_BTC
  | Msg_current_balance
  | Msg_asset_balance (asset : string) (balance : PrimFloat.float).

Record bot := {
  logger : list (level * message);
  simulation_mode : bool;
  symbol : string;
  interval : string;
  quantity : PrimFloat.float;
  moving_avg_short : nat;
  moving_avg_long : nat;
  digital_balance : gmap string PrimFloat.float;
  balance_order : list string;
  trade_log : list trade
}.

Definition set_logger (f : list (level * message) → list (level * message))
    (b : bot) : bot :=
  {| logger := f (logger b); simulation_mode := simulation_mode b;
     symbol := symbol b; interval := interval b; quantity := quantity b;
     moving_avg_short := moving_avg_short b;
     moving_avg_long := moving_avg_long b;
     digital_balance := digital_balance b;
     balance_order := balance_order b; trade_log := trade_log b |}.

Definition set_digital_balance
    (f : gmap string PrimFloat.float → gmap string PrimFloat.float) (b : bot) : bot :=
  {| logger := logger b; simulation_mode := simulation_mode b;
     symbol := symbol b; interval := interval b; quantity := quantity b;
     moving_avg_short := moving_avg_short b;
     moving_avg_long := moving_avg_long b;
     digital_balance := f (digital_balance b);
     balance_order := balance_order b; trade_log := trade_log b |}.

Definition set_trade_log (f : list trade → list trade) (b : bot) : bot :=
  {| logger := logger b; simulation_mode := simulation_mode b;
     symbol := symbol b; interval := interval b; quantity := quantity b;
     moving_avg_short := moving_avg_short b;
     moving_avg_long := moving_avg_long b;
     digital_balance := digital_balance b;
     balance_order := balance_order b; trade_log := f (trade_log b) |}.

Definition init (symbol : string) (interval : string) (simulation_mode : bool)
    (initial_balance : PrimFloat.float) : bot :=
  {| logger := [];
     simulation_mode := simulation_mode;
     symbol := symbol;
     interval := interval;
     quantity := 0.001%float;
     moving_avg_short := 20;
     moving_avg_long := 50;
     digital_balance :=
       <[remove_USDT symbol := 0%float]> (<["USDT" := initial_balance]> ∅);
     balance_order :=
       if String.eqb (remove_USDT symbol) "USDT" then ["USDT"]
       else ["USDT"; remove_USDT symbol];
     trade_log := [] |}.

Local Open Scope py_scope.

Definition log (l : level) (m : message) : Py bot unit :=
  modify (set_logger (λ records, records ++ [(l, m)])).

Definition balance_getitem (key : string) : Py bot PrimFloat.float :=
  self <- get ;;
  from_option (KeyError key) (digital_balance self !! key).

Definition balance_setitem (key : string) (value : PrimFloat.float) : Py bot unit :=
  modify (set_digital_balance (insert key value)).

Definition balance_isub (key : string) (amount : PrimFloat.float) : Py bot unit :=
  old <- balance_getitem key ;;
  balance_setitem key (old - amount)%float.

Definition balance_iadd (key : string) (amount : PrimFloat.float) : Py bot unit :=
  old <- balance_getitem key ;;
  balance_setitem key (old + amount)%float.

Definition trade_log_append (type : string) (quantity price : PrimFloat.float)
    : Py bot unit :=
  self <- get ;;
  modify (set_trade_log (λ entries, entries ++
    [{| trade_type := type; trade_quantity := quantity;
        trade_price := price; trade_balance := digital_balance self |}])).

Definition items (order : list string) (balance : gmap string PrimFloat.float)
    : list (string * PrimFloat.float) :=
  omap (λ asset, (λ amount, (asset, amount)) <$> balance !! asset) order.

Definition digital_balance_items (b : bot) : list (string * PrimFloat.float) :=
  items (balance_order b) (digital_balance b).

Definition log_current_balance : Py bot unit :=
  log INFO Msg_current_balance ;;
  self <- get ;;
  for_each (digital_balance_items self)
    (λ item, log INFO (Msg_asset_balance item.1 item.2)).

(** The body of [place_order_simulation] (lines 85-112); [a >= b] is
    [b <= a]. *)
Definition place_order_simulation (side : string) (quantity price : PrimFloat.float)
    : Py bot unit :=
  self <- get ;;
  let base_asset := remove_USDT (symbol self) in
  log INFO (Msg_simulating side quantity (symbol self) price) ;;
  (if String.eqb side "BUY" then
     let cost := (quantity * price)%float in
     usdt <- balance_getitem "USDT" ;;
     if PrimFloat.leb cost usdt then
       balance_isub "USDT" cost ;;
       balance_iadd base_asset quantity ;;
       trade_log_append "BUY" quantity price ;;
       log INFO Msg_buy_completed
     else
       log WARNING Msg_not_enough_USDT
   else if String.eqb side "SELL" then
     held <- balance_getitem base_asset ;;
     if PrimFloat.leb quantity held then
       balance_isub base_asset quantity ;;
       balance_iadd "USDT" (quantity * price)%float ;;
       trade_log_append "SELL" quantity price ;;
       log INFO Msg_sell_completed
     else
       log WARNING Msg_not_enough_BTC
   else ret tt) ;;
  log_current_balance.

(** The records [log_current_balance] writes for the entries [entries]. *)
Definition balance_records (entries : list (string * PrimFloat.float))
    : list (level * message) :=
  (INFO, Msg_current_balance) ::
  ((λ item : string * PrimFloat.float, (INFO, Msg_asset_balance item.1 item.2))
     <$> entries).

Definition base_asset (b : bot) : string := remove_USDT (symbol b).

(** Quote balance plus base balance valued at [price], as the rational
    the three doubles stand for. *)
Definition portfolio_value (price : PrimFloat.float) (b : bot) : option Qc :=
  match digital_balance b !! "USDT" ≫= Binary64.value,
        digital_balance b !! base_asset b ≫= Binary64.value,
        Binary64.value price with
  | Some usdt, Some held, Some p => Some (usdt + p * held)
  | _, _, _ => None
  end.

End Simulation64.

(** * Reasoning about method bodies *)

(** [wp m s Q]: running [m] from [s] ends in a result and a state that
    satisfy [Q]. *)
Definition wp {St A} (m : Py St A) (s : St) (Q : result A → St → Prop) : Prop :=
  Q (m s).1 (m s).2.

(** * Properties of the rolling mean *)

Lemma length_last_n {A} (n : nat) (l : list A) :
  length (last_n n l) = (n `min` length l)%nat.
Proof. unfold last_n. rewrite length_drop. lia. Qed.

Section roll_mean_facts.
Context {F : Type} `{FloatOps F}.
Implicit Types (st : Pandas.mean_state F) (values l : list F).
Import Pandas.

Lemma count_if_app {A} (p : A → bool) (l1 l2 : list A) :
  count_if p (l1 ++ l2) = (count_if p l1 + count_if p l2)%nat.
Proof. induction l1 as [|x l1 IH]; simpl; [done | rewrite IH; lia]. Qed.

Lemma count_if_le {A} (p : A → bool) (l : list A) : (count_if p l ≤ length l)%nat.
Proof. induction l as [|x l IH]; simpl; [done | destruct (p x); lia]. Qed.

Lemma count_if_all {A} (p : A → bool) (l : list A) :
  Forall (λ x, p x = true) l → count_if p l = length l.
Proof. induction 1 as [|x l Hx _ IH]; simpl; [done | rewrite Hx, IH; lia]. Qed.

Lemma slice_app values (a b c : nat) :
  (a ≤ b ≤ c)%nat → slice values a c = slice values a b ++ slice values b c.
Proof.
  intros Habc. unfold slice. rewrite !skipn_firstn_comm.
  replace (c - a)%nat with ((b - a) + (c - b))%nat by lia.
  rewrite <- take_take_drop, drop_drop.
  by replace (a + (b - a))%nat with b by lia.
Qed.

Lemma slice_nil values (a : nat) : slice values a a = [].
Proof. unfold slice. rewrite skipn_firstn_comm, Nat.sub_diag. by rewrite take_0. Qed.

Lemma slice_one values (i : nat) (x : F) :
  values !! i = Some x → slice values i (S i) = [x].
Proof.
  intros Hx. unfold slice. rewrite skipn_firstn_comm.
  replace (S i - i)%nat with 1%nat by lia.
  rewrite (drop_S _ _ _ Hx). by rewrite firstn_cons, take_0.
Qed.

Lemma length_slice values (a b : nat) : (length (slice values a b) ≤ b - a)%nat.
Proof. unfold slice. rewrite skipn_firstn_comm, length_take. lia. Qed.

Lemma length_slice_within values (a b : nat) :
  (a ≤ b ≤ length values)%nat → length (slice values a b) = (b - a)%nat.
Proof. intros Hab. unfold slice. rewrite length_drop, length_take. lia. Qed.

Lemma slice_lookup values (a b j : nat) :
  (j < b - a)%nat → slice values a b !! j = values !! (a + j)%nat.
Proof.
  intros Hj. unfold slice. rewrite lookup_drop, lookup_take_lt by lia. done.
Qed.

Lemma length_roll_loop (w : nat) values (rows i : nat) st :
  length (roll_loop w values i st rows) = rows.
Proof.
  revert i st. induction rows as [|rows IH]; intros i st; [done|].
  cbn [roll_loop length]. by rewrite IH.
Qed.

Lemma length_roll_mean (w : nat) values : length (roll_mean w values) = length values.
Proof. apply length_roll_loop. Qed.

Lemma roll_loop_lookup (w : nat) values (rows i j : nat) :
  (j < rows)%nat →
  roll_loop w values i (state_after w values i) rows !! j
  = Some (calc_mean w (state_after w values (S (i + j)))).
Proof.
  revert i j. induction rows as [|rows IH]; intros i j Hj; [lia|].
  cbn [roll_loop]. destruct j as [|j].
  - by rewrite Nat.add_0_r.
  - change (roll_loop w values (S i) (state_after w values (S i)) rows !! j
            = Some (calc_mean w (state_after w values (S (i + S j))))).
    rewrite (IH (S i) j) by lia. do 3 f_equal. lia.
Qed.

(** Row [i] of the output is read off the state that the first [i + 1]
    rows leave. *)
Lemma roll_mean_lookup_state (w : nat) values (i : nat) :
  (i < length values)%nat →
  roll_mean w values !! i = Some (calc_mean w (state_after w values (S i))).
Proof.
  intros Hi. unfold roll_mean.
  change (setup NaN) with (state_after w values 0).
  by rewrite roll_loop_lookup.
Qed.

Lemma add_mean_unfold (val : F) st :
  add_mean val st =
  if observed val then
    {| nobs := S (nobs st);
       sum_x := fadd (sum_x st) (fsub val (compensation_add st));
       neg_ct := if signbit val then S (neg_ct st) else neg_ct st;
       compensation_add :=
         fsub (fsub (fadd (sum_x st) (fsub val (compensation_add st))) (sum_x st))
           (fsub val (compensation_add st));
       compensation_remove := compensation_remove st;
       num_consecutive_same_value :=
         if feqb val (prev_value st) then S (num_consecutive_same_value st) else 1;
       prev_value := val |}
  else st.
Proof. reflexivity. Qed.

Lemma foldl_add_nobs l st :
  nobs (foldl (λ st val, add_mean val st) st l) = (nobs st + count_if observed l)%nat.
Proof.
  revert st. induction l as [|x l IH]; intros st; cbn [foldl count_if]; [lia|].
  rewrite IH. unfold add_mean, observed. destruct (feqb x x); cbn [nobs]; lia.
Qed.

Lemma foldl_remove_nobs l st :
  nobs (foldl (λ st val, remove_mean val st) st l) = (nobs st - count_if observed l)%nat.
Proof.
  revert st. induction l as [|x l IH]; intros st; cbn [foldl count_if]; [lia|].
  rewrite IH. unfold remove_mean, observed. destruct (feqb x x); cbn [nobs]; lia.
Qed.

Lemma foldl_remove_run l st :
  prev_value (foldl (λ st val, remove_mean val st) st l) = prev_value st ∧
  num_consecutive_same_value (foldl (λ st val, remove_mean val st) st l)
  = num_consecutive_same_value st.
Proof.
  revert st. induction l as [|x l IH]; intros st; cbn [foldl]; [done|].
  destruct (IH (remove_mean x st)) as [-> ->].
  unfold remove_mean. by destruct (feqb x x).
Qed.

(** The steps of [roll_step] on a row after the first of a window of at
    least two rows: the close that left is removed, the new one added. *)
Lemma roll_step_slide (w : nat) values (i : nat) st :
  (2 ≤ w)%nat →
  roll_step w values (S i) st
  = foldl (λ st val, add_mean val st)
      (foldl (λ st val, remove_mean val st) st (slice values (S i - w) (S (S i) - w)))
      (slice values (S i) (S (S i))).
Proof.
  intros Hw. unfold roll_step, window_start.
  rewrite bool_decide_eq_false_2 by lia.
  rewrite bool_decide_eq_false_2 by lia.
  cbn [orb]. by replace (S i - 1)%nat with i by lia.
Qed.

Lemma roll_step_setup (w : nat) values (i : nat) st :
  (i = 0 ∨ w ≤ 1)%nat →
  roll_step w values i st
  = foldl (λ st val, add_mean val st) (setup (default NaN (values !! (S i - w)%nat)))
      (slice values (S i - w) (S i)).
Proof.
  intros Hcase. unfold roll_step, window_start.
  destruct (decide (i = 0%nat)) as [->|Hi].
  - by rewrite bool_decide_eq_true_2 by done.
  - rewrite (bool_decide_eq_true_2 (i ≤ S i - w)%nat) by lia.
    by rewrite orb_true_r.
Qed.

(** The count of observations is the number of values of the window
    that are not NaN. *)
Lemma state_after_nobs (w : nat) values (i : nat) :
  (i < length values)%nat →
  nobs (state_after w values (S i)) = count_if observed (slice values (S i - w) (S i)).
Proof.
  induction i as [|i IH]; intros Hi; cbn [state_after].
  - rewrite roll_step_setup by lia. by rewrite foldl_add_nobs.
  - destruct (decide (w ≤ 1)%nat) as [Hw|Hw].
    + rewrite roll_step_setup by lia. by rewrite foldl_add_nobs.
    + rewrite roll_step_slide by lia.
      rewrite foldl_add_nobs, foldl_remove_nobs.
      change (roll_step w values i (state_after w values i))
        with (state_after w values (S i)).
      rewrite IH by lia.
      rewrite (slice_app values (S i - w) (S (S i) - w) (S i)) by lia.
      rewrite (slice_app values (S (S i) - w) (S i) (S (S i))) by lia.
      rewrite !count_if_app. lia.
Qed.

(** While fewer than [w] rows exist the row is NaN. *)
Lemma roll_mean_insufficient (w : nat) values (i : nat) :
  (i < length values)%nat → (S i < w)%nat → roll_mean w values !! i = Some NaN.
Proof.
  intros Hi Hw. rewrite roll_mean_lookup_state by done. f_equal.
  unfold calc_mean. rewrite state_after_nobs by done.
  pose proof (count_if_le observed (slice values (S i - w) (S i))) as Hle.
  pose proof (length_slice values (S i - w) (S i)) as Hlen.
  by rewrite bool_decide_eq_false_2 by lia.
Qed.

(** When the last [k] values are one and the same observed value, that
    value is [prev_value] and the run counter is at least [k]. *)
Lemma state_after_run (w : nat) values (c : F) (i k : nat) :
  observed c = true → (i < length values)%nat → (1 ≤ k ≤ w)%nat → (k ≤ S i)%nat →
  (∀ j, (S i - k ≤ j ≤ i)%nat → values !! j = Some c) →
  prev_value (state_after w values (S i)) = c ∧
  (k ≤ num_consecutive_same_value (state_after w values (S i)))%nat.
Proof.
  intros Hc. revert k. induction i as [|i IH]; intros k Hi Hk Hki Hrun.
  - cbn [state_after]. rewrite roll_step_setup by lia.
    replace (1 - w)%nat with 0%nat by lia.
    rewrite (slice_one values 0 c) by (apply Hrun; lia).
    rewrite (Hrun 0%nat) by lia. cbn [foldl default].
    rewrite add_mean_unfold, Hc. cbn [prev_value num_consecutive_same_value setup].
    split; [done | destruct (feqb c _); lia].
  - cbn [state_after].
    change (roll_step w values i (state_after w values i))
      with (state_after w values (S i)).
    destruct (decide (w ≤ 1)%nat) as [Hw|Hw].
    + rewrite roll_step_setup by lia.
      replace (S (S i) - w)%nat with (S i) by lia.
      rewrite (slice_one values (S i) c) by (apply Hrun; lia).
      rewrite (Hrun (S i)) by lia. cbn [foldl default].
      rewrite add_mean_unfold, Hc. cbn [prev_value num_consecutive_same_value setup].
      split; [done | destruct (feqb c _); lia].
    + rewrite roll_step_slide by lia.
      rewrite (slice_one values (S i) c) by (apply Hrun; lia).
      cbn [foldl]. rewrite add_mean_unfold, Hc.
      cbn [prev_value num_consecutive_same_value].
      split; [done|].
      destruct (foldl_remove_run (slice values (S i - w) (S (S i) - w))
                  (state_after w values (S i))) as [-> ->].
      destruct (decide (k = 1%nat)) as [->|Hk1].
      { destruct (feqb c _); lia. }
      destruct (IH (k - 1)%nat) as [-> Hle]; [lia | lia | lia | |].
      { intros j Hj. apply Hrun. lia. }
      unfold observed in Hc. rewrite Hc. lia.
Qed.

(** A window whose [w] values are one and the same observed value has
    exactly that value as its mean, whatever came before it. *)
Lemma roll_mean_constant_window (w : nat) values (c : F) (i : nat) :
  observed c = true → (i < length values)%nat → (0 < w ≤ S i)%nat →
  (∀ j, (S i - w ≤ j ≤ i)%nat → values !! j = Some c) →
  roll_mean w values !! i = Some c.
Proof.
  intros Hc Hi Hw Hrun. rewrite roll_mean_lookup_state by done. f_equal.
  destruct (state_after_run w values c i w Hc Hi) as [Hprev Hcount]; [lia | lia | done |].
  unfold calc_mean. rewrite state_after_nobs by done.
  assert (count_if observed (slice values (S i - w) (S i)) = w) as ->.
  { rewrite count_if_all.
    - rewrite length_slice_within by lia. lia.
    - apply Forall_lookup. intros j x Hx.
      assert (j < S i - (S i - w))%nat as Hj.
      { apply lookup_lt_Some in Hx.
        pose proof (length_slice values (S i - w) (S i)). lia. }
      rewrite slice_lookup in Hx by done.
      rewrite Hrun in Hx by lia. by injection Hx as <-. }
  rewrite !bool_decide_eq_true_2 by lia. done.
Qed.

End roll_mean_facts.

(** ** The rolling mean in exact arithmetic *)

Lemma Qc_sum_app (l1 l2 : list Qc) : Qc_sum (l1 ++ l2) = Qc_sum l1 + Qc_sum l2.
Proof. induction l1 as [|x l1 IH]; simpl; [ring | rewrite IH; ring]. Qed.

Lemma Qclt_irrefl' (x : Qc) : ¬ x < x.
Proof. intros H. by destruct (Qclt_not_eq _ _ H). Qed.

Lemma Qc_of_nat_S (n : nat) : Qc_of_nat (S n) = Qc_of_nat n + 1.
Proof.
  unfold Qc_of_nat. by rewrite Nat2Z.inj_succ, <- Z.add_1_r, Z2Qc_inj_add, Z2Qc_inj_1.
Qed.

Lemma Qc_of_nat_pos (n : nat) : (0 < n)%nat → 0 < Qc_of_nat n.
Proof.
  intros Hn. unfold Qc_of_nat. rewrite <- Z2Qc_inj_0.
  apply (proj1 (Z2Qc_inj_lt 0 (Z.of_nat n))). lia.
Qed.

Lemma Qc_sum_constant (c : Qc) (l : list Qc) :
  Forall (λ x, x = c) l → Qc_sum l = Qc_of_nat (length l) * c.
Proof.
  induction 1 as [|x l -> _ IH].
  - change (Qc_of_nat (length [])) with (Qc_of_Z 0). by rewrite Z2Qc_inj_0, Qcmult_0_l.
  - cbn [length Qc_sum]. rewrite Qc_of_nat_S, IH. ring.
Qed.

Lemma Qc_sum_nonneg (l : list Qc) : Forall (λ x, 0 ≤ x) l → 0 ≤ Qc_sum l.
Proof.
  induction 1 as [|x l Hx _ IH]; cbn [Qc_sum]; [apply Qcle_refl|].
  by apply Qcplus_nonneg_nonneg.
Qed.

Lemma Qc_sum_negative (l : list Qc) : l ≠ [] → Forall (λ x, x < 0) l → Qc_sum l < 0.
Proof.
  intros Hne Hall. destruct Hall as [|x l Hx Hall]; [done|]. clear Hne.
  cbn [Qc_sum].
  assert (Qc_sum l ≤ 0) as Hrest.
  { clear x Hx. induction Hall as [|y l Hy _ IH]; cbn [Qc_sum]; [apply Qcle_refl|].
    rewrite <- (Qcplus_0_r 0). apply Qcplus_le_compat; [by apply Qclt_le_weak | done]. }
  rewrite <- (Qcplus_0_r 0).
  apply Qclt_le_trans with (0 + Qc_sum l).
  - by apply Qcplus_lt_mono_r.
  - by apply Qcplus_le_mono_l.
Qed.

Section exact_rolling_mean.
Variable w : nat.
Variable closes : list Qc.
Import Pandas.


Lemma slice_fmap (a b : nat) : slice (Some <$> closes) a b = Some <$> slice closes a b.
Proof. unfold slice. by rewrite fmap_drop, fmap_take. Qed.

Lemma count_observed (l : list Qc) : count_if observed (Some <$> l) = length l.
Proof.
  rewrite count_if_all; [by rewrite length_fmap|].
  apply Forall_fmap, Forall_forall. intros x _. cbn. by apply bool_decide_eq_true.
Qed.

Lemma add_mean_exact (x : Qc) (st : mean_state (option Qc)) (total : Qc) :
  sum_x st = Some total → compensation_add st = Some 0 →
  add_mean (Some x) st
  = {| nobs := S (nobs st);
       sum_x := Some (total + x);
       neg_ct := if bool_decide (x < 0) then S (neg_ct st) else neg_ct st;
       compensation_add := Some 0;
       compensation_remove := compensation_remove st;
       num_consecutive_same_value :=
         if feqb (Some x) (prev_value st) then S (num_consecutive_same_value st) else 1;
       prev_value := Some x |}.
Proof.
  intros Hs Hc. rewrite add_mean_unfold.
  assert (observed (Some x) = true) as -> by (cbn; by apply bool_decide_eq_true).
  rewrite Hs, Hc. cbn [fadd fsub signbit exact]. f_equal.
  - f_equal. ring.
  - f_equal. ring.
Qed.

Lemma remove_mean_exact (x : Qc) (st : mean_state (option Qc)) (total : Qc) :
  sum_x st = Some total → compensation_remove st = Some 0 →
  remove_mean (Some x) st
  = {| nobs := pred (nobs st);
       sum_x := Some (total - x);
       neg_ct := if bool_decide (x < 0) then pred (neg_ct st) else neg_ct st;
       compensation_add := compensation_add st;
       compensation_remove := Some 0;
       num_consecutive_same_value := num_consecutive_same_value st;
       prev_value := prev_value st |}.
Proof.
  intros Hs Hc. unfold remove_mean.
  assert (feqb (Some x) (Some x) = true) as -> by (cbn; by apply bool_decide_eq_true).
  rewrite Hs, Hc. cbn [fadd fsub fopp signbit exact]. f_equal.
  - f_equal. ring.
  - f_equal. ring.
Qed.

Lemma foldl_add_exact (l : list Qc) (st : mean_state (option Qc)) (total : Qc) :
  sum_x st = Some total → compensation_add st = Some 0 →
  let st' := foldl (λ st val, add_mean val st) st (Some <$> l) in
  sum_x st' = Some (total + Qc_sum l) ∧ compensation_add st' = Some 0 ∧
  compensation_remove st' = compensation_remove st ∧
  neg_ct st' = (neg_ct st + count_if negative l)%nat.
Proof.
  revert st total. induction l as [|x l IH]; intros st total Hs Hc; cbn [foldl fmap list_fmap].
  - split; [by rewrite Hs, Qcplus_0_r|]. split; [done|]. split; [done|]. cbn. lia.
  - rewrite (add_mean_exact x st total Hs Hc).
    match goal with
    | |- context [foldl _ ?s _] =>
        destruct (IH s (total + x) eq_refl eq_refl) as (-> & -> & -> & ->)
    end.
    cbn [compensation_remove neg_ct count_if Qc_sum].
    split; [f_equal; ring|]. split; [done|]. split; [done|].
    change (negative x) with (bool_decide (x < 0)).
    destruct (bool_decide (x < 0)); lia.
Qed.

Lemma foldl_remove_exact (l : list Qc) (st : mean_state (option Qc)) (total : Qc) :
  sum_x st = Some total → compensation_remove st = Some 0 →
  let st' := foldl (λ st val, remove_mean val st) st (Some <$> l) in
  sum_x st' = Some (total - Qc_sum l) ∧ compensation_remove st' = Some 0 ∧
  compensation_add st' = compensation_add st ∧
  neg_ct st' = (neg_ct st - count_if negative l)%nat.
Proof.
  revert st total. induction l as [|x l IH]; intros st total Hs Hc; cbn [foldl fmap list_fmap].
  - split; [rewrite Hs; f_equal; cbn; ring|]. split; [done|]. split; [done|]. cbn. lia.
  - rewrite (remove_mean_exact x st total Hs Hc).
    match goal with
    | |- context [foldl _ ?s _] =>
        destruct (IH s (total - x) eq_refl eq_refl) as (-> & -> & -> & ->)
    end.
    cbn [compensation_add neg_ct count_if Qc_sum].
    split; [f_equal; ring|]. split; [done|]. split; [done|].
    change (negative x) with (bool_decide (x < 0)).
    destruct (bool_decide (x < 0)); lia.
Qed.

(** In exact arithmetic the running sum is the sum of the window, the
    compensations stay zero, and the count of negative values is that of
    the window. *)
Lemma state_after_exact (i : nat) :
  (i < length closes)%nat →
  let st := state_after w (Some <$> closes) (S i) in
  let window := slice closes (S i - w) (S i) in
  sum_x st = Some (Qc_sum window) ∧ compensation_add st = Some 0 ∧
  compensation_remove st = Some 0 ∧ neg_ct st = count_if negative window.
Proof.
  induction i as [|i IH]; intros Hi; cbn zeta.
  - cbn [state_after]. rewrite roll_step_setup by lia. rewrite slice_fmap.
    match goal with
    | |- context [foldl _ ?s _] =>
        destruct (foldl_add_exact (slice closes (1 - w) 1) s 0 eq_refl eq_refl)
          as (-> & -> & -> & ->)
    end.
    cbn [setup compensation_remove neg_ct]. by rewrite Qcplus_0_l.
  - specialize (IH ltac:(lia)). cbn zeta in IH. destruct IH as (Hs & Hca & Hcr & Hn).
    cbn [state_after].
    change (roll_step w (Some <$> closes) i (state_after w (Some <$> closes) i))
      with (state_after w (Some <$> closes) (S i)).
    destruct (decide (w ≤ 1)%nat) as [Hw|Hw].
    + rewrite roll_step_setup by lia. rewrite slice_fmap.
      match goal with
      | |- context [foldl _ ?s _] =>
          destruct (foldl_add_exact (slice closes (S (S i) - w) (S (S i))) s 0
                      eq_refl eq_refl) as (-> & -> & -> & ->)
      end.
      cbn [setup compensation_remove neg_ct]. by rewrite Qcplus_0_l.
    + rewrite roll_step_slide by lia. rewrite !slice_fmap.
      destruct (foldl_remove_exact (slice closes (S i - w) (S (S i) - w))
                  (state_after w (Some <$> closes) (S i)) _ Hs Hcr) as (Hs1 & Hcr1 & Hca1 & Hn1).
      rewrite Hca in Hca1.
      edestruct (foldl_add_exact (slice closes (S i) (S (S i))) _ _ Hs1 Hca1)
        as (-> & -> & -> & ->).
      rewrite Hcr1, Hn1, Hn.
      rewrite (slice_app closes (S i - w) (S (S i) - w) (S i)) by lia.
      rewrite (slice_app closes (S (S i) - w) (S i) (S (S i))) by lia.
      rewrite !Qc_sum_app, !count_if_app.
      split; [f_equal; ring|]. split; [done|]. split; [done|]. lia.
Qed.

Lemma observed_exact (x : Qc) : observed (Some x) = true.
Proof. cbn. by apply bool_decide_eq_true. Qed.

(** The closes of the current run are all equal to the last one. *)
Lemma state_after_exact_run (i : nat) (x : Qc) :
  (0 < w)%nat → closes !! i = Some x →
  let st := state_after w (Some <$> closes) (S i) in
  prev_value st = Some x ∧
  ∀ j, (j < num_consecutive_same_value st)%nat → (j ≤ i)%nat →
       closes !! (i - j)%nat = Some x.
Proof.
  intros Hw. revert x. induction i as [|i IH]; intros x Hx; cbn zeta.
  - cbn [state_after]. rewrite roll_step_setup by lia.
    replace (1 - w)%nat with 0%nat by lia.
    rewrite (slice_one (Some <$> closes) 0 (Some x)) by (by rewrite list_lookup_fmap, Hx).
    cbn [foldl]. rewrite add_mean_unfold, observed_exact.
    cbn [prev_value num_consecutive_same_value].
    split; [done|]. intros j Hj _.
    destruct (feqb (Some x) _); cbn [setup num_consecutive_same_value] in Hj;
      by replace j with 0%nat by lia.
  - assert (is_Some (closes !! i)) as [x' Hx'].
    { apply lookup_lt_is_Some. apply lookup_lt_Some in Hx. lia. }
    destruct (IH x' Hx') as [Hprev Hrun].
    cbn [state_after].
    change (roll_step w (Some <$> closes) i (state_after w (Some <$> closes) i))
      with (state_after w (Some <$> closes) (S i)).
    destruct (decide (w ≤ 1)%nat) as [Hw1|Hw1].
    + rewrite roll_step_setup by lia.
      replace (S (S i) - w)%nat with (S i) by lia.
      rewrite (slice_one (Some <$> closes) (S i) (Some x)) by (by rewrite list_lookup_fmap, Hx).
      cbn [foldl]. rewrite add_mean_unfold, observed_exact.
      cbn [prev_value num_consecutive_same_value].
      split; [done|]. intros j Hj _.
      destruct (feqb (Some x) _); cbn [setup num_consecutive_same_value] in Hj;
        replace j with 0%nat by lia; by rewrite Nat.sub_0_r.
    + rewrite roll_step_slide by lia.
      rewrite (slice_one (Some <$> closes) (S i) (Some x)) by (by rewrite list_lookup_fmap, Hx).
      cbn [foldl]. rewrite add_mean_unfold, observed_exact.
      cbn [prev_value num_consecutive_same_value].
      split; [done|].
      destruct (foldl_remove_run (slice (Some <$> closes) (S i - w) (S (S i) - w))
                  (state_after w (Some <$> closes) (S i))) as [-> ->].
      rewrite Hprev. cbn [feqb exact].
      case_bool_decide as Heq; intros j Hj Hji.
      * subst x'. destruct j as [|j]; [by rewrite Nat.sub_0_r|].
        replace (S i - S j)%nat with (i - j)%nat by lia. apply Hrun; lia.
      * replace j with 0%nat by lia. by rewrite Nat.sub_0_r.
Qed.

Lemma count_negative_none (l : list Qc) :
  count_if negative l = 0%nat → Forall (λ x, 0 ≤ x) l.
Proof.
  induction l as [|x l IH]; cbn [count_if]; [done|].
  change (negative x) with (bool_decide (x < 0)).
  case_bool_decide as Hx; [lia|]. intros Hl.
  constructor; [by apply Qcnot_lt_le | by apply IH].
Qed.

Lemma count_negative_all (l : list Qc) :
  count_if negative l = length l → Forall (λ x, x < 0) l.
Proof.
  induction l as [|x l IH]; cbn [count_if length]; [done|].
  pose proof (count_if_le negative l) as Hle.
  change (negative x) with (bool_decide (x < 0)).
  case_bool_decide as Hx; [|lia]. intros Hl.
  constructor; [done | apply IH; lia].
Qed.

End exact_rolling_mean.

Lemma last_n_take_slice (w : nat) (closes : list Qc) (i : nat) :
  (i < length closes)%nat →
  last_n w (take (S i) closes) = Pandas.slice closes (S i - w) (S i).
Proof.
  intros Hi. unfold last_n, Pandas.slice. rewrite length_take.
  by replace (S i `min` length closes)%nat with (S i) by lia.
Qed.

Lemma arithmetic_mean_sign (l : list Qc) :
  l ≠ [] →
  (Forall (λ x, 0 ≤ x) l → ¬ arithmetic_mean l < 0) ∧
  (Forall (λ x, x < 0) l → ¬ 0 < arithmetic_mean l) ∧
  (∀ c, Forall (λ x, x = c) l → arithmetic_mean l = c).
Proof.
  intros Hne.
  assert (0 < Qc_of_nat (length l)) as Hpos.
  { apply Qc_of_nat_pos. destruct l; simpl; [done | lia]. }
  assert (Qc_of_nat (length l) ≠ 0) as Hnz.
  { intros E. rewrite E in Hpos. by apply Qclt_irrefl' in Hpos. }
  pose proof (Qcinv_pos _ Hpos) as Hinv.
  unfold arithmetic_mean, Qcdiv. split; [|split].
  - intros Hall Hlt. apply Qc_sum_nonneg in Hall.
    apply (Qclt_not_le _ _ Hlt).
    apply Qcmult_nonneg_nonneg; [done | by apply Qclt_le_weak].
  - intros Hall Hlt. apply (Qc_sum_negative l Hne) in Hall.
    apply (Qcmult_lt_compat_r _ _ _ Hinv) in Hall. rewrite Qcmult_0_l in Hall.
    exact (Qclt_irrefl' _ (Qclt_trans _ _ _ Hlt Hall)).
  - intros c Hall. rewrite (Qc_sum_constant c l Hall).
    rewrite (Qcmult_comm (Qc_of_nat (length l))), <- Qcmult_assoc.
    by rewrite Qcmult_inv_r, Qcmult_1_r.
Qed.

(** Row [i] of the rolling mean in exact arithmetic is the mean of the
    last [w] of the first [i + 1] closes, and NaN while fewer than [w]
    closes exist. *)
Lemma rolling_mean_lookup (w : nat) (closes : list Qc) (i : nat) :
  (i < length closes)%nat →
  Pandas.rolling_mean w closes !! i
  = Some (if bool_decide (0 < w)%nat
          then window_average w (take (S i) closes) else None).
Proof.
  intros Hi. unfold Pandas.rolling_mean, window_average, float.
  assert (i < length (Some <$> closes : list (option Qc)))%nat as Hi'
    by (by rewrite length_fmap).
  rewrite roll_mean_lookup_state by done. f_equal. rewrite length_take.
  replace (S i `min` length closes)%nat with (S i) by lia.
  unfold Pandas.calc_mean. rewrite state_after_nobs by done.
  rewrite slice_fmap, count_observed.
  rewrite length_slice_within by lia.
  destruct (decide (0 < w ≤ S i)%nat) as [Hw|Hw].
  2:{ rewrite (bool_decide_ext (0 < S i - (S i - w))%nat (0 < w)%nat) by lia.
      rewrite (bool_decide_ext (w ≤ S i - (S i - w))%nat (w ≤ S i)%nat) by lia.
      destruct (bool_decide (w ≤ S i)%nat) eqn:E1, (bool_decide (0 < w)%nat) eqn:E2;
        try reflexivity.
      apply bool_decide_eq_true in E1, E2. lia. }
  replace (S i - (S i - w))%nat with w by lia.
  rewrite (bool_decide_eq_true_2 (w ≤ w)%nat) by lia.
  rewrite (bool_decide_eq_true_2 (0 < w)%nat) by lia.
  rewrite (bool_decide_eq_true_2 (w ≤ S i)%nat) by lia. cbn [andb].
  rewrite last_n_take_slice by done.
  set (window := Pandas.slice closes (S i - w) (S i)).
  assert (length window = w) as Hlen by (unfold window; rewrite length_slice_within; lia).
  assert (window ≠ []) as Hne by (intros E; rewrite E in Hlen; simpl in Hlen; lia).
  destruct (arithmetic_mean_sign window Hne) as (Hnonneg & Hneg & Hconst).
  destruct (state_after_exact w closes i Hi) as (Hsum & _ & _ & Hcount).
  fold window in Hsum, Hcount. rewrite Hsum, Hcount.
  assert (fdiv (Some (Qc_sum window)) (of_count w) = Some (arithmetic_mean window)) as ->.
  { unfold arithmetic_mean. by rewrite Hlen. }
  assert (is_Some (closes !! i)) as [x Hx] by (by apply lookup_lt_is_Some).
  destruct (state_after_exact_run w closes i x) as [Hprev Hrun]; [lia | done |].
  cbn zeta in Hprev, Hrun.
  case_bool_decide as Hsame.
  - rewrite Hprev. f_equal. symmetry. apply Hconst.
    apply Forall_lookup. intros j y Hy.
    assert (j < w)%nat as Hj by (apply lookup_lt_Some in Hy; lia).
    unfold window in Hy. rewrite slice_lookup in Hy by lia.
    specialize (Hrun (w - 1 - j)%nat ltac:(lia) ltac:(lia)).
    replace (i - (w - 1 - j))%nat with (S i - w + j)%nat in Hrun by lia.
    congruence.
  - assert (bool_decide (count_if negative window = 0%nat)
            && fltb (Some (arithmetic_mean window)) fzero = false) as ->.
    { case_bool_decide as Hnone; [|done]. cbn [andb].
      apply bool_decide_eq_false. apply Hnonneg. by apply count_negative_none. }
    assert (bool_decide (count_if negative window = w)
            && fltb fzero (Some (arithmetic_mean window)) = false) as ->.
    { case_bool_decide as Hall; [|done]. cbn [andb].
      apply bool_decide_eq_false. apply Hneg. apply count_negative_all. congruence. }
    done.
Qed.

Lemma length_rolling_mean (w : nat) (closes : list Qc) :
  length (Pandas.rolling_mean w closes) = length closes.
Proof. unfold Pandas.rolling_mean. by rewrite length_roll_mean, length_fmap. Qed.

Lemma length_signal (short long : nat) (closes : list Qc) :
  length (signal (calculate_signals short long closes)) = length closes.
Proof.
  simpl. unfold signal_column.
  rewrite length_zip_with, !length_rolling_mean. lia.
Qed.

Lemma iloc_neg_is_Some {A} (l : list A) (k : nat) :
  is_Some (Pandas.iloc_neg l k) ↔ (1 ≤ k ≤ length l)%nat.
Proof.
  unfold Pandas.iloc_neg. case_bool_decide as Hk.
  - split; [done|]. intros _. apply lookup_lt_is_Some. lia.
  - split; [by intros [? ?] | done].
Qed.

(** * The signal engine *)





Lemma Qclt_asym' (x y : Qc) : x < y → ¬ y < x.
Proof. intros H1 H2. exact (Qclt_irrefl' x (Qclt_trans _ _ _ H1 H2)). Qed.

Lemma Qc_not_lt_eq (x y : Qc) : ¬ x < y → ¬ y < x → x = y.
Proof.
  intros H1 H2. apply Qcle_antisym; by apply Qcnot_lt_le.
Qed.

Lemma signal_row_cases (ma_s ma_l : float) :
  ∃ sg : Signal, signal_row ma_s ma_l = signal_value sg ∧
    (sg = UP ↔ ∃ s l, ma_s = Some s ∧ ma_l = Some l ∧ l < s) ∧
    (sg = DOWN ↔ ∃ s l, ma_s = Some s ∧ ma_l = Some l ∧ s < l) ∧
    (sg = FLAT ↔ ma_s = None ∨ ma_l = None ∨ ma_s = ma_l).
Proof.
  unfold signal_row, float_lt, float_gt.
  destruct ma_s as [s|], ma_l as [l|]; cbv beta iota zeta;
    [| exists FLAT; repeat split; try done; auto;
       intros (? & ? & ? & ? & ?); done ..].
  case_bool_decide as Hlt; [|case_bool_decide as Hgt].
  - exists DOWN. repeat split; try done; eauto.
    + intros (? & ? & [= <-] & [= <-] & ?); by destruct (Qclt_asym' _ _ Hlt).
    + intros [? | [? | [= ->]]]; try done; by destruct (Qclt_irrefl' l).
  - exists UP. repeat split; try done; eauto.
    + intros (? & ? & [= <-] & [= <-] & ?); done.
    + intros [? | [? | [= ->]]]; try done; by destruct (Qclt_irrefl' l).
  - exists FLAT. repeat split; try done.
    + intros (? & ? & [= <-] & [= <-] & ?); done.
    + intros (? & ? & [= <-] & [= <-] & ?); done.
    + intros _. right; right. f_equal. by apply Qc_not_lt_eq.
Qed.

(** ** Comparisons of binary64 values *)

Lemma SFcompare_swap (x y : spec_float) :
  SFcompare y x = CompOpp <$> SFcompare x y.
Proof.
  destruct x as [sx|sx| |sx mx ex], y as [sy|sy| |sy my ey]; cbn;
    try reflexivity; try (by destruct sx); try (by destruct sy);
    try (by destruct sx, sy).
  destruct sx, sy; try reflexivity.
  - rewrite (Z.compare_antisym ex ey).
    destruct (ex ?= ey)%Z; cbn; try reflexivity.
    by rewrite (Pos.compare_cont_antisym mx my Eq).
  - rewrite (Z.compare_antisym ex ey).
    destruct (ex ?= ey)%Z; cbn; try reflexivity.
    by rewrite (Pos.compare_cont_antisym mx my Eq).
Qed.

Lemma SFcompare_None (x y : spec_float) :
  SFcompare x y = None ↔ x = S754_nan ∨ y = S754_nan.
Proof.
  destruct x as [sx|sx| |sx mx ex], y as [sy|sy| |sy my ey]; cbn;
    split; try discriminate; try (intros [?|?]; discriminate); auto.
Qed.

Lemma Prim2SF_nan (x : PrimFloat.float) :
  Prim2SF x = S754_nan ↔ PrimFloat.is_nan x = true.
Proof.
  unfold Prim2SF. destruct (PrimFloat.is_nan x); [done|].
  split; [|discriminate].
  destruct (PrimFloat.is_zero x); [discriminate|].
  destruct (PrimFloat.is_infinity x); [discriminate|].
  destruct (Z.frexp x) as [r exp].
  destruct (shr_fexp _ _ _ _ _) as [shr e'].
  destruct (shr_m shr); discriminate.
Qed.

(** Two binary64 values are in exactly one of four relations: less,
    greater, equal, or unordered because one of them is NaN. *)
Lemma float_compare_cases (x y : PrimFloat.float) :
  let lt := PrimFloat.ltb x y in
  let gt := PrimFloat.ltb y x in
  let eq := PrimFloat.eqb x y in
  let unordered := PrimFloat.is_nan x || PrimFloat.is_nan y in
  (lt, gt, eq, unordered) = (true, false, false, false) ∨
  (lt, gt, eq, unordered) = (false, true, false, false) ∨
  (lt, gt, eq, unordered) = (false, false, true, false) ∨
  (lt, gt, eq, unordered) = (false, false, false, true).
Proof.
  cbn zeta. rewrite !FloatAxioms.ltb_spec, FloatAxioms.eqb_spec. unfold SFltb, SFeqb.
  rewrite (SFcompare_swap (Prim2SF x) (Prim2SF y)).
  pose proof (SFcompare_None (Prim2SF x) (Prim2SF y)) as Hnone.
  rewrite !Prim2SF_nan in Hnone.
  destruct (SFcompare (Prim2SF x) (Prim2SF y)) as [[]|]; cbn.
  - right; right; left.
    destruct (PrimFloat.is_nan x), (PrimFloat.is_nan y); try reflexivity;
      exfalso; assert (Some Eq = None) by (apply Hnone; auto); discriminate.
  - left.
    destruct (PrimFloat.is_nan x), (PrimFloat.is_nan y); try reflexivity;
      exfalso; assert (Some Lt = None) by (apply Hnone; auto); discriminate.
  - right; left.
    destruct (PrimFloat.is_nan x), (PrimFloat.is_nan y); try reflexivity;
      exfalso; assert (Some Gt = None) by (apply Hnone; auto); discriminate.
  - right; right; right.
    destruct (proj1 Hnone eq_refl) as [-> | ->]; by rewrite ?orb_true_r.
Qed.

Lemma leb_cases (x y : PrimFloat.float) :
  PrimFloat.leb x y = PrimFloat.ltb x y || PrimFloat.eqb x y.
Proof.
  rewrite FloatAxioms.leb_spec, FloatAxioms.ltb_spec, FloatAxioms.eqb_spec. unfold SFleb, SFltb, SFeqb.
  by destruct (SFcompare (Prim2SF x) (Prim2SF y)) as [[]|].
Qed.

(** ** The frame on binary64 *)

Lemma length_signal64 (short long : nat) (closes : list PrimFloat.float) :
  length (Binary64.signal (Binary64.calculate_signals short long closes)) = length closes.
Proof.
  cbn [Binary64.signal Binary64.calculate_signals]. unfold Binary64.signal_column.
  rewrite length_zip_with, !length_roll_mean. lia.
Qed.

Lemma signal_row64_cases (ma_s ma_l : PrimFloat.float) :
  ∃ sg : Signal, Binary64.signal_row ma_s ma_l = signal_value sg ∧
    (sg = UP ↔ PrimFloat.ltb ma_l ma_s = true) ∧
    (sg = DOWN ↔ PrimFloat.ltb ma_s ma_l = true) ∧
    (sg = FLAT ↔ PrimFloat.eqb ma_s ma_l = true ∨ PrimFloat.is_nan ma_s = true
                 ∨ PrimFloat.is_nan ma_l = true).
Proof.
  unfold Binary64.signal_row.
  destruct (float_compare_cases ma_s ma_l) as [H | [H | [H | H]]];
    cbn zeta in H; injection H as Hlt Hgt Heq Hnan; rewrite Hlt, Hgt, Heq.
  - apply orb_false_iff in Hnan as [-> ->].
    exists DOWN. repeat split; try done. by intros [? | [? | ?]].
  - apply orb_false_iff in Hnan as [-> ->].
    exists UP. repeat split; try done. by intros [? | [? | ?]].
  - exists FLAT. repeat split; try done. by left.
  - exists FLAT. repeat split; try done. intros _. right.
    apply orb_true_iff in Hnan as [-> | ->]; auto.
Qed.

Lemma signal64_lookup (short long : nat) (closes : list PrimFloat.float) (i : nat) :
  (i < length closes)%nat →
  ∃ ma_s ma_l,
    Pandas.roll_mean short closes !! i = Some ma_s ∧
    Pandas.roll_mean long closes !! i = Some ma_l ∧
    Binary64.signal (Binary64.calculate_signals short long closes) !! i
    = Some (Binary64.signal_row ma_s ma_l).
Proof.
  intros Hi.
  destruct (lookup_lt_is_Some_2 (Pandas.roll_mean short closes) i) as [ma_s Hs];
    [by rewrite length_roll_mean|].
  destruct (lookup_lt_is_Some_2 (Pandas.roll_mean long closes) i) as [ma_l Hl];
    [by rewrite length_roll_mean|].
  exists ma_s, ma_l. repeat split; try done.
  cbn [Binary64.signal Binary64.calculate_signals]. unfold Binary64.signal_column.
  by rewrite lookup_zip_with, Hs, Hl.
Qed.

Lemma is_nan_NaN : PrimFloat.is_nan NaN = true.
Proof. reflexivity. Qed.

Lemma observed64 (c : PrimFloat.float) : observed c = negb (PrimFloat.is_nan c).
Proof. unfold observed, PrimFloat.is_nan. cbn [feqb binary64]. by rewrite negb_involutive. Qed.

Lemma roll_mean64_row (w : nat) (closes : list PrimFloat.float) (i : nat) (ma : PrimFloat.float) :
  Pandas.roll_mean w closes !! i = Some ma →
  ((S i < w)%nat → PrimFloat.is_nan ma = true) ∧
  (∀ c, PrimFloat.is_nan c = false → (0 < w ≤ S i)%nat →
        (∀ j, (S i - w ≤ j ≤ i)%nat → closes !! j = Some c) → ma = c).
Proof.
  intros Hma.
  assert (i < length closes)%nat as Hi.
  { apply lookup_lt_Some in Hma. by rewrite length_roll_mean in Hma. }
  split.
  - intros Hw. rewrite roll_mean_insufficient in Hma by done. by injection Hma as <-.
  - intros c Hc Hw Hrun.
    rewrite (roll_mean_constant_window w closes c i) in Hma; [by injection Hma | | done..].
    by rewrite observed64, Hc.
Qed.

(** C3, as the code computes it.  On every row the signal is UP exactly
    when the short average column is greater than the long one, DOWN
    exactly when it is less, and FLAT when the two are equal or one of
    them is NaN; an average is NaN while fewer rows than its window
    exist.  The columns are pandas' rolling means in binary64: where the
    last [short] ([long]) closes are one and the same value the average
    is exactly that value; on other windows it need not be the mean of
    the closes, and the signal need not be the comparison of the means
    (see [signal_is_not_the_comparison_of_the_means]).  Second part: in
    exact arithmetic the two columns are the means of the last [short]
    and [long] closes, and the rule compares those means. *)
Theorem signal_rule :
  (∀ (short long : nat) (closes : list PrimFloat.float) (i : nat),
     (i < length closes)%nat →
     let df := Binary64.calculate_signals short long closes in
     ∃ (ma_s ma_l : PrimFloat.float) (sg : Signal),
       Binary64.MA_short df !! i = Some ma_s ∧
       Binary64.MA_long df !! i = Some ma_l ∧
       Binary64.signal df !! i = Some (signal_value sg) ∧
       (sg = UP ↔ PrimFloat.ltb ma_l ma_s = true) ∧
       (sg = DOWN ↔ PrimFloat.ltb ma_s ma_l = true) ∧
       (sg = FLAT ↔ PrimFloat.eqb ma_s ma_l = true ∨ PrimFloat.is_nan ma_s = true
                    ∨ PrimFloat.is_nan ma_l = true) ∧
       ((S i < short)%nat → PrimFloat.is_nan ma_s = true) ∧
       ((S i < long)%nat → PrimFloat.is_nan ma_l = true) ∧
       (∀ c, PrimFloat.is_nan c = false → (0 < short ≤ S i)%nat →
             (∀ j, (S i - short ≤ j ≤ i)%nat → closes !! j = Some c) → ma_s = c) ∧
       (∀ c, PrimFloat.is_nan c = false → (0 < long ≤ S i)%nat →
             (∀ j, (S i - long ≤ j ≤ i)%nat → closes !! j = Some c) → ma_l = c)) ∧
  (∀ (short long : nat) (closes : list Qc) (i : nat),
     (0 < short)%nat → (0 < long)%nat → (i < length closes)%nat →
     let df := calculate_signals short long closes in
     let ma_s := window_average short (take (S i) closes) in
     let ma_l := window_average long (take (S i) closes) in
     ∃ sg : Signal,
       MA_short df !! i = Some ma_s ∧ MA_long df !! i = Some ma_l ∧
       signal df !! i = Some (signal_value sg) ∧
       (sg = UP ↔ ∃ s l, ma_s = Some s ∧ ma_l = Some l ∧ l < s) ∧
       (sg = DOWN ↔ ∃ s l, ma_s = Some s ∧ ma_l = Some l ∧ s < l) ∧
       (sg = FLAT ↔ ma_s = None ∨ ma_l = None ∨ ma_s = ma_l) ∧
       (ma_s = None ↔ (S i < short)%nat) ∧
       (ma_l = None ↔ (S i < long)%nat)).
Proof.
  split.
  - intros short long closes i Hi df.
    destruct (signal64_lookup short long closes i Hi) as (ma_s & ma_l & Hs & Hl & Hsig).
    destruct (signal_row64_cases ma_s ma_l) as (sg & Hrow & Hup & Hdown & Hflat).
    destruct (roll_mean64_row short closes i ma_s Hs) as [Hs1 Hs2].
    destruct (roll_mean64_row long closes i ma_l Hl) as [Hl1 Hl2].
    exists ma_s, ma_l, sg. unfold df. rewrite Hsig, Hrow.
    exact (conj Hs (conj Hl (conj eq_refl (conj Hup (conj Hdown (conj Hflat
             (conj Hs1 (conj Hl1 (conj Hs2 Hl2))))))))).
  - intros short long closes i Hs Hl Hi df ma_s ma_l.
    pose proof (rolling_mean_lookup short closes i Hi) as Es.
    pose proof (rolling_mean_lookup long closes i Hi) as El.
    rewrite bool_decide_eq_true_2 in Es, El by done.
    destruct (signal_row_cases ma_s ma_l) as (sg & Hrow & Hup & Hdown & Hflat).
    exists sg. unfold df. cbn [MA_short MA_long signal calculate_signals].
    unfold signal_column. rewrite lookup_zip_with, Es, El. cbn [mbind option_bind].
    fold ma_s ma_l. rewrite Hrow.
    assert (∀ w, window_average w (take (S i) closes) = None ↔ (S i < w)%nat) as Hnone.
    { intros w. unfold window_average. rewrite length_take.
      case_bool_decide; split; intros; try done; lia. }
    exact (conj eq_refl (conj eq_refl (conj eq_refl (conj Hup (conj Hdown (conj Hflat
             (conj (Hnone short) (Hnone long)))))))).
Qed.

Lemma iloc_neg_last {A} (l : list A) :
  l ≠ [] → Pandas.iloc_neg l 1 = l !! (length l - 1)%nat.
Proof.
  intros Hne. unfold Pandas.iloc_neg.
  rewrite bool_decide_eq_true_2; [done|]. destruct l; simpl; [done | lia].
Qed.

(** C4, as the code computes it.  The two average columns are pandas'
    rolling means of the closes.  On binary64 the average is NaN while
    fewer closes than the window have been pushed, and once enough have
    been pushed it is exactly their common value when the last [w] closes
    are all equal.  In exact arithmetic the same rolling mean is the
    arithmetic mean of exactly the last [w] closes, and "insufficient
    data" with fewer.  (On binary64 it need not be that mean: see
    [rolling_mean_is_not_the_mean_of_the_window].) *)
Theorem averages_are_means_of_last_closes :
  (∀ (short long : nat) (closes : list PrimFloat.float),
     Binary64.MA_short (Binary64.calculate_signals short long closes)
     = Pandas.roll_mean short closes ∧
     Binary64.MA_long (Binary64.calculate_signals short long closes)
     = Pandas.roll_mean long closes) ∧
  (∀ (w : nat) (pushed : list PrimFloat.float), pushed ≠ [] →
     ((length pushed < w)%nat →
        ∃ average, Pandas.iloc_neg (Pandas.roll_mean w pushed) 1 = Some average ∧
                   PrimFloat.is_nan average = true) ∧
     (∀ c, PrimFloat.is_nan c = false → (0 < w ≤ length pushed)%nat →
           Forall (λ x, x = c) (last_n w pushed) →
           Pandas.iloc_neg (Pandas.roll_mean w pushed) 1 = Some c)) ∧
  (∀ (w : nat) (pushed : list Qc), (0 < w)%nat → pushed ≠ [] →
     Pandas.iloc_neg (Pandas.rolling_mean w pushed) 1 = Some (window_average w pushed)) ∧
  (∀ (w : nat) (pushed : list Qc), (0 < w ≤ length pushed)%nat →
     length (last_n w pushed) = w ∧
     window_average w pushed = Some (Qc_sum (last_n w pushed) / Qc_of_nat w)) ∧
  (∀ (w : nat) (pushed : list Qc), (length pushed < w)%nat →
     window_average w pushed = None).
Proof.
  split; [done|]. split; [|split; [|split]].
  - intros w pushed Hne.
    assert (0 < length pushed)%nat as Hlen by (destruct pushed; simpl; [done | lia]).
    assert (Pandas.roll_mean w pushed ≠ []) as Hne'.
    { intros E. apply (f_equal length) in E. rewrite length_roll_mean in E.
      simpl in E. lia. }
    rewrite iloc_neg_last, length_roll_mean by done. split.
    + intros Hw. exists NaN. split; [|done].
      apply roll_mean_insufficient; lia.
    + intros c Hc Hw Hall.
      apply roll_mean_constant_window; [by rewrite observed64, Hc | lia | lia |].
      intros j Hj.
      rewrite Forall_lookup in Hall.
      assert (is_Some (pushed !! j)) as [x Hx] by (apply lookup_lt_is_Some; lia).
      rewrite Hx. f_equal.
      apply (Hall (j - (length pushed - w))%nat).
      unfold last_n. rewrite lookup_drop.
      by replace (length pushed - w + (j - (length pushed - w)))%nat with j by lia.
  - intros w pushed Hw Hne.
    assert (0 < length pushed)%nat as Hlen by (destruct pushed; simpl; [done | lia]).
    unfold Pandas.iloc_neg. rewrite length_rolling_mean.
    rewrite bool_decide_eq_true_2 by lia.
    rewrite rolling_mean_lookup by lia.
    rewrite bool_decide_eq_true_2 by done.
    replace (S (length pushed - 1)) with (length pushed) by lia.
    by rewrite firstn_all.
  - intros w pushed Hw. split; [rewrite length_last_n; lia|].
    unfold window_average, arithmetic_mean.
    rewrite bool_decide_eq_true_2 by lia. rewrite length_last_n.
    do 3 f_equal. lia.
  - intros w pushed Hw. unfold window_average. by rewrite bool_decide_eq_false_2 by lia.
Qed.

Lemma value_finite (x : PrimFloat.float) (v : Qc) :
  match Binary64.value x with
  | Some v' => Qeq_bool v' v
  | None => false
  end = true →
  Binary64.value x = Some v.
Proof.
  destruct (Binary64.value x) as [v'|]; [|done].
  intros H. f_equal. apply Qc_is_canon. by apply Qeq_bool_iff.
Qed.

(** On binary64 the average is not the arithmetic mean of the last
    closes, nor a function of them: two series that end on the same two
    closes, 0.1 and 0.3, have the short averages 0.19999999999999998 and
    0.2, and neither is the mean of the two closes. *)
Lemma rolling_mean_is_not_the_mean_of_the_window :
  let longer := [0.2; 0.1; 0.3]%float in
  let shorter := [0.1; 0.3]%float in
  last_n 2 longer = last_n 2 shorter ∧
  Pandas.iloc_neg (Pandas.roll_mean 2 longer) 1 = Some 0.19999999999999998%float ∧
  Pandas.iloc_neg (Pandas.roll_mean 2 shorter) 1 = Some 0.2%float ∧
  Binary64.value 0.19999999999999998 ≠ Binary64.exact_mean (last_n 2 longer) ∧
  Binary64.value 0.2 ≠ Binary64.exact_mean (last_n 2 shorter).
Proof.
  cbn zeta. repeat apply conj; try (vm_compute; reflexivity);
    intros E; vm_compute in E; discriminate.
Qed.

(** On binary64 the signal is not the comparison of the means of the
    last closes: for the closes 0.2, 0.3, 0.1 with windows 2 and 3 the
    signal of the last row is UP, although the mean of the last two closes
    is below the mean of the last three. *)
Lemma signal_is_not_the_comparison_of_the_means :
  let closes := [0.2; 0.3; 0.1]%float in
  let df := Binary64.calculate_signals 2 3 closes in
  Pandas.iloc_neg (Binary64.signal df) 1 = Some (signal_value UP) ∧
  float_lt (Binary64.exact_mean (last_n 2 closes)) (Binary64.exact_mean (last_n 3 closes))
  = true.
Proof. cbn zeta. split; vm_compute; reflexivity. Qed.

(** * Rules for running method bodies *)

Section wp.
Context {St : Type}.
Implicit Types s : St.

Lemma wp_ret {A} (a : A) s Q : Q (Ok a) s → wp (ret a) s Q.
Proof. done. Qed.

Lemma wp_raise {A} (e : exn) s (Q : result A → St → Prop) :
  Q (Raise e) s → wp (raise e) s Q.
Proof. done. Qed.

Lemma wp_get s (Q : result St → St → Prop) : Q (Ok s) s → wp get s Q.
Proof. done. Qed.

Lemma wp_modify (f : St → St) s Q : Q (Ok tt) (f s) → wp (modify f) s Q.
Proof. done. Qed.

Lemma wp_bind {A B} (m : Py St A) (k : A → Py St B) s Q :
  wp m s (λ r s', match r with
                  | Ok a => wp (k a) s' Q
                  | Raise e => Q (Raise e) s'
                  end) →
  wp (bind m k) s Q.
Proof. unfold wp, bind. by destruct (m s) as [[a|e] s']. Qed.

Lemma wp_try_except {A} (body : Py St A) (handler : exn → Py St A) s Q :
  wp body s (λ r s', match r with
                     | Ok a => Q (Ok a) s'
                     | Raise e => wp (handler e) s' Q
                     end) →
  wp (try_except body handler) s Q.
Proof. unfold wp, try_except. by destruct (body s) as [[a|e] s']. Qed.

Lemma wp_from_option {A} (e : exn) (o : option A) s Q :
  match o with Some a => Q (Ok a) s | None => Q (Raise e) s end →
  wp (from_option e o) s Q.
Proof. by destruct o. Qed.

Lemma wp_mono {A} (m : Py St A) s (Q Q' : result A → St → Prop) :
  (∀ r s', Q r s' → Q' r s') → wp m s Q → wp m s Q'.
Proof. unfold wp. auto. Qed.

Lemma wp_run {A} (m : Py St A) s r s' :
  wp m s (λ r0 s0, r0 = r ∧ s0 = s') → m s = (r, s').
Proof. unfold wp. destruct (m s). simpl. by intros [-> ->]. Qed.

(** A loop whose body never raises runs to the end, and an invariant of
    the body is an invariant of the loop. *)
Lemma wp_for_each {A} (I : St → Prop) (l : list A) (body : A → Py St unit) s :
  (∀ a s0, I s0 → wp (body a) s0 (λ r s', r = Ok tt ∧ I s')) →
  I s → wp (for_each l body) s (λ r s', r = Ok tt ∧ I s').
Proof.
  intros Hbody. revert s. induction l as [|a l IH]; intros s Hs; simpl.
  - by apply wp_ret.
  - apply wp_bind. eapply wp_mono; [|by apply Hbody].
    intros r s' [-> Hs']. by apply IH.
Qed.
End wp.

(** * The simulated ledger *)

Module SimulationFacts.
Import Simulation SimulationSpec.

Ltac bot_simpl :=
  cbn [logger simulation_mode symbol interval quantity moving_avg_short
       moving_avg_long digital_balance balance_order trade_log simulation_results
       set_logger set_digital_balance set_trade_log set_simulation_results
       digital_balance_items base_asset fst snd].

Lemma set_logger_id (b : bot) : set_logger (λ records, records ++ []) b = b.
Proof. destruct b. unfold set_logger. simpl. by rewrite app_nil_r. Qed.

Lemma set_logger_app (l1 l2 : list (level * message)) (b : bot) :
  set_logger (λ records, records ++ l2) (set_logger (λ records, records ++ l1) b)
  = set_logger (λ records, records ++ l1 ++ l2) b.
Proof. destruct b. unfold set_logger. simpl. by rewrite (assoc_L (++)). Qed.

Lemma wp_log (l : level) (m : message) (b : bot) Q :
  Q (Ok tt) (set_logger (λ records, records ++ [(l, m)]) b) → wp (log l m) b Q.
Proof. done. Qed.

Lemma for_each_log {A} (items : list A) (f : A → message) (b : bot) :
  for_each items (λ item, log INFO (f item)) b
  = (Ok tt, set_logger (λ records, records ++ ((λ item, (INFO, f item)) <$> items)) b).
Proof.
  revert b. induction items as [|a items IH]; intros b; simpl.
  - by rewrite set_logger_id.
  - unfold bind at 1. simpl. rewrite IH. by rewrite set_logger_app.
Qed.

Lemma wp_log_current_balance (b : bot) Q :
  Q (Ok tt) (set_logger (λ records, records ++ balance_records (digital_balance_items b)) b) →
  wp log_current_balance b Q.
Proof.
  intros HQ. unfold log_current_balance.
  apply wp_bind, wp_log. apply wp_bind, wp_get. bot_simpl.
  unfold wp. rewrite for_each_log, set_logger_app. exact HQ.
Qed.

Lemma wp_balance_getitem (key : string) (b : bot) Q :
  match digital_balance b !! key with
  | Some v => Q (Ok v) b
  | None => Q (Raise (KeyError key)) b
  end → wp (balance_getitem key) b Q.
Proof.
  intros HQ. unfold balance_getitem. apply wp_bind, wp_get, wp_from_option.
  by destruct (digital_balance b !! key).
Qed.

Lemma wp_balance_isub (key : string) (amount : Qc) (b : bot) Q :
  match digital_balance b !! key with
  | Some v => Q (Ok tt) (set_digital_balance (insert key (v - amount)) b)
  | None => Q (Raise (KeyError key)) b
  end → wp (balance_isub key amount) b Q.
Proof.
  intros HQ. unfold balance_isub. apply wp_bind, wp_balance_getitem.
  by destruct (digital_balance b !! key).
Qed.

Lemma wp_balance_iadd (key : string) (amount : Qc) (b : bot) Q :
  match digital_balance b !! key with
  | Some v => Q (Ok tt) (set_digital_balance (insert key (v + amount)) b)
  | None => Q (Raise (KeyError key)) b
  end → wp (balance_iadd key amount) b Q.
Proof.
  intros HQ. unfold balance_iadd. apply wp_bind, wp_balance_getitem.
  by destruct (digital_balance b !! key).
Qed.

Lemma wp_trade_log_append (type : string) (q p : Qc) (b : bot) Q :
  Q (Ok tt) (set_trade_log (λ entries, entries ++
      [{| trade_type := type; trade_quantity := q; trade_price := p;
          trade_balance := digital_balance b |}]) b) →
  wp (trade_log_append type q p) b Q.
Proof. intros HQ. unfold trade_log_append. by apply wp_bind, wp_get. Qed.

Ltac wp_step :=
  lazymatch goal with
  | |- wp (bind _ _) _ _ => apply wp_bind
  | |- wp get _ _ => apply wp_get
  | |- wp (log _ _) _ _ => apply wp_log
  | |- wp (ret _) _ _ => apply wp_ret
  | |- wp (raise _) _ _ => apply wp_raise
  | |- wp (modify _) _ _ => apply wp_modify
  | |- wp (from_option _ _) _ _ => apply wp_from_option
  | |- wp (balance_getitem _) _ _ => apply wp_balance_getitem
  | |- wp (balance_isub _ _) _ _ => apply wp_balance_isub
  | |- wp (balance_iadd _ _) _ _ => apply wp_balance_iadd
  | |- wp (trade_log_append _ _ _) _ _ => apply wp_trade_log_append
  | |- wp log_current_balance _ _ => apply wp_log_current_balance
  end;
  bot_simpl.

(** ** The four outcomes of an order on a ledger that has both accounts *)

Lemma buy_short (b : bot) (q p usdt : Qc) :
  digital_balance b !! "USDT" = Some usdt → usdt < q * p →
  place_order_simulation "BUY" q p b
  = (Ok tt, set_logger (λ records, records ++
        [(INFO, Msg_simulating "BUY" q (symbol b) p); (WARNING, Msg_not_enough_USDT)]
        ++ balance_records (digital_balance_items b)) b).
Proof.
  intros Husdt Hlt. apply wp_run. unfold place_order_simulation.
  repeat wp_step. rewrite String.eqb_refl. repeat wp_step. rewrite Husdt.
  rewrite bool_decide_eq_false_2 by (by apply Qclt_not_le).
  repeat wp_step. split; [done|].
  by rewrite !set_logger_app.
Qed.

Ltac bot_eq b :=
  clear; destruct b;
  cbv [logger simulation_mode symbol interval quantity moving_avg_short
       moving_avg_long digital_balance balance_order trade_log simulation_results
       set_logger set_digital_balance set_trade_log set_simulation_results
       digital_balance_items base_asset];
  f_equal; rewrite <- ?(assoc_L (++)); reflexivity.

Lemma buy_filled (b : bot) (q p usdt held : Qc) :
  digital_balance b !! "USDT" = Some usdt → q * p ≤ usdt →
  <["USDT" := usdt - q * p]> (digital_balance b) !! base_asset b = Some held →
  let resulting :=
    <[base_asset b := held + q]> (<["USDT" := usdt - q * p]> (digital_balance b)) in
  place_order_simulation "BUY" q p b
  = (Ok tt,
     set_logger (λ records, records ++
         [(INFO, Msg_simulating "BUY" q (symbol b) p); (INFO, Msg_buy_completed)]
         ++ balance_records (items (balance_order b) resulting))
       (set_trade_log (λ entries, entries ++
            [{| trade_type := "BUY"; trade_quantity := q; trade_price := p;
                trade_balance := resulting |}])
          (set_digital_balance (λ _, resulting) b))).
Proof.
  intros Husdt Hle Hheld resulting. apply wp_run. unfold place_order_simulation.
  repeat wp_step. rewrite String.eqb_refl. repeat wp_step. rewrite Husdt.
  rewrite bool_decide_eq_true_2 by done.
  repeat wp_step. rewrite Husdt. repeat wp_step.
  unfold base_asset in Hheld. rewrite Hheld. repeat wp_step.
  split; [done|]. subst resulting. bot_eq b.
Qed.

Lemma sell_short (b : bot) (q p held : Qc) :
  digital_balance b !! base_asset b = Some held → held < q →
  place_order_simulation "SELL" q p b
  = (Ok tt, set_logger (λ records, records ++
        [(INFO, Msg_simulating "SELL" q (symbol b) p); (WARNING, Msg_not_enough_BTC)]
        ++ balance_records (digital_balance_items b)) b).
Proof.
  intros Hheld Hlt. apply wp_run. unfold place_order_simulation.
  repeat wp_step. change ("SELL" =? "BUY")%string with false.
  rewrite String.eqb_refl. repeat wp_step.
  unfold base_asset in Hheld. rewrite Hheld.
  rewrite bool_decide_eq_false_2 by (by apply Qclt_not_le).
  repeat wp_step. split; [done|]. by rewrite !set_logger_app.
Qed.

Lemma sell_filled (b : bot) (q p usdt held : Qc) :
  digital_balance b !! base_asset b = Some held → q ≤ held →
  <[base_asset b := held - q]> (digital_balance b) !! "USDT" = Some usdt →
  let resulting :=
    <["USDT" := usdt + q * p]> (<[base_asset b := held - q]> (digital_balance b)) in
  place_order_simulation "SELL" q p b
  = (Ok tt,
     set_logger (λ records, records ++
         [(INFO, Msg_simulating "SELL" q (symbol b) p); (INFO, Msg_sell_completed)]
         ++ balance_records (items (balance_order b) resulting))
       (set_trade_log (λ entries, entries ++
            [{| trade_type := "SELL"; trade_quantity := q; trade_price := p;
                trade_balance := resulting |}])
          (set_digital_balance (λ _, resulting) b))).
Proof.
  intros Hheld Hle Husdt resulting. apply wp_run. unfold place_order_simulation.
  repeat wp_step. change ("SELL" =? "BUY")%string with false.
  rewrite String.eqb_refl. repeat wp_step.
  unfold base_asset in Hheld, Husdt. rewrite Hheld.
  rewrite bool_decide_eq_true_2 by done.
  repeat wp_step. rewrite Hheld. repeat wp_step.
  rewrite Husdt. repeat wp_step.
  split; [done|]. subst resulting. bot_eq b.
Qed.

Lemma other_side (b : bot) (side : string) (q p : Qc) :
  side ≠ "BUY" → side ≠ "SELL" →
  place_order_simulation side q p b
  = (Ok tt, set_logger (λ records, records ++
        [(INFO, Msg_simulating side q (symbol b) p)]
        ++ balance_records (digital_balance_items b)) b).
Proof.
  intros Hb Hs. apply wp_run. unfold place_order_simulation.
  repeat wp_step.
  apply String.eqb_neq in Hb, Hs. rewrite Hb, Hs. repeat wp_step.
  split; [done|]. by rewrite !set_logger_app.
Qed.








(** ** The trade log *)

Lemma has_accounts_init (symbol interval : string) (mode : bool) (initial : Qc) :
  has_accounts (init symbol interval mode initial).
Proof.
  unfold has_accounts, init, base_asset. bot_simpl. split.
  - apply lookup_insert_is_Some'. right. rewrite lookup_insert_eq. by eexists.
  - rewrite lookup_insert_eq. by eexists.
Qed.

Lemma place_accounts (o : order) (b : bot) :
  has_accounts b →
  has_accounts (place o b) ∧
  trade_log (place o b)
  = trade_log b ++
    (if funds_suffice o b then [entry_of o (digital_balance (place o b))] else []).
Proof.
  intros Hacc. pose proof Hacc as [[usdt Husdt] [held Hheld]].
  destruct o as [side q p]. unfold place, exec, funds_suffice, entry_of.
  cbn [order_side order_quantity order_price].
  destruct (String.eqb_spec side "BUY") as [->|Hbuy];
    [|destruct (String.eqb_spec side "SELL") as [->|Hsell]].
  - rewrite Husdt. case_bool_decide as Hle.
    + assert (is_Some (<["USDT" := usdt - q * p]> (digital_balance b) !! base_asset b))
        as [held' Hheld'].
      { apply lookup_insert_is_Some'. right. by eexists. }
      rewrite (buy_filled b q p usdt held') by done. bot_simpl.
      split; [|done]. unfold has_accounts, base_asset. bot_simpl. split.
      * apply lookup_insert_is_Some'. right. rewrite lookup_insert_eq. by eexists.
      * rewrite lookup_insert_eq. by eexists.
    + rewrite (buy_short b q p usdt) by (done || by apply Qcnot_le_lt).
      bot_simpl. by rewrite app_nil_r.
  - rewrite Hheld. case_bool_decide as Hle.
    + assert (is_Some (<[base_asset b := held - q]> (digital_balance b) !! "USDT"))
        as [usdt' Husdt'].
      { apply lookup_insert_is_Some'. right. by eexists. }
      rewrite (sell_filled b q p usdt' held) by done. bot_simpl.
      split; [|done]. unfold has_accounts, base_asset. bot_simpl. split.
      * rewrite lookup_insert_eq. by eexists.
      * apply lookup_insert_is_Some'. right. rewrite lookup_insert_eq. by eexists.
    + rewrite (sell_short b q p held) by (done || by apply Qcnot_le_lt).
      bot_simpl. by rewrite app_nil_r.
  - rewrite (other_side b side q p) by done. bot_simpl. by rewrite app_nil_r.
Qed.

Lemma place_all_trade_log (orders : list order) (b : bot) :
  has_accounts b →
  trade_log (place_all orders b) = trade_log b ++ fills_of orders b ∧
  length (fills_of orders b) = filled_count orders b.
Proof.
  revert b. induction orders as [|o orders IH]; intros b Hacc; simpl.
  - by rewrite app_nil_r.
  - destruct (place_accounts o b Hacc) as [Hacc' Hlog].
    destruct (IH (place o b) Hacc') as [IH1 IH2].
    change (place_all (o :: orders) b) with (place_all orders (place o b)).
    rewrite IH1, Hlog, length_app, IH2, <- (assoc_L (++)).
    split; [done|]. by destruct (funds_suffice o b).
Qed.

Lemma field_here (k : string) (v : json) (fields : list (string * json)) :
  field k ((k, v) :: fields) = Some v.
Proof. simpl. by rewrite String.eqb_refl. Qed.

Lemma field_next (k k' : string) (v : json) (fields : list (string * json)) :
  k' ≠ k → field k ((k', v) :: fields) = field k fields.
Proof. intros Hne. simpl. apply String.eqb_neq in Hne. by rewrite Hne. Qed.

Lemma balance_json_roundtrip (balance : gmap string Qc) :
  balance_of_json (balance_to_json balance) = Some balance.
Proof.
  unfold balance_of_json, balance_to_json. simpl.
  rewrite (mapM_fmap_Some _ (λ item : string * Qc, (item.1, JNum item.2)))
    by (by intros [k x]).
  simpl. by rewrite list_to_map_to_list.
Qed.

Lemma trade_json_roundtrip (t : trade) : trade_of_json (trade_to_json t) = Some t.
Proof.
  destruct t as [type q p balance]. unfold trade_of_json, trade_to_json.
  cbn [json_object mbind option_bind trade_type trade_quantity trade_price
       trade_balance].
  rewrite field_here.
  rewrite (field_next "quantity" "type") by discriminate. rewrite field_here.
  rewrite !(field_next "price") by discriminate. rewrite field_here.
  rewrite !(field_next "balance") by discriminate. rewrite field_here.
  cbn [json_string json_number mbind option_bind].
  by rewrite balance_json_roundtrip.
Qed.

Lemma trade_log_json_roundtrip (entries : list trade) :
  trade_log_of_json (trade_log_to_json entries) = Some entries.
Proof.
  unfold trade_log_of_json, trade_log_to_json. simpl.
  apply mapM_fmap_Some. apply trade_json_roundtrip.
Qed.

(** C8. Each filled order leaves exactly one entry at the end of the
    trade log, written inside the call, and an order that is not filled
    leaves none; so after any sequence of orders the log is the log before
    followed by one entry per filled order, in call order.  Entries
    already written are not touched again, each holds the balances as
    they were right after its own trade, and the document that
    [save_trade_log] dumps reads back as the same list of entries. *)
Theorem trade_log_records_each_fill :
  (∀ (o : order) (b : bot), has_accounts b →
     (funds_suffice o b = true →
        trade_log (place o b)
        = trade_log b ++ [entry_of o (digital_balance (place o b))]) ∧
     (funds_suffice o b = false → trade_log (place o b) = trade_log b)) ∧
  (∀ (orders : list order) (b : bot), has_accounts b →
     trade_log (place_all orders b) = trade_log b ++ fills_of orders b ∧
     length (fills_of orders b) = filled_count orders b) ∧
  (∀ (orders : list order) (symbol interval : string) (mode : bool) (initial : Qc),
     let b := init symbol interval mode initial in
     trade_log (place_all orders b) = fills_of orders b ∧
     length (trade_log (place_all orders b)) = filled_count orders b) ∧
  (∀ b : bot,
     let b' := exec save_trade_log b in
     simulation_results b' = simulation_results b ++ [trade_log_to_json (trade_log b)] ∧
     trade_log b' = trade_log b ∧ digital_balance b' = digital_balance b) ∧
  (∀ entries : list trade,
     trade_log_of_json (trade_log_to_json entries) = Some entries).
Proof.
  split; [|split; [|split; [|split]]].
  - intros o b Hacc. destruct (place_accounts o b Hacc) as [_ Hlog].
    split; intros Hf; rewrite Hf in Hlog; [done | by rewrite app_nil_r in Hlog].
  - intros orders b Hacc. by apply place_all_trade_log.
  - intros orders symbol interval mode initial b.
    destruct (place_all_trade_log orders b (has_accounts_init _ _ _ _)) as [H1 H2].
    rewrite H1. by split.
  - intros b b'. by subst b'.
  - apply trade_log_json_roundtrip.
Qed.

(** ** The polling loop *)

Lemma call_method_missing {A} (body : Py bot A) :
  call_method "place_order_simulation" body
  = raise (AttributeError "place_order_simulation").
Proof.
  unfold call_method.
  assert (bool_decide ("place_order_simulation" ∈ instance_attributes ++ class_attributes)
          = false) as -> by (vm_compute; reflexivity).
  reflexivity.
Qed.

Lemma run_bot_try_methods (draws : nat → Qc) :
  run_bot_try draws
  = (closes <- get_historical_data draws ;;
     df <- calculate_signals_method closes ;;
     log_current_balance ;;
     current_signal <- from_option IndexError (Pandas.iloc_neg (signal df) 1) ;;
     previous_signal <- from_option IndexError (Pandas.iloc_neg (signal df) 2) ;;
     log INFO (Msg_signals previous_signal current_signal) ;;
     (if negb (current_signal =? previous_signal)%Z then
        current_price <- from_option IndexError (Pandas.iloc_neg (close df) 1) ;;
        self <- get ;;
        if (current_signal =? 1)%Z && (previous_signal =? -1)%Z then
          log INFO Msg_buy_signal ;;
          raise (AttributeError "place_order_simulation")
        else if (current_signal =? -1)%Z && (previous_signal =? 1)%Z then
          log INFO Msg_sell_signal ;;
          raise (AttributeError "place_order_simulation")
        else ret tt
      else ret tt) ;;
     save_trade_log ;;
     log INFO Msg_waiting)%py.
Proof. reflexivity. Qed.

Ltac wp_go := repeat first [wp_step | progress bot_simpl].

Lemma wp_run_bot_try_ledger (draws : nat → Qc) (b : bot) :
  wp (run_bot_try draws) b (λ _ b', same_ledger b b').
Proof.
  rewrite run_bot_try_methods.
  unfold get_historical_data, calculate_signals_method, save_trade_log, same_ledger.
  wp_go.
  destruct (Pandas.iloc_neg (signal _) 1) as [current_signal|]; [|done].
  wp_go.
  destruct (Pandas.iloc_neg (signal _) 2) as [previous_signal|]; [|done].
  wp_go.
  destruct (negb (current_signal =? previous_signal)%Z); wp_go; [|done].
  destruct (Pandas.iloc_neg (close _) 1) as [current_price|]; [|done].
  wp_go.
  destruct ((current_signal =? 1)%Z && (previous_signal =? -1)%Z); wp_go; [done|].
  destruct ((current_signal =? -1)%Z && (previous_signal =? 1)%Z); wp_go; done.
Qed.

Lemma wp_run_bot_cycle_ledger (draws : nat → Qc) (b : bot) :
  wp (run_bot_cycle draws) b (λ r b', r = Ok tt ∧ same_ledger b b').
Proof.
  unfold run_bot_cycle. apply wp_try_except.
  eapply wp_mono; [|apply wp_run_bot_try_ledger].
  intros [[]|e] b' Hb'; [done|]. by wp_go.
Qed.

Lemma wp_run_bot_ledger (cycles : list (nat → Qc)) (b : bot) :
  wp (run_bot cycles) b (λ r b', r = Ok tt ∧ same_ledger b b').
Proof.
  unfold run_bot. apply (wp_for_each (same_ledger b)); [|done].
  intros draws b0 [Hd Ht].
  eapply wp_mono; [|apply wp_run_bot_cycle_ledger].
  intros r b' [-> [Hd' Ht']]. split; [done|].
  split; congruence.
Qed.

(** On a cycle whose last two signals form an edge the order is never
    placed: the method lookup raises. *)
Lemma run_bot_try_edge (draws : nat → Qc) (b : bot) (previous current : Z) :
  let df := calculate_signals (moving_avg_short b) (moving_avg_long b)
              (historical_closes draws b) in
  Pandas.iloc_neg (signal df) 1 = Some current →
  Pandas.iloc_neg (signal df) 2 = Some previous →
  detectTransition previous current ≠ NONE →
  (run_bot_try draws b).1 = Raise (AttributeError "place_order_simulation").
Proof.
  intros df Hcur Hprev Hedge.
  assert (is_Some (Pandas.iloc_neg (close df) 1)) as [price Hprice].
  { apply iloc_neg_is_Some. simpl.
    assert (is_Some (Pandas.iloc_neg (signal df) 1)) as H by (by eexists).
    apply iloc_neg_is_Some in H. unfold df in H. rewrite length_signal in H. done. }
  change ((run_bot_try draws b).1 = Raise (AttributeError "place_order_simulation"))
    with (wp (run_bot_try draws) b
            (λ r _, r = Raise (AttributeError "place_order_simulation"))).
  rewrite run_bot_try_methods.
  unfold get_historical_data, calculate_signals_method, save_trade_log.
  wp_go. fold df. rewrite Hcur. wp_go. rewrite Hprev. wp_go.
  unfold detectTransition in Hedge.
  destruct (negb (current =? previous)%Z); [|done]. wp_go.
  rewrite Hprice. wp_go.
  destruct ((current =? 1)%Z && (previous =? -1)%Z); wp_go; [done|].
  destruct ((current =? -1)%Z && (previous =? 1)%Z); wp_go; done.
Qed.

(** One pass of the simulation loop on a series with at least two rows
    logs the signals of its last two rows. *)
Lemma wp_run_bot_cycle_samples (draws : nat → Qc) (b : bot) (previous current : Z) :
  let df := calculate_signals (moving_avg_short b) (moving_avg_long b)
              (historical_closes draws b) in
  Pandas.iloc_neg (signal df) 2 = Some previous →
  Pandas.iloc_neg (signal df) 1 = Some current →
  wp (run_bot_cycle draws) b (λ r b',
    r = Ok tt ∧ (INFO, Msg_signals previous current) ∈ logger b').
Proof.
  intros df Hprev Hcur.
  unfold run_bot_cycle. apply wp_try_except.
  rewrite run_bot_try_methods.
  unfold get_historical_data, calculate_signals_method, save_trade_log.
  wp_go. fold df. rewrite Hcur. wp_go. rewrite Hprev. wp_go.
  destruct (negb (current =? previous)%Z); wp_go; [|split; [done|set_solver]].
  destruct (Pandas.iloc_neg (close df) 1) as [current_price|]; wp_go;
    [|split; [done|set_solver]].
  destruct ((current =? 1)%Z && (previous =? -1)%Z); wp_go;
    [split; [done|set_solver]|].
  destruct ((current =? -1)%Z && (previous =? 1)%Z); wp_go;
    split; (done || set_solver).
Qed.

(** C10. The simulation never trades.  The class has no attribute
    [place_order_simulation] (its [def] sits after the [return] of
    [calculate_signals]), so the call raises AttributeError before any
    order is simulated; the loop's handler logs it and goes on.  Hence
    over any run the balances and the trade log stay what they were at
    the start: the initial balances and an empty log. *)
Theorem simulation_never_trades :
  (∀ (A : Type) (body : Py bot A),
     call_method "place_order_simulation" body
     = raise (AttributeError "place_order_simulation")) ∧
  (∀ (cycles : list (nat → Qc)) (b : bot),
     let r := run_bot cycles b in
     r.1 = Ok tt ∧ digital_balance r.2 = digital_balance b ∧
     trade_log r.2 = trade_log b) ∧
  (∀ (cycles : list (nat → Qc)) (symbol interval : string) (mode : bool) (initial : Qc),
     let b' := exec (run_bot cycles) (init symbol interval mode initial) in
     digital_balance b' = <[remove_USDT symbol := 0]> (<["USDT" := initial]> ∅) ∧
     trade_log b' = []) ∧
  (∀ (draws : nat → Qc) (b : bot) (previous current : Z),
     let df := calculate_signals (moving_avg_short b) (moving_avg_long b)
              (historical_closes draws b) in
     Pandas.iloc_neg (signal df) 1 = Some current →
     Pandas.iloc_neg (signal df) 2 = Some previous →
     detectTransition previous current ≠ NONE →
     (run_bot_try draws b).1 = Raise (AttributeError "place_order_simulation") ∧
     (run_bot_cycle draws b).1 = Ok tt ∧
     last (logger (exec (run_bot_cycle draws) b))
     = Some (ERROR, Msg_loop_error (AttributeError "place_order_simulation"))).
Proof.
  split; [|split; [|split]].
  - intros A body. apply call_method_missing.
  - intros cycles b r. subst r.
    destruct (wp_run_bot_ledger cycles b) as (Hr & Hd & Ht). done.
  - intros cycles symbol interval mode initial b'. subst b'.
    destruct (wp_run_bot_ledger cycles (init symbol interval mode initial))
      as (_ & Hd & Ht).
    unfold exec. by rewrite Hd, Ht.
  - intros draws b previous current df Hcur Hprev Hedge.
    pose proof (run_bot_try_edge draws b previous current Hcur Hprev Hedge) as Htry.
    split; [done|].
    unfold run_bot_cycle, try_except, exec.
    destruct (run_bot_try draws b) as [r s']. simpl in Htry. subst r.
    split; [done|]. cbn [log modify snd]. bot_simpl. apply last_snoc.
Qed.

End SimulationFacts.

(** * The simulated ledger on binary64 *)

Lemma ltb_leb_false (x y : PrimFloat.float) :
  PrimFloat.ltb x y = true → PrimFloat.leb y x = false.
Proof.
  intros Hlt. rewrite leb_cases.
  destruct (float_compare_cases y x) as [H | [H | [H | H]]];
    cbn zeta in H; injection H as Hyx Hxy Heq Hnan; rewrite ?Hyx, ?Heq;
    cbn [orb]; congruence.
Qed.

Module Simulation64Facts.
Import Simulation64.

Ltac bot_simpl :=
  cbn [logger simulation_mode symbol interval quantity moving_avg_short
       moving_avg_long digital_balance balance_order trade_log
       set_logger set_digital_balance set_trade_log
       digital_balance_items base_asset fst snd].

Lemma set_logger_id64 (b : bot) : set_logger (λ records, records ++ []) b = b.
Proof. destruct b. unfold set_logger. simpl. by rewrite app_nil_r. Qed.

Lemma set_logger_app64 (l1 l2 : list (level * message)) (b : bot) :
  set_logger (λ records, records ++ l2) (set_logger (λ records, records ++ l1) b)
  = set_logger (λ records, records ++ l1 ++ l2) b.
Proof. destruct b. unfold set_logger. simpl. by rewrite (assoc_L (++)). Qed.

Lemma wp_log64 (l : level) (m : message) (b : bot) Q :
  Q (Ok tt) (set_logger (λ records, records ++ [(l, m)]) b) → wp (log l m) b Q.
Proof. done. Qed.

Lemma for_each_log64 {A} (entries : list A) (f : A → message) (b : bot) :
  for_each entries (λ item, log INFO (f item)) b
  = (Ok tt, set_logger (λ records, records ++ ((λ item, (INFO, f item)) <$> entries)) b).
Proof.
  revert b. induction entries as [|a entries IH]; intros b; simpl.
  - by rewrite set_logger_id64.
  - unfold bind at 1. simpl. rewrite IH. by rewrite set_logger_app64.
Qed.

Lemma wp_log_current_balance64 (b : bot) Q :
  Q (Ok tt) (set_logger (λ records, records ++ balance_records (digital_balance_items b)) b) →
  wp log_current_balance b Q.
Proof.
  intros HQ. unfold log_current_balance.
  apply wp_bind, wp_log64. apply wp_bind, wp_get. bot_simpl.
  unfold wp. rewrite for_each_log64, set_logger_app64. exact HQ.
Qed.

Lemma wp_balance_getitem64 (key : string) (b : bot) Q :
  match digital_balance b !! key with
  | Some v => Q (Ok v) b
  | None => Q (Raise (KeyError key)) b
  end → wp (balance_getitem key) b Q.
Proof.
  intros HQ. unfold balance_getitem. apply wp_bind, wp_get, wp_from_option.
  by destruct (digital_balance b !! key).
Qed.

Lemma wp_balance_isub64 (key : string) (amount : PrimFloat.float) (b : bot) Q :
  match digital_balance b !! key with
  | Some v => Q (Ok tt) (set_digital_balance (insert key (v - amount)%float) b)
  | None => Q (Raise (KeyError key)) b
  end → wp (balance_isub key amount) b Q.
Proof.
  intros HQ. unfold balance_isub. apply wp_bind, wp_balance_getitem64.
  by destruct (digital_balance b !! key).
Qed.

Lemma wp_balance_iadd64 (key : string) (amount : PrimFloat.float) (b : bot) Q :
  match digital_balance b !! key with
  | Some v => Q (Ok tt) (set_digital_balance (insert key (v + amount)%float) b)
  | None => Q (Raise (KeyError key)) b
  end → wp (balance_iadd key amount) b Q.
Proof.
  intros HQ. unfold balance_iadd. apply wp_bind, wp_balance_getitem64.
  by destruct (digital_balance b !! key).
Qed.

Lemma wp_trade_log_append64 (type : string) (q p : PrimFloat.float) (b : bot) Q :
  Q (Ok tt) (set_trade_log (λ entries, entries ++
      [{| trade_type := type; trade_quantity := q; trade_price := p;
          trade_balance := digital_balance b |}]) b) →
  wp (trade_log_append type q p) b Q.
Proof. intros HQ. unfold trade_log_append. by apply wp_bind, wp_get. Qed.

Ltac wp_step :=
  lazymatch goal with
  | |- wp (bind _ _) _ _ => apply wp_bind
  | |- wp get _ _ => apply wp_get
  | |- wp (log _ _) _ _ => apply wp_log64
  | |- wp (ret _) _ _ => apply wp_ret
  | |- wp (raise _) _ _ => apply wp_raise
  | |- wp (modify _) _ _ => apply wp_modify
  | |- wp (from_option _ _) _ _ => apply wp_from_option
  | |- wp (balance_getitem _) _ _ => apply wp_balance_getitem64
  | |- wp (balance_isub _ _) _ _ => apply wp_balance_isub64
  | |- wp (balance_iadd _ _) _ _ => apply wp_balance_iadd64
  | |- wp (trade_log_append _ _ _) _ _ => apply wp_trade_log_append64
  | |- wp log_current_balance _ _ => apply wp_log_current_balance64
  end;
  bot_simpl.

Ltac bot_eq b :=
  clear; destruct b;
  cbv [logger simulation_mode symbol interval quantity moving_avg_short
       moving_avg_long digital_balance balance_order trade_log
       set_logger set_digital_balance set_trade_log
       digital_balance_items base_asset];
  f_equal; rewrite <- ?(assoc_L (++)); reflexivity.

Lemma buy_short64 (b : bot) (q p usdt : PrimFloat.float) :
  digital_balance b !! "USDT" = Some usdt → PrimFloat.leb (q * p) usdt = false →
  place_order_simulation "BUY" q p b
  = (Ok tt, set_logger (λ records, records ++
        [(INFO, Msg_simulating "BUY" q (symbol b) p); (WARNING, Msg_not_enough_USDT)]
        ++ balance_records (digital_balance_items b)) b).
Proof.
  intros Husdt Hlt. apply wp_run. unfold place_order_simulation.
  repeat wp_step. rewrite String.eqb_refl. repeat wp_step. rewrite Husdt, Hlt.
  repeat wp_step. split; [done|].
  by rewrite !set_logger_app64.
Qed.

Lemma buy_filled64 (b : bot) (q p usdt held : PrimFloat.float) :
  digital_balance b !! "USDT" = Some usdt → PrimFloat.leb (q * p) usdt = true →
  <["USDT" := (usdt - q * p)%float]> (digital_balance b) !! base_asset b = Some held →
  let resulting :=
    <[base_asset b := (held + q)%float]>
      (<["USDT" := (usdt - q * p)%float]> (digital_balance b)) in
  place_order_simulation "BUY" q p b
  = (Ok tt,
     set_logger (λ records, records ++
         [(INFO, Msg_simulating "BUY" q (symbol b) p); (INFO, Msg_buy_completed)]
         ++ balance_records (items (balance_order b) resulting))
       (set_trade_log (λ entries, entries ++
            [{| trade_type := "BUY"; trade_quantity := q; trade_price := p;
                trade_balance := resulting |}])
          (set_digital_balance (λ _, resulting) b))).
Proof.
  intros Husdt Hle Hheld resulting. apply wp_run. unfold place_order_simulation.
  repeat wp_step. rewrite String.eqb_refl. repeat wp_step. rewrite Husdt, Hle.
  repeat wp_step. rewrite Husdt. repeat wp_step.
  unfold base_asset in Hheld. rewrite Hheld. repeat wp_step.
  split; [done|]. subst resulting. bot_eq b.
Qed.

Lemma sell_short64 (b : bot) (q p held : PrimFloat.float) :
  digital_balance b !! base_asset b = Some held → PrimFloat.leb q held = false →
  place_order_simulation "SELL" q p b
  = (Ok tt, set_logger (λ records, records ++
        [(INFO, Msg_simulating "SELL" q (symbol b) p); (WARNING, Msg_not_enough_BTC)]
        ++ balance_records (digital_balance_items b)) b).
Proof.
  intros Hheld Hlt. apply wp_run. unfold place_order_simulation.
  repeat wp_step. change ("SELL" =? "BUY")%string with false.
  rewrite String.eqb_refl. repeat wp_step.
  unfold base_asset in Hheld. rewrite Hheld, Hlt.
  repeat wp_step. split; [done|]. by rewrite !set_logger_app64.
Qed.

Lemma sell_filled64 (b : bot) (q p usdt held : PrimFloat.float) :
  digital_balance b !! base_asset b = Some held → PrimFloat.leb q held = true →
  <[base_asset b := (held - q)%float]> (digital_balance b) !! "USDT" = Some usdt →
  let resulting :=
    <["USDT" := (usdt + q * p)%float]>
      (<[base_asset b := (held - q)%float]> (digital_balance b)) in
  place_order_simulation "SELL" q p b
  = (Ok tt,
     set_logger (λ records, records ++
         [(INFO, Msg_simulating "SELL" q (symbol b) p); (INFO, Msg_sell_completed)]
         ++ balance_records (items (balance_order b) resulting))
       (set_trade_log (λ entries, entries ++
            [{| trade_type := "SELL"; trade_quantity := q; trade_price := p;
                trade_balance := resulting |}])
          (set_digital_balance (λ _, resulting) b))).
Proof.
  intros Hheld Hle Husdt resulting. apply wp_run. unfold place_order_simulation.
  repeat wp_step. change ("SELL" =? "BUY")%string with false.
  rewrite String.eqb_refl. repeat wp_step.
  unfold base_asset in Hheld, Husdt. rewrite Hheld, Hle.
  repeat wp_step. rewrite Hheld. repeat wp_step.
  rewrite Husdt. repeat wp_step.
  split; [done|]. subst resulting. bot_eq b.
Qed.

(** C2, as the code reports it.  An order whose funds do not suffice
    changes no balance: when the USDT balance is below [quantity * price]
    (the product as the double it is) a BUY, and when the base balance is
    below [quantity] a SELL, returns normally, as a filled order does,
    having written only log records: the order line, the warning "Not
    enough ..." and the balances in the order of the dict.  The balances,
    the trade log and every other attribute are exactly those before the
    call. *)
Theorem insufficient_funds_is_all_or_nothing (b : bot) (q p : PrimFloat.float) :
  (∀ usdt, digital_balance b !! "USDT" = Some usdt →
     PrimFloat.ltb usdt (q * p) = true →
     let r := place_order_simulation "BUY" q p b in
     r = (Ok tt, set_logger (λ records, records ++
            [(INFO, Msg_simulating "BUY" q (symbol b) p);
             (WARNING, Msg_not_enough_USDT)]
            ++ balance_records (digital_balance_items b)) b) ∧
     digital_balance r.2 = digital_balance b ∧ trade_log r.2 = trade_log b) ∧
  (∀ held, digital_balance b !! base_asset b = Some held →
     PrimFloat.ltb held q = true →
     let r := place_order_simulation "SELL" q p b in
     r = (Ok tt, set_logger (λ records, records ++
            [(INFO, Msg_simulating "SELL" q (symbol b) p);
             (WARNING, Msg_not_enough_BTC)]
            ++ balance_records (digital_balance_items b)) b) ∧
     digital_balance r.2 = digital_balance b ∧ trade_log r.2 = trade_log b).
Proof.
  split.
  - intros usdt Husdt Hlt r. subst r.
    by rewrite (buy_short64 b q p usdt) by (done || by apply ltb_leb_false).
  - intros held Hheld Hlt r. subst r.
    by rewrite (sell_short64 b q p held) by (done || by apply ltb_leb_false).
Qed.

Lemma buy_effect64 (b : bot) (q p usdt held : PrimFloat.float) :
  base_asset b ≠ "USDT" →
  digital_balance b !! "USDT" = Some usdt →
  digital_balance b !! base_asset b = Some held →
  PrimFloat.leb (q * p) usdt = true →
  let r := place_order_simulation "BUY" q p b in
  r.1 = Ok tt ∧
  digital_balance r.2
  = <[base_asset b := (held + q)%float]>
      (<["USDT" := (usdt - q * p)%float]> (digital_balance b)) ∧
  digital_balance r.2 !! "USDT" = Some (usdt - q * p)%float ∧
  digital_balance r.2 !! base_asset b = Some (held + q)%float ∧
  trade_log r.2
  = trade_log b ++ [{| trade_type := "BUY"; trade_quantity := q; trade_price := p;
                       trade_balance := digital_balance r.2 |}] ∧
  symbol r.2 = symbol b.
Proof.
  intros Hne Husdt Hheld Hle r. subst r.
  rewrite (buy_filled64 b q p usdt held) by (by rewrite ?lookup_insert_ne).
  bot_simpl. split; [done|]. split; [done|].
  split; [by rewrite lookup_insert_ne, lookup_insert_eq|].
  split; [by rewrite lookup_insert_eq|]. done.
Qed.

Lemma sell_effect64 (b : bot) (q p usdt held : PrimFloat.float) :
  base_asset b ≠ "USDT" →
  digital_balance b !! "USDT" = Some usdt →
  digital_balance b !! base_asset b = Some held →
  PrimFloat.leb q held = true →
  let r := place_order_simulation "SELL" q p b in
  r.1 = Ok tt ∧
  digital_balance r.2
  = <["USDT" := (usdt + q * p)%float]>
      (<[base_asset b := (held - q)%float]> (digital_balance b)) ∧
  digital_balance r.2 !! "USDT" = Some (usdt + q * p)%float ∧
  digital_balance r.2 !! base_asset b = Some (held - q)%float ∧
  trade_log r.2
  = trade_log b ++ [{| trade_type := "SELL"; trade_quantity := q; trade_price := p;
                       trade_balance := digital_balance r.2 |}] ∧
  symbol r.2 = symbol b.
Proof.
  intros Hne Husdt Hheld Hle r. subst r.
  rewrite (sell_filled64 b q p usdt held) by (by rewrite ?lookup_insert_ne).
  bot_simpl. split; [done|]. split; [done|].
  split; [by rewrite lookup_insert_eq|].
  split; [by rewrite lookup_insert_ne, lookup_insert_eq|]. done.
Qed.

Lemma portfolio_value_is (price : PrimFloat.float) (b : bot)
    (usdt held : PrimFloat.float) (vu vh vp : Qc) :
  digital_balance b !! "USDT" = Some usdt →
  digital_balance b !! base_asset b = Some held →
  Binary64.value usdt = Some vu → Binary64.value held = Some vh →
  Binary64.value price = Some vp →
  portfolio_value price b = Some (vu + vp * vh).
Proof.
  intros Hu Hh Evu Evh Evp. unfold portfolio_value.
  rewrite Hu, Hh. cbn [mbind option_bind]. by rewrite Evu, Evh, Evp.
Qed.

(** C6, as the code computes it.  A filled BUY sets the USDT entry to
    the double [usdt - quantity * price] and the base entry to the double
    [held + quantity], a filled SELL sets the base entry to
    [held - quantity] and the USDT entry to [usdt + quantity * price], and
    one entry holding the new balances goes to the trade log.  Each of
    these operations rounds to binary64: when none of the three rounds,
    USDT plus the base holding valued at the trade price is the same
    before and after; when one of them rounds it need not be (see
    [filled_order_can_debit_nothing]).  In particular {USDT: 100, BTC: 0}
    with a BUY of 0.001 at 50000 becomes {USDT: 50.0, BTC: 0.001}, with
    one BUY entry logged. *)
Theorem filled_order_conserves_value :
  (∀ (b : bot) (q p usdt held : PrimFloat.float),
     base_asset b ≠ "USDT" →
     digital_balance b !! "USDT" = Some usdt →
     digital_balance b !! base_asset b = Some held →
     (PrimFloat.leb (q * p) usdt = true →
        let r := place_order_simulation "BUY" q p b in
        r.1 = Ok tt ∧
        digital_balance r.2
        = <[base_asset b := (held + q)%float]>
            (<["USDT" := (usdt - q * p)%float]> (digital_balance b)) ∧
        trade_log r.2
        = trade_log b ++ [{| trade_type := "BUY"; trade_quantity := q;
                             trade_price := p; trade_balance := digital_balance r.2 |}] ∧
        (Binary64.exact_result Qcmult q p (q * p)%float →
         Binary64.exact_result Qcminus usdt (q * p)%float (usdt - q * p)%float →
         Binary64.exact_result Qcplus held q (held + q)%float →
         is_Some (portfolio_value p b) ∧
         portfolio_value p r.2 = portfolio_value p b)) ∧
     (PrimFloat.leb q held = true →
        let r := place_order_simulation "SELL" q p b in
        r.1 = Ok tt ∧
        digital_balance r.2
        = <["USDT" := (usdt + q * p)%float]>
            (<[base_asset b := (held - q)%float]> (digital_balance b)) ∧
        trade_log r.2
        = trade_log b ++ [{| trade_type := "SELL"; trade_quantity := q;
                             trade_price := p; trade_balance := digital_balance r.2 |}] ∧
        (Binary64.exact_result Qcmult q p (q * p)%float →
         Binary64.exact_result Qcminus held q (held - q)%float →
         Binary64.exact_result Qcplus usdt (q * p)%float (usdt + q * p)%float →
         is_Some (portfolio_value p b) ∧
         portfolio_value p r.2 = portfolio_value p b))) ∧
  let b := init "BTCUSDT" "1h" true 100 in
  let r := place_order_simulation "BUY" 0.001 50000 b in
  digital_balance b = <["BTC" := 0%float]> (<["USDT" := 100%float]> ∅) ∧
  digital_balance r.2 = <["BTC" := 0.001%float]> (<["USDT" := 50%float]> ∅) ∧
  trade_log r.2 = [{| trade_type := "BUY"; trade_quantity := 0.001;
                      trade_price := 50000;
                      trade_balance := digital_balance r.2 |}].
Proof.
  split.
  - intros b q p usdt held Hne Husdt Hheld. split; intros Hle r.
    + destruct (buy_effect64 b q p usdt held Hne Husdt Hheld Hle)
        as (Hr & Hbal & Hu & Hh & Hlog & Hsym).
      fold r in Hr, Hbal, Hu, Hh, Hlog, Hsym.
      split; [done|]. split; [done|]. split; [done|].
      intros (vq & vp & Eq & Ep & Ecost) (vu & vc & Eu & Ecost' & Eusdt)
             (vh & vq' & Eh & Eq' & Eheld).
      rewrite Ecost in Ecost'. injection Ecost' as <-.
      rewrite Eq in Eq'. injection Eq' as <-.
      assert (base_asset r.2 = base_asset b) as Hbase by (unfold base_asset; by rewrite Hsym).
      rewrite (portfolio_value_is p b usdt held vu vh vp) by done.
      rewrite (portfolio_value_is p r.2 _ _ (vu - vq * vp) (vh + vq) vp Hu)
        by (done || by rewrite Hbase).
      split; [by eexists|]. f_equal. ring.
    + destruct (sell_effect64 b q p usdt held Hne Husdt Hheld Hle)
        as (Hr & Hbal & Hu & Hh & Hlog & Hsym).
      fold r in Hr, Hbal, Hu, Hh, Hlog, Hsym.
      split; [done|]. split; [done|]. split; [done|].
      intros (vq & vp & Eq & Ep & Ecost) (vh & vq' & Eh & Eq' & Eheld)
             (vu & vc & Eu & Ecost' & Eusdt).
      rewrite Ecost in Ecost'. injection Ecost' as <-.
      rewrite Eq in Eq'. injection Eq' as <-.
      assert (base_asset r.2 = base_asset b) as Hbase by (unfold base_asset; by rewrite Hsym).
      rewrite (portfolio_value_is p b usdt held vu vh vp) by done.
      rewrite (portfolio_value_is p r.2 _ _ (vu + vq * vp) (vh - vq) vp Hu)
        by (done || by rewrite Hbase).
      split; [by eexists|]. f_equal. ring.
  - cbn zeta. repeat apply conj; vm_compute; reflexivity.
Qed.

End Simulation64Facts.

(** The call does not return an error when the funds do not suffice: a
    refused BUY and a filled one both return normally; what tells them
    apart is the warning in the log and the missing entry in the trade
    log. *)
Lemma refused_order_returns_as_a_filled_one_does :
  let b := Simulation64.init "BTCUSDT" "1h" true 100 in
  let refused := Simulation64.place_order_simulation "BUY" 1 50000 b in
  let filled := Simulation64.place_order_simulation "BUY" 0.001 50000 b in
  PrimFloat.ltb 100 (1 * 50000) = true ∧
  refused.1 = Ok tt ∧ filled.1 = Ok tt ∧
  Simulation64.digital_balance refused.2 = Simulation64.digital_balance b ∧
  Simulation64.trade_log refused.2 = [] ∧
  length (Simulation64.trade_log filled.2) = 1%nat ∧
  Simulation64.logger refused.2
  = [(INFO, Simulation64.Msg_simulating "BUY" 1 "BTCUSDT" 50000);
     (WARNING, Simulation64.Msg_not_enough_USDT);
     (INFO, Simulation64.Msg_current_balance);
     (INFO, Simulation64.Msg_asset_balance "USDT" 100);
     (INFO, Simulation64.Msg_asset_balance "BTC" 0)].
Proof. cbn zeta. repeat apply conj; vm_compute; reflexivity. Qed.

(** A filled order need not debit its cost: with 1e17 USDT a BUY of 0.001
    at 1000 costs 1.0, is filled and logged, credits 0.001 of the base
    asset and leaves the USDT balance at 1e17, so the value of the
    portfolio at the trade price has grown. *)
Lemma filled_order_can_debit_nothing :
  let b := Simulation64.init "BTCUSDT" "1h" true 1e17 in
  let r := Simulation64.place_order_simulation "BUY" 0.001 1000 b in
  (0.001 * 1000)%float = 1%float ∧
  r.1 = Ok tt ∧
  length (Simulation64.trade_log r.2) = 1%nat ∧
  Simulation64.digital_balance r.2 !! "USDT" = Some 1e17%float ∧
  Simulation64.digital_balance r.2 !! "BTC" = Some 0.001%float ∧
  Simulation64.portfolio_value 1000 r.2 ≠ Simulation64.portfolio_value 1000 b.
Proof.
  cbn zeta. repeat apply conj; try (vm_compute; reflexivity).
  intros E. vm_compute in E. discriminate.
Qed.

(** * The live polling loop *)

Module LiveFacts.
Import Live LiveSpec.

Ltac bot_simpl :=
  cbn [logger symbol interval quantity moving_avg_short moving_avg_long
       trading_results submitted set_logger set_trading_results
       set_submitted fst snd].

Lemma live_set_logger_id (b : bot) : set_logger (λ records, records ++ []) b = b.
Proof. destruct b. unfold set_logger. simpl. by rewrite app_nil_r. Qed.

Lemma live_set_logger_app (l1 l2 : list (level * message)) (b : bot) :
  set_logger (λ records, records ++ l2) (set_logger (λ records, records ++ l1) b)
  = set_logger (λ records, records ++ l1 ++ l2) b.
Proof. destruct b. unfold set_logger. simpl. by rewrite (assoc_L (++)). Qed.

Lemma live_wp_log (l : level) (m : message) (b : bot) Q :
  Q (Ok tt) (set_logger (λ records, records ++ [(l, m)]) b) → wp (log l m) b Q.
Proof. done. Qed.

Lemma live_for_each_log {A} (items : list A) (f : A → message) (b : bot) :
  for_each items (λ item, log INFO (f item)) b
  = (Ok tt, set_logger (λ records, records ++ ((λ item, (INFO, f item)) <$> items)) b).
Proof.
  revert b. induction items as [|a items IH]; intros b; simpl.
  - by rewrite live_set_logger_id.
  - unfold bind at 1. simpl. rewrite IH. by rewrite live_set_logger_app.
Qed.

Lemma wp_for_each_log {A} (items : list A) (f : A → message) (b : bot) Q :
  Q (Ok tt) (set_logger (λ records, records ++ ((λ item, (INFO, f item)) <$> items)) b) →
  wp (for_each items (λ item, log INFO (f item))) b Q.
Proof. intros HQ. unfold wp. by rewrite live_for_each_log. Qed.

Ltac wp_step :=
  lazymatch goal with
  | |- wp (bind _ _) _ _ => apply wp_bind
  | |- wp get _ _ => apply wp_get
  | |- wp (log _ _) _ _ => apply live_wp_log
  | |- wp (ret _) _ _ => apply wp_ret
  | |- wp (raise _) _ _ => apply wp_raise
  | |- wp (modify _) _ _ => apply wp_modify
  | |- wp (from_option _ _) _ _ => apply wp_from_option
  | |- wp (for_each _ _) _ _ => apply wp_for_each_log
  end;
  bot_simpl.

Ltac wp_go := repeat first [wp_step | progress bot_simpl].

(** One pass of the live loop on a fetched series with at least two
    rows: it logs the signals of the last two rows and submits the order
    that [detectTransition] calls for, if the balances allow it. *)
Lemma wp_run_bot_cycle (ex : exchange) (b : bot) (closes : list Qc)
    (previous current : Z) :
  let df := calculate_signals (moving_avg_short b) (moving_avg_long b) closes in
  klines ex = Some closes →
  Pandas.iloc_neg (signal df) 2 = Some previous →
  Pandas.iloc_neg (signal df) 1 = Some current →
  wp (run_bot_cycle ex) b (λ r b',
    r = Ok tt ∧
    (INFO, Msg_signal_analysis previous current) ∈ logger b' ∧
    submitted b' = submitted b ++ orders_for (detectTransition previous current) ex b).
Proof.
  intros df Hk Hprev Hcur.
  assert (1 ≤ length closes)%nat as Hlen.
  { assert (is_Some (Pandas.iloc_neg (signal df) 1)) as H by (by eexists).
    apply iloc_neg_is_Some in H. unfold df in H. rewrite length_signal in H. lia. }
  assert (is_Some (Pandas.iloc_neg (close df) 1)) as [price Hprice].
  { apply iloc_neg_is_Some. simpl. lia. }
  assert (is_Some (Pandas.iloc_neg (MA_short df) 1)) as [ma_s Hma_s].
  { apply iloc_neg_is_Some. simpl. rewrite length_rolling_mean. lia. }
  assert (is_Some (Pandas.iloc_neg (MA_long df) 1)) as [ma_l Hma_l].
  { apply iloc_neg_is_Some. simpl. rewrite length_rolling_mean. lia. }
  unfold run_bot_cycle. apply wp_try_except.
  unfold run_bot_try, get_historical_data. wp_go. rewrite Hk. wp_go.
  unfold calculate_signals_method. wp_go. fold df.
  rewrite Hprice, Hma_s, Hma_l. wp_go.
  unfold save_market_data. wp_go.
  cbn [fmap option_fmap option_map]. wp_go.
  rewrite Hcur. wp_go. rewrite Hprev. wp_go.
  unfold detectTransition, orders_for, balances_of.
  destruct (negb (current =? previous)%Z).
  2:{ wp_go. rewrite app_nil_r. split; [done|]. split; [set_solver|done]. }
  unfold check_account_balance. wp_go.
  destruct (account ex) as [assets|]; wp_go; cbn [fmap option_fmap option_map].
  - destruct ((current =? 1)%Z && (previous =? -1)%Z); wp_go.
    { destruct (holds (Some (nonzero_balances assets)) "USDT");
        unfold place_order; wp_go;
        [destruct (order_ack ex) as [[order_id status]|]; wp_go|];
        rewrite ?app_nil_r; (split; [done|]); (split; [set_solver|done]). }
    destruct ((current =? -1)%Z && (previous =? 1)%Z); wp_go.
    { destruct (holds (Some (nonzero_balances assets)) (remove_USDT (symbol b)));
        unfold place_order; wp_go;
        [destruct (order_ack ex) as [[order_id status]|]; wp_go|];
        rewrite ?app_nil_r; (split; [done|]); (split; [set_solver|done]). }
    rewrite app_nil_r. split; [done|]. split; [set_solver|done].
  - destruct ((current =? 1)%Z && (previous =? -1)%Z); wp_go.
    { rewrite app_nil_r. split; [done|]. split; [set_solver|done]. }
    destruct ((current =? -1)%Z && (previous =? 1)%Z); wp_go;
      rewrite app_nil_r; (split; [done|]); (split; [set_solver|done]).
Qed.

End LiveFacts.

(** * Samples across cycles *)

Lemma rolling_mean_snoc_lookup (w : nat) (closes : list Qc) (x : Qc) (i : nat) :
  (i < length closes)%nat →
  Pandas.rolling_mean w (closes ++ [x]) !! i = Pandas.rolling_mean w closes !! i.
Proof.
  intros Hi.
  rewrite !rolling_mean_lookup by (rewrite ?length_app; simpl; lia).
  by rewrite take_app_le by lia.
Qed.

Lemma signal_snoc_lookup (short long : nat) (closes : list Qc) (x : Qc) (i : nat) :
  (i < length closes)%nat →
  signal (calculate_signals short long (closes ++ [x])) !! i
  = signal (calculate_signals short long closes) !! i.
Proof.
  intros Hi. simpl. unfold signal_column.
  by rewrite !lookup_zip_with, !rolling_mean_snoc_lookup.
Qed.

(** The signal one row before the last is the last signal of the series
    without its last close: the rolling means only look backwards. *)
Lemma previous_is_current_one_row_earlier (short long : nat) (closes : list Qc) (x : Qc) :
  Pandas.iloc_neg (signal (calculate_signals short long (closes ++ [x]))) 2
  = Pandas.iloc_neg (signal (calculate_signals short long closes)) 1.
Proof.
  unfold Pandas.iloc_neg.
  rewrite !length_signal, length_app.
  change (length [x]) with 1%nat.
  destruct (decide (1 ≤ length closes)%nat) as [Hlen|Hlen].
  - rewrite !bool_decide_eq_true_2 by lia.
    replace (length closes + 1 - 2)%nat with (length closes - 1)%nat by lia.
    apply signal_snoc_lookup. lia.
  - by rewrite !bool_decide_eq_false_2 by lia.
Qed.

Lemma float_eq (o : option float) (q : Qc) :
  option_map (option_map this) o = Some (Some (this q)) → o = Some (Some q).
Proof.
  destruct o as [[x|]|]; simpl; intros [= H].
  do 2 f_equal. apply Qc_is_canon. by rewrite H.
Qed.

(** C5, as the code has it.  In every cycle [previous] and [current] are
    the signals of the last two rows of the series fetched in that same
    cycle, so [previous] is the signal that was current one price point
    earlier in that series, no row being skipped.  The bot keeps no sample
    from one cycle to the next: whatever state the earlier cycles left
    (failed or successful orders included), the cycle logs that pair and
    acts on it alone. *)
Theorem samples_are_the_last_two_rows :
  (∀ (short long : nat) (closes : list Qc) (x : Qc),
     Pandas.iloc_neg (signal (calculate_signals short long (closes ++ [x]))) 2
     = Pandas.iloc_neg (signal (calculate_signals short long closes)) 1) ∧
  (∀ (ex : Live.exchange) (b : Live.bot) (closes : list Qc) (previous current : Z),
     let df := calculate_signals (Live.moving_avg_short b) (Live.moving_avg_long b) closes in
     Live.klines ex = Some closes →
     Pandas.iloc_neg (signal df) 2 = Some previous →
     Pandas.iloc_neg (signal df) 1 = Some current →
     let r := Live.run_bot_cycle ex b in
     r.1 = Ok tt ∧
     (INFO, Live.Msg_signal_analysis previous current) ∈ Live.logger r.2 ∧
     Live.submitted r.2
     = Live.submitted b ++ LiveSpec.orders_for (detectTransition previous current) ex b) ∧
  (∀ (draws : nat → Qc) (b : Simulation.bot) (previous current : Z),
     let df := calculate_signals (Simulation.moving_avg_short b)
                 (Simulation.moving_avg_long b)
                 (Simulation.historical_closes draws b) in
     Pandas.iloc_neg (signal df) 2 = Some previous →
     Pandas.iloc_neg (signal df) 1 = Some current →
     let r := Simulation.run_bot_cycle draws b in
     r.1 = Ok tt ∧
     (INFO, Simulation.Msg_signals previous current) ∈ Simulation.logger r.2).
Proof.
  split; [|split].
  - apply previous_is_current_one_row_earlier.
  - intros ex b closes previous current df Hk Hprev Hcur r.
    exact (LiveFacts.wp_run_bot_cycle ex b closes previous current Hk Hprev Hcur).
  - intros draws b previous current df Hprev Hcur r.
    exact (SimulationFacts.wp_run_bot_cycle_samples draws b previous current Hprev Hcur).
Qed.

(** Two polls in a row that fetch the same series ending on a DOWN to UP
    edge: the second cycle's [previous] is DOWN although the first cycle's
    [current] was UP, and the buy is submitted in both cycles. *)
Lemma edge_fires_again_on_the_next_cycle :
  let b := exec (Live.run_bot [LiveSpec.edge_exchange; LiveSpec.edge_exchange])
             (Live.init "BTCUSDT" "1h") in
  LiveSpec.samples (Live.logger b) = [(-1, 1); (-1, 1)]%Z ∧
  Live.submitted b = [("BUY", dec 1 3); ("BUY", dec 1 3)] ∧
  ¬ LiveSpec.previous_is_prior_current (LiveSpec.samples (Live.logger b)).
Proof.
  intros b.
  assert (LiveSpec.samples (Live.logger b) = [(-1, 1); (-1, 1)]%Z) as Hs
    by (vm_compute; reflexivity).
  split; [exact Hs|]. split; [vm_compute; reflexivity|].
  rewrite Hs. intros H.
  specialize (H 0%nat (-1, 1)%Z (-1, 1)%Z eq_refl eq_refl). discriminate.
Qed.

(** * The scenario: forty-nine closes at 100, then 200 *)

(** C9, with the long average as the code computes it.  For the window
    [100]*49 then 200 with S = 20 and L = 50 the long average is exactly
    5100/50 = 102, the short average is (19*100 + 200)/20 = 105, the signal
    is UP; one row earlier the long average is unavailable, so the previous
    signal is FLAT, and FLAT to UP is no edge: the action is NONE. *)
Theorem scenario_flat_to_up_is_no_edge :
  Pandas.iloc_neg (MA_long scenario_frame) 1 = Some (Some (Qc_of_Z 102)) ∧
  Pandas.iloc_neg (MA_short scenario_frame) 1 = Some (Some (Qc_of_Z 105)) ∧
  Pandas.iloc_neg (signal scenario_frame) 1 = Some (signal_value UP) ∧
  Pandas.iloc_neg (MA_long scenario_frame) 2 = Some None ∧
  Pandas.iloc_neg (signal scenario_frame) 2 = Some (signal_value FLAT) ∧
  detectTransition (signal_value FLAT) (signal_value UP) = NONE ∧
  shows_as (Qc_of_Z 102) 10200.
Proof.
  repeat apply conj.
  - apply float_eq. vm_compute. reflexivity.
  - apply float_eq. vm_compute. reflexivity.
  - vm_compute. reflexivity.
  - vm_compute. reflexivity.
  - vm_compute. reflexivity.
  - vm_compute. reflexivity.
  - vm_compute. discriminate.
  - vm_compute. reflexivity.
Qed.

(** The long average of the scenario does not read 102.04. *)
Lemma scenario_long_average_is_not_102_04 :
  ¬ ∃ long_average : Qc,
      Pandas.iloc_neg (MA_long scenario_frame) 1 = Some (Some long_average) ∧
      shows_as long_average 10204.
Proof.
  intros (x & Hx & Hlow & _).
  assert (Pandas.iloc_neg (MA_long scenario_frame) 1 = Some (Some (Qc_of_Z 102))) as E
    by (apply float_eq; vm_compute; reflexivity).
  rewrite E in Hx. injection Hx as <-.
  vm_compute in Hlow. by apply Hlow.
Qed.

(** * Evidence on concrete inputs *)

Lemma signal_rule_witness :
  let df := Binary64.calculate_signals 2 3 [0.2; 0.3; 0.1]%float in
  ∃ (ma_s ma_l : PrimFloat.float) (sg : Signal),
    Binary64.MA_short df !! 2%nat = Some ma_s ∧
    Binary64.MA_long df !! 2%nat = Some ma_l ∧
    Binary64.signal df !! 2%nat = Some (signal_value sg) ∧
    (sg = UP ↔ PrimFloat.ltb ma_l ma_s = true) ∧
    (sg = DOWN ↔ PrimFloat.ltb ma_s ma_l = true) ∧
    (sg = FLAT ↔ PrimFloat.eqb ma_s ma_l = true ∨ PrimFloat.is_nan ma_s = true
                 ∨ PrimFloat.is_nan ma_l = true) ∧
    ((3 < 2)%nat → PrimFloat.is_nan ma_s = true) ∧
    ((3 < 3)%nat → PrimFloat.is_nan ma_l = true) ∧
    (∀ c, PrimFloat.is_nan c = false → (0 < 2)%nat ∧ (2 ≤ 3)%nat →
          (∀ j, (3 - 2 ≤ j)%nat ∧ (j ≤ 2)%nat → [0.2; 0.3; 0.1]%float !! j = Some c) → ma_s = c) ∧
    (∀ c, PrimFloat.is_nan c = false → (0 < 3)%nat ∧ (3 ≤ 3)%nat →
          (∀ j, (3 - 3 ≤ j)%nat ∧ (j ≤ 2)%nat → [0.2; 0.3; 0.1]%float !! j = Some c) → ma_l = c).
Proof.
  apply (proj1 signal_rule 2%nat 3%nat [0.2; 0.3; 0.1]%float 2%nat). simpl. lia.
Defined.

Lemma averages_witness :
  Pandas.iloc_neg (Pandas.roll_mean 2 [0.3; 0.1; 0.1]%float) 1 = Some 0.1%float ∧
  Pandas.iloc_neg (Pandas.rolling_mean 2 [Qc_of_Z 1; Qc_of_Z 2; Qc_of_Z 4]) 1
  = Some (window_average 2 [Qc_of_Z 1; Qc_of_Z 2; Qc_of_Z 4]).
Proof.
  split.
  - apply (proj2 (proj1 (proj2 averages_are_means_of_last_closes) 2%nat
                    [0.3; 0.1; 0.1]%float ltac:(discriminate)) 0.1%float).
    + reflexivity.
    + simpl. lia.
    + repeat constructor.
  - apply (proj1 (proj2 (proj2 averages_are_means_of_last_closes)) 2%nat
             [Qc_of_Z 1; Qc_of_Z 2; Qc_of_Z 4]); [lia | discriminate].
Defined.

Lemma insufficient_funds_witness :
  let b := Simulation64.init "BTCUSDT" "1h" true 100 in
  Simulation64.digital_balance
    (Simulation64.place_order_simulation "BUY" 1 50000 b).2
  = Simulation64.digital_balance b ∧
  Simulation64.digital_balance
    (Simulation64.place_order_simulation "SELL" 1 50000 b).2
  = Simulation64.digital_balance b.
Proof.
  intros b. split.
  - apply (proj1 (Simulation64Facts.insufficient_funds_is_all_or_nothing b 1 50000)
             100%float); reflexivity.
  - apply (proj2 (Simulation64Facts.insufficient_funds_is_all_or_nothing b 1 50000)
             0%float); reflexivity.
Defined.

Lemma filled_order_witness :
  let b := Simulation64.init "BTCUSDT" "1h" true 100 in
  let r := Simulation64.place_order_simulation "BUY" 0.5 64 b in
  Simulation64.portfolio_value 64 r.2 = Simulation64.portfolio_value 64 b.
Proof.
  intros b r.
  assert (Simulation64.base_asset b ≠ "USDT") as Hne by (vm_compute; discriminate).
  assert (Simulation64.digital_balance b !! "USDT" = Some 100%float) as Husdt
    by reflexivity.
  assert (Simulation64.digital_balance b !! Simulation64.base_asset b = Some 0%float)
    as Hheld by reflexivity.
  assert (PrimFloat.leb (0.5 * 64) 100 = true) as Hle by reflexivity.
  assert (Binary64.exact_result Qcmult 0.5 64 (0.5 * 64)%float) as E1.
  { exists (dec 5 1), (Qc_of_Z 64).
    repeat split; apply value_finite; vm_compute; reflexivity. }
  assert (Binary64.exact_result Qcminus 100 (0.5 * 64)%float (100 - 0.5 * 64)%float) as E2.
  { exists (Qc_of_Z 100), (Qc_of_Z 32).
    repeat split; apply value_finite; vm_compute; reflexivity. }
  assert (Binary64.exact_result Qcplus 0 0.5 (0 + 0.5)%float) as E3.
  { exists 0, (dec 5 1).
    repeat split; apply value_finite; vm_compute; reflexivity. }
  apply (proj2 (proj2 (proj2 (proj1 (proj1 Simulation64Facts.filled_order_conserves_value
           b 0.5%float 64%float 100%float 0%float Hne Husdt Hheld) Hle))) E1 E2 E3).
Defined.


Lemma trade_log_witness :
  let b := Simulation.init "BTCUSDT" "1h" true (Qc_of_Z 100) in
  let o := {| Simulation.order_side := "BUY"; Simulation.order_quantity := dec 1 3;
              Simulation.order_price := Qc_of_Z 50000 |} in
  Simulation.trade_log (Simulation.place o b)
  = Simulation.trade_log b
    ++ [SimulationSpec.entry_of o (Simulation.digital_balance (Simulation.place o b))].
Proof.
  intros b o.
  assert (SimulationSpec.has_accounts b) as Hacc.
  { split; vm_compute; eexists; reflexivity. }
  apply (proj1 (proj1 SimulationFacts.trade_log_records_each_fill o b Hacc)).
  vm_compute. reflexivity.
Defined.

Lemma simulation_never_trades_witness :
  let b := Simulation.init "BTCUSDT" "1h" true (Qc_of_Z 10000) in
  (Simulation.run_bot_try SimulationSpec.edge_draws b).1
  = Raise (AttributeError "place_order_simulation") ∧
  (Simulation.run_bot_cycle SimulationSpec.edge_draws b).1 = Ok tt ∧
  last (Simulation.logger (exec (Simulation.run_bot_cycle SimulationSpec.edge_draws) b))
  = Some (ERROR, Simulation.Msg_loop_error (AttributeError "place_order_simulation")).
Proof.
  intros b.
  apply (proj2 (proj2 (proj2 SimulationFacts.simulation_never_trades))
           SimulationSpec.edge_draws b (-1)%Z 1%Z).
  - vm_compute. reflexivity.
  - vm_compute. reflexivity.
  - vm_compute. discriminate.
Defined.

Lemma samples_witness :
  (INFO, Live.Msg_signal_analysis (-1) 1)
    ∈ Live.logger (Live.run_bot_cycle LiveSpec.edge_exchange (Live.init "BTCUSDT" "1h")).2 ∧
  (INFO, Simulation.Msg_signals (-1) 1)
    ∈ Simulation.logger
        (Simulation.run_bot_cycle SimulationSpec.edge_draws
           (Simulation.init "BTCUSDT" "1h" true (Qc_of_Z 10000))).2.
Proof.
  split.
  - apply (proj1 (proj2 samples_are_the_last_two_rows)
             LiveSpec.edge_exchange (Live.init "BTCUSDT" "1h") LiveSpec.edge_closes
             (-1)%Z 1%Z).
    + reflexivity.
    + vm_compute. reflexivity.
    + vm_compute. reflexivity.
  - apply (proj2 (proj2 samples_are_the_last_two_rows)
             SimulationSpec.edge_draws
             (Simulation.init "BTCUSDT" "1h" true (Qc_of_Z 10000)) (-1)%Z 1%Z).
    + vm_compute. reflexivity.
    + vm_compute. reflexivity.
Defined.

(** * More on the simulated ledger *)

Module SimulationExtra.
Import Simulation SimulationSpec SimulationFacts.

(** A BUY on a ledger that has USDT but no entry for the base asset is
    not all-or-nothing: USDT is debited, then the lookup of the base
    entry raises KeyError, and no trade is logged.  A SELL that finds the
    base asset but no USDT entry fails the same way, after debiting the
    base asset. *)
Theorem missing_account_leaves_half_an_order (b : bot) (q p : Qc) :
  (∀ usdt, digital_balance b !! "USDT" = Some usdt → q * p ≤ usdt →
     digital_balance b !! base_asset b = None →
     let r := place_order_simulation "BUY" q p b in
     r.1 = Raise (KeyError (base_asset b)) ∧
     digital_balance r.2 = <["USDT" := usdt - q * p]> (digital_balance b) ∧
     trade_log r.2 = trade_log b) ∧
  (∀ held, digital_balance b !! base_asset b = Some held → q ≤ held →
     digital_balance b !! "USDT" = None →
     let r := place_order_simulation "SELL" q p b in
     r.1 = Raise (KeyError "USDT") ∧
     digital_balance r.2 = <[base_asset b := held - q]> (digital_balance b) ∧
     trade_log r.2 = trade_log b).
Proof.
  split.
  - intros usdt Husdt Hle Hbase r. subst r.
    assert (base_asset b ≠ "USDT") as Hne by (intros E; rewrite E in Hbase; congruence).
    unfold base_asset in *.
    change (wp (place_order_simulation "BUY" q p) b (λ r b',
              r = Raise (KeyError (remove_USDT (symbol b))) ∧
              digital_balance b' = <["USDT" := usdt - q * p]> (digital_balance b) ∧
              trade_log b' = trade_log b)).
    unfold place_order_simulation. wp_go. rewrite String.eqb_refl. wp_go.
    rewrite Husdt. rewrite bool_decide_eq_true_2 by done. wp_go.
    rewrite Husdt. wp_go.
    rewrite lookup_insert_ne by done. rewrite Hbase. done.
  - intros held Hheld Hle Husdt r. subst r.
    assert (base_asset b ≠ "USDT") as Hne by (intros E; rewrite E in Hheld; congruence).
    unfold base_asset in *.
    change (wp (place_order_simulation "SELL" q p) b (λ r b',
              r = Raise (KeyError "USDT") ∧
              digital_balance b' = <[remove_USDT (symbol b) := held - q]> (digital_balance b) ∧
              trade_log b' = trade_log b)).
    unfold place_order_simulation. wp_go.
    change ("SELL" =? "BUY")%string with false. rewrite String.eqb_refl. wp_go.
    rewrite Hheld. rewrite bool_decide_eq_true_2 by done. wp_go.
    rewrite Hheld. wp_go.
    rewrite lookup_insert_ne by done. rewrite Husdt. done.
Qed.

Lemma place_order_ok (b : bot) (side : string) (q p : Qc) :
  has_accounts b → (place_order_simulation side q p b).1 = Ok tt.
Proof.
  intros [[usdt Husdt] [held Hheld]].
  destruct (String.eqb_spec side "BUY") as [->|Hbuy];
    [|destruct (String.eqb_spec side "SELL") as [->|Hsell]].
  - destruct (decide (q * p ≤ usdt)) as [Hle|Hgt].
    + assert (is_Some (<["USDT" := usdt - q * p]> (digital_balance b) !! base_asset b))
        as [held' Hheld'].
      { apply lookup_insert_is_Some'. right. by eexists. }
      by rewrite (buy_filled b q p usdt held').
    + by rewrite (buy_short b q p usdt) by (done || by apply Qcnot_le_lt).
  - destruct (decide (q ≤ held)) as [Hle|Hgt].
    + assert (is_Some (<[base_asset b := held - q]> (digital_balance b) !! "USDT"))
        as [usdt' Husdt'].
      { apply lookup_insert_is_Some'. right. by eexists. }
      by rewrite (sell_filled b q p usdt' held).
    + by rewrite (sell_short b q p held) by (done || by apply Qcnot_le_lt).
  - by rewrite (other_side b side q p).
Qed.

Lemma place_all_accounts (orders : list order) (b : bot) :
  has_accounts b → has_accounts (place_all orders b).
Proof.
  revert b. induction orders as [|o orders IH]; intros b Hacc; [done|].
  change (place_all (o :: orders) b) with (place_all orders (place o b)).
  apply IH. by apply place_accounts.
Qed.

(** On a ledger that has both accounts, as [__init__] builds it, no order
    ever raises: whatever orders came before, and whatever the side,
    quantity and price, the call returns normally. *)
Theorem orders_never_raise_with_both_accounts (b : bot) (orders : list order)
    (side : string) (q p : Qc) :
  has_accounts b →
  (place_order_simulation side q p (place_all orders b)).1 = Ok tt.
Proof. intros Hacc. by apply place_order_ok, place_all_accounts. Qed.

Lemma place_dom (o : order) (b : bot) :
  has_accounts b →
  dom (digital_balance (place o b)) = dom (digital_balance b) ∧
  symbol (place o b) = symbol b.
Proof.
  intros [Husdt Hheld]. pose proof Husdt as [usdt Eusdt]. pose proof Hheld as [held Eheld].
  apply elem_of_dom in Husdt, Hheld.
  destruct o as [side q p]. unfold place, exec.
  cbn [order_side order_quantity order_price].
  destruct (String.eqb_spec side "BUY") as [->|Hbuy];
    [|destruct (String.eqb_spec side "SELL") as [->|Hsell]].
  - destruct (decide (q * p ≤ usdt)) as [Hle|Hgt].
    + assert (is_Some (<["USDT" := usdt - q * p]> (digital_balance b) !! base_asset b))
        as [held' Hheld'].
      { apply lookup_insert_is_Some'. right. by eexists. }
      rewrite (buy_filled b q p usdt held') by done. bot_simpl.
      split; [|done]. unfold base_asset in *.
      rewrite !dom_insert_lookup_L; [done | by eexists |].
      apply lookup_insert_is_Some'. right. by eexists.
    + by rewrite (buy_short b q p usdt) by (done || by apply Qcnot_le_lt).
  - destruct (decide (q ≤ held)) as [Hle|Hgt].
    + assert (is_Some (<[base_asset b := held - q]> (digital_balance b) !! "USDT"))
        as [usdt' Husdt'].
      { apply lookup_insert_is_Some'. right. by eexists. }
      rewrite (sell_filled b q p usdt' held) by done. bot_simpl.
      split; [|done]. unfold base_asset in *.
      rewrite !dom_insert_lookup_L; [done | by eexists |].
      apply lookup_insert_is_Some'. right. by eexists.
    + by rewrite (sell_short b q p held) by (done || by apply Qcnot_le_lt).
  - by rewrite (other_side b side q p).
Qed.

(** Orders never open or close an account: on a ledger with both
    accounts the set of assets held is the same after any sequence of
    orders, and the trading pair is unchanged. *)
Theorem orders_keep_the_set_of_assets (orders : list order) (b : bot) :
  has_accounts b →
  dom (digital_balance (place_all orders b)) = dom (digital_balance b) ∧
  symbol (place_all orders b) = symbol b.
Proof.
  revert b. induction orders as [|o orders IH]; intros b Hacc; [done|].
  change (place_all (o :: orders) b) with (place_all orders (place o b)).
  destruct (place_dom o b Hacc) as [Hd Hs].
  destruct (IH (place o b)) as [IHd IHs]; [by apply place_accounts|].
  split; congruence.
Qed.


End SimulationExtra.

(** * More on the signal engine *)

Lemma Qc_sum_bounds (lo hi : Qc) (l : list Qc) :
  Forall (λ x, lo ≤ x ∧ x ≤ hi) l →
  Qc_of_nat (length l) * lo ≤ Qc_sum l ∧ Qc_sum l ≤ Qc_of_nat (length l) * hi.
Proof.
  induction 1 as [|x l [Hlo Hhi] _ [IHlo IHhi]].
  - change (Qc_of_nat (length [])) with (Qc_of_Z 0).
    rewrite Z2Qc_inj_0, !Qcmult_0_l. done.
  - cbn [length Qc_sum]. rewrite Qc_of_nat_S. split.
    + replace ((Qc_of_nat (length l) + 1) * lo) with (lo + Qc_of_nat (length l) * lo) by ring.
      by apply Qcplus_le_compat.
    + replace ((Qc_of_nat (length l) + 1) * hi) with (hi + Qc_of_nat (length l) * hi) by ring.
      by apply Qcplus_le_compat.
Qed.

Lemma arithmetic_mean_bounds (lo hi : Qc) (l : list Qc) :
  l ≠ [] → Forall (λ x, lo ≤ x ∧ x ≤ hi) l →
  lo ≤ arithmetic_mean l ∧ arithmetic_mean l ≤ hi.
Proof.
  intros Hne Hall. destruct (Qc_sum_bounds lo hi l Hall) as [Hlo Hhi].
  assert (0 < Qc_of_nat (length l)) as Hpos.
  { apply Qc_of_nat_pos. destruct l; simpl; [done | lia]. }
  assert (arithmetic_mean l * Qc_of_nat (length l) = Qc_sum l) as Hmean.
  { unfold arithmetic_mean. rewrite Qcmult_comm. apply Qcmult_div_r.
    intros E. rewrite E in Hpos. by apply Qclt_irrefl' in Hpos. }
  split.
  - apply (Qcmult_le_mono_pos_r _ _ _ Hpos). by rewrite Hmean, Qcmult_comm.
  - apply (Qcmult_le_mono_pos_r _ _ _ Hpos). by rewrite Hmean, (Qcmult_comm hi).
Qed.

Lemma window_average_bounds (lo hi m : Qc) (w : nat) (pushed : list Qc) :
  (0 < w)%nat → Forall (λ x, lo ≤ x ∧ x ≤ hi) pushed →
  window_average w pushed = Some m → lo ≤ m ∧ m ≤ hi.
Proof.
  intros Hw Hall. unfold window_average. case_bool_decide as Hlen; [|done].
  intros [= <-]. apply arithmetic_mean_bounds.
  - intros E. apply (f_equal length) in E. rewrite length_last_n in E. simpl in E. lia.
  - unfold last_n. by apply Forall_drop.
Qed.

Lemma exact_averages_within_closes
    (short long : nat) (closes : list Qc) (lo hi : Qc) (i : nat) (m : Qc) :
  Forall (λ x, lo ≤ x ∧ x ≤ hi) closes →
  let df := calculate_signals short long closes in
  MA_short df !! i = Some (Some m) ∨ MA_long df !! i = Some (Some m) →
  lo ≤ m ∧ m ≤ hi.
Proof.
  intros Hall df.
  assert (∀ w, Pandas.rolling_mean w closes !! i = Some (Some m) → lo ≤ m ∧ m ≤ hi) as H.
  { intros w Hm.
    assert (i < length closes)%nat as Hi.
    { apply lookup_lt_Some in Hm. by rewrite length_rolling_mean in Hm. }
    rewrite rolling_mean_lookup in Hm by done.
    case_bool_decide as Hw; [|done]. injection Hm as Hm.
    apply (window_average_bounds lo hi m w (take (S i) closes)); [done | | done].
    by apply Forall_take. }
  intros [Hs | Hl]; [exact (H short Hs) | exact (H long Hl)].
Qed.

Lemma signal_row_equal (ma : float) : signal_row ma ma = 0%Z.
Proof.
  unfold signal_row, float_lt, float_gt. destruct ma as [x|]; [|done].
  by rewrite !bool_decide_eq_false_2 by apply Qclt_irrefl'.
Qed.

Lemma signal_lookup (short long : nat) (closes : list Qc) (i : nat) :
  (i < length closes)%nat →
  ∃ ma_s ma_l,
    Pandas.rolling_mean short closes !! i = Some ma_s ∧
    Pandas.rolling_mean long closes !! i = Some ma_l ∧
    signal (calculate_signals short long closes) !! i = Some (signal_row ma_s ma_l).
Proof.
  intros Hi.
  destruct (lookup_lt_is_Some_2 (Pandas.rolling_mean short closes) i) as [ma_s Hs];
    [by rewrite length_rolling_mean|].
  destruct (lookup_lt_is_Some_2 (Pandas.rolling_mean long closes) i) as [ma_l Hl];
    [by rewrite length_rolling_mean|].
  exists ma_s, ma_l. repeat split; try done.
  simpl. unfold signal_column. by rewrite lookup_zip_with, Hs, Hl.
Qed.

(** The frame has one row per close in every column, and every signal is
    1, -1 or 0. *)
Theorem frame_columns_are_aligned (short long : nat) (closes : list Qc) :
  let df := calculate_signals short long closes in
  length (close df) = length closes ∧
  length (MA_short df) = length closes ∧
  length (MA_long df) = length closes ∧
  length (signal df) = length closes ∧
  Forall (λ z, z = 1 ∨ z = -1 ∨ z = 0)%Z (signal df).
Proof.
  intros df. repeat apply conj; try done.
  - apply length_rolling_mean.
  - apply length_rolling_mean.
  - apply length_signal.
  - apply Forall_lookup. intros i z Hz.
    assert (i < length closes)%nat as Hi.
    { apply lookup_lt_Some in Hz. unfold df in Hz. by rewrite length_signal in Hz. }
    destruct (signal_lookup short long closes i Hi) as (ma_s & ma_l & _ & _ & E).
    fold df in E. rewrite E in Hz. injection Hz as <-.
    destruct (signal_row_cases ma_s ma_l) as ([] & -> & _); simpl; auto.
Qed.

(** A price that does not move gives no signal: if every close is the same
    amount, every row is FLAT, whatever the two windows. *)
Theorem constant_prices_are_flat (short long : nat) (closes : list Qc) (c : Qc) :
  Forall (λ x, x = c) closes →
  Forall (λ z, z = 0%Z) (signal (calculate_signals short long closes)).
Proof.
  intros Hall. apply Forall_lookup. intros i z Hz.
  assert (i < length closes)%nat as Hi.
  { apply lookup_lt_Some in Hz. by rewrite length_signal in Hz. }
  destruct (signal_lookup short long closes i Hi) as (ma_s & ma_l & Hs & Hl & E).
  rewrite E in Hz. injection Hz as <-.
  assert (Forall (λ x, c ≤ x ∧ x ≤ c) closes) as Hbound.
  { eapply Forall_impl; [exact Hall|]. intros x ->. split; apply Qcle_refl. }
  assert (∀ w ma, Pandas.rolling_mean w closes !! i = Some ma → ma = None ∨ ma = Some c)
    as Hma.
  { intros w [m|] Hm; [right | by left]. f_equal.
    destruct (exact_averages_within_closes w w closes c c i m Hbound) as [H1 H2];
      [by left|].
    by apply Qcle_antisym. }
  destruct (Hma short ma_s Hs) as [-> | ->], (Hma long ma_l Hl) as [-> | ->];
    try done. apply signal_row_equal.
Qed.

(** With the two windows set to the same length the averages coincide and
    no row ever signals. *)
Theorem equal_windows_never_signal (w : nat) (closes : list Qc) :
  Forall (λ z, z = 0%Z) (signal (calculate_signals w w closes)).
Proof.
  apply Forall_lookup. intros i z Hz.
  assert (i < length closes)%nat as Hi.
  { apply lookup_lt_Some in Hz. by rewrite length_signal in Hz. }
  destruct (signal_lookup w w closes i Hi) as (ma_s & ma_l & Hs & Hl & E).
  rewrite E in Hz. injection Hz as <-.
  rewrite Hs in Hl. injection Hl as <-. apply signal_row_equal.
Qed.

(** * More on the signal engine on binary64 *)

Lemma roll_mean_empty_window {F} `{FloatOps F} (values : list F) (i : nat) :
  (i < length values)%nat → Pandas.roll_mean 0 values !! i = Some NaN.
Proof.
  intros Hi. rewrite roll_mean_lookup_state by done. f_equal.
  unfold Pandas.calc_mean. rewrite state_after_nobs by done.
  replace (S i - 0)%nat with (S i) by lia. rewrite slice_nil. cbn [count_if].
  by rewrite (bool_decide_eq_false_2 (0 < 0)%nat), andb_false_r by lia.
Qed.

Lemma ltb_irrefl (x : PrimFloat.float) : PrimFloat.ltb x x = false.
Proof.
  destruct (float_compare_cases x x) as [H | [H | [H | H]]];
    cbn zeta in H; injection H as Hlt Hgt Heq Hnan; congruence.
Qed.


Lemma signal_row64_equal (ma : PrimFloat.float) : Binary64.signal_row ma ma = 0%Z.
Proof. unfold Binary64.signal_row. by rewrite ltb_irrefl. Qed.




(** On binary64 as well equal windows never signal: with
    [moving_avg_short = moving_avg_long] the two average columns are the
    same column, and the signal is FLAT on every row of every series. *)
Theorem binary64_equal_windows_never_signal (w : nat) (closes : list PrimFloat.float) :
  Forall (λ z, z = 0%Z) (Binary64.signal (Binary64.calculate_signals w w closes)).
Proof.
  apply Forall_lookup. intros i z Hz.
  assert (i < length closes)%nat as Hi.
  { apply lookup_lt_Some in Hz. by rewrite length_signal64 in Hz. }
  destruct (signal64_lookup w w closes i Hi) as (ma_s & ma_l & Hs & Hl & E).
  rewrite E in Hz. injection Hz as <-.
  rewrite Hs in Hl. injection Hl as <-. apply signal_row64_equal.
Qed.

Section roll_mean_prefix.
Context {F : Type} `{FloatOps F}.
Implicit Types values more : list F.

Lemma slice_prefix values more (a b : nat) :
  (b ≤ length values)%nat →
  Pandas.slice (values ++ more) a b = Pandas.slice values a b.
Proof. intros Hb. unfold Pandas.slice. by rewrite take_app_le. Qed.

Lemma roll_step_prefix (w : nat) values more (i : nat) (st : Pandas.mean_state F) :
  (0 < w)%nat → (i < length values)%nat →
  Pandas.roll_step w (values ++ more) i st = Pandas.roll_step w values i st.
Proof.
  intros Hw Hi. unfold Pandas.roll_step, Pandas.window_start.
  rewrite !slice_prefix by lia.
  by rewrite (lookup_app_l values more (S i - w)) by lia.
Qed.

Lemma state_after_prefix (w : nat) values more (rows : nat) :
  (0 < w)%nat → (rows ≤ length values)%nat →
  state_after w (values ++ more) rows = state_after w values rows.
Proof.
  intros Hw. induction rows as [|i IH]; intros Hrows; [done|].
  cbn [state_after]. rewrite IH by lia. by apply roll_step_prefix.
Qed.

(** The rows already computed do not change when more values arrive. *)
Lemma roll_mean_prefix (w : nat) values more (i : nat) :
  (i < length values)%nat →
  Pandas.roll_mean w (values ++ more) !! i = Pandas.roll_mean w values !! i.
Proof.
  intros Hi.
  destruct (decide (w = 0)%nat) as [->|Hw].
  - rewrite !roll_mean_empty_window; [done | done | rewrite length_app; lia].
  - rewrite !roll_mean_lookup_state by (rewrite ?length_app; lia).
    by rewrite state_after_prefix by lia.
Qed.

End roll_mean_prefix.

(** On binary64 as well a new close leaves the rows before it as they
    were: the averages and the signal of every earlier row are unchanged,
    so the signal read as [previous] after the close is the one that was
    [current] before it. *)
Theorem binary64_previous_is_current_one_row_earlier
    (short long : nat) (closes : list PrimFloat.float) (x : PrimFloat.float) :
  let before := Binary64.calculate_signals short long closes in
  let after := Binary64.calculate_signals short long (closes ++ [x]) in
  (∀ i, (i < length closes)%nat →
     Binary64.MA_short after !! i = Binary64.MA_short before !! i ∧
     Binary64.MA_long after !! i = Binary64.MA_long before !! i ∧
     Binary64.signal after !! i = Binary64.signal before !! i) ∧
  Pandas.iloc_neg (Binary64.signal after) 2 = Pandas.iloc_neg (Binary64.signal before) 1.
Proof.
  intros before after.
  assert (∀ i, (i < length closes)%nat →
     Binary64.MA_short after !! i = Binary64.MA_short before !! i ∧
     Binary64.MA_long after !! i = Binary64.MA_long before !! i ∧
     Binary64.signal after !! i = Binary64.signal before !! i) as Hrows.
  { intros i Hi. unfold after, before.
    cbn [Binary64.MA_short Binary64.MA_long Binary64.signal Binary64.calculate_signals].
    unfold Binary64.signal_column.
    rewrite !lookup_zip_with, !roll_mean_prefix by done. done. }
  split; [exact Hrows|].
  unfold Pandas.iloc_neg, after, before.
  rewrite !length_signal64, length_app. change (length [x]) with 1%nat.
  destruct (decide (1 ≤ length closes)%nat) as [Hlen|Hlen].
  - rewrite !bool_decide_eq_true_2 by lia.
    replace (length closes + 1 - 2)%nat with (length closes - 1)%nat by lia.
    apply Hrows. lia.
  - by rewrite !bool_decide_eq_false_2 by lia.
Qed.

(** The scenario on binary64: forty-nine closes at 100, then 200. *)
Theorem binary64_scenario_flat_to_up_is_no_edge :
  let closes := replicate 49 100%float ++ [200%float] in
  let df := Binary64.calculate_signals 20 50 closes in
  Pandas.iloc_neg (Binary64.MA_long df) 1 = Some 102%float ∧
  Pandas.iloc_neg (Binary64.MA_short df) 1 = Some 105%float ∧
  Pandas.iloc_neg (Binary64.signal df) 1 = Some (signal_value UP) ∧
  Pandas.iloc_neg (Binary64.signal df) 2 = Some (signal_value FLAT) ∧
  detectTransition (signal_value FLAT) (signal_value UP) = NONE.
Proof. cbn zeta. repeat apply conj; vm_compute; reflexivity. Qed.

(** * The base asset of a trading pair *)

Lemma remove_USDT_cons_other (c : ascii) (s : string) :
  Ascii.eqb c "U" = false → remove_USDT (String c s) = String c (remove_USDT s).
Proof.
  intros Hc. destruct s as [|c2 [|c3 [|c4 rest]]]; try reflexivity.
  cbn [remove_USDT]. by rewrite Hc.
Qed.

Lemma remove_USDT_without_U (s : string) :
  mentions "U" s = false → remove_USDT s = s.
Proof.
  induction s as [|c s IH]; [done|]. simpl mentions.
  intros [Hc Hs]%orb_false_iff.
  rewrite remove_USDT_cons_other by done. by rewrite IH.
Qed.

Lemma remove_USDT_cases (c1 : ascii) (s1 : string) :
  (∃ c2 c3 c4 rest, s1 = String c2 (String c3 (String c4 rest)) ∧
                    remove_USDT (String c1 s1) = remove_USDT rest) ∨
  remove_USDT (String c1 s1) = String c1 (remove_USDT s1).
Proof.
  destruct s1 as [|c2 [|c3 [|c4 rest]]]; try (right; reflexivity).
  change (remove_USDT (String c1 (String c2 (String c3 (String c4 rest)))))
    with (if Ascii.eqb c1 "U" && Ascii.eqb c2 "S" && Ascii.eqb c3 "D" && Ascii.eqb c4 "T"
          then remove_USDT rest
          else String c1 (remove_USDT (String c2 (String c3 (String c4 rest))))).
  destruct (Ascii.eqb c1 "U" && Ascii.eqb c2 "S" && Ascii.eqb c3 "D" && Ascii.eqb c4 "T").
  - left. by exists c2, c3, c4, rest.
  - by right.
Qed.

Lemma length_remove_USDT_le (n : nat) (s : string) :
  (String.length s ≤ n)%nat → (String.length (remove_USDT s) ≤ String.length s)%nat.
Proof.
  revert s. induction n as [|n IH]; intros s Hn.
  - destruct s; simpl in *; [done | lia].
  - destruct s as [|c1 s1]; [done|].
    destruct (remove_USDT_cases c1 s1) as [(c2 & c3 & c4 & rest & -> & E) | E];
      rewrite E.
    + specialize (IH rest). cbn [String.length] in *. lia.
    + specialize (IH s1). cbn [String.length] in *. lia.
Qed.

(** [symbol.replace('USDT', '')] on a pair written BASE followed by USDT,
    where BASE has no letter U, gives exactly BASE; a symbol without any U
    is returned as it is; and the result is never longer than the
    symbol. *)
Theorem base_asset_of_a_USDT_pair (base : string) :
  mentions "U" base = false →
  remove_USDT (String.append base "USDT") = base ∧
  remove_USDT base = base ∧
  (∀ symbol, (String.length (remove_USDT symbol) ≤ String.length symbol)%nat).
Proof.
  intros Hbase. split; [|split].
  - induction base as [|c base IH]; [reflexivity|].
    simpl mentions in Hbase. apply orb_false_iff in Hbase as [Hc Hrest].
    change (String.append (String c base) "USDT")
      with (String c (String.append base "USDT")).
    rewrite remove_USDT_cons_other by done. by rewrite IH.
  - by apply remove_USDT_without_U.
  - intros symbol. by apply (length_remove_USDT_le (String.length symbol)).
Qed.

(** * More on the simulation loop *)

Module SimulationCycles.
Import Simulation SimulationSpec SimulationFacts.

(** A cycle over a series of at least two rows ends normally.  It dumps
    the trade log to a new file exactly when the last two signals call
    for no order; on a buy or sell edge the failed method lookup jumps
    over [save_trade_log], so that cycle writes no file. *)
Theorem cycle_saves_the_trade_log_unless_an_edge
    (draws : nat → Qc) (b : bot) (previous current : Z) :
  let df := calculate_signals (moving_avg_short b) (moving_avg_long b)
              (historical_closes draws b) in
  Pandas.iloc_neg (signal df) 2 = Some previous →
  Pandas.iloc_neg (signal df) 1 = Some current →
  let r := run_bot_cycle draws b in
  r.1 = Ok tt ∧
  simulation_results r.2
  = simulation_results b ++
    match detectTransition previous current with
    | NONE => [trade_log_to_json (trade_log b)]
    | _ => []
    end.
Proof.
  intros df Hprev Hcur r. subst r.
  assert (is_Some (Pandas.iloc_neg (close df) 1)) as [price Hprice].
  { apply iloc_neg_is_Some. simpl.
    assert (is_Some (Pandas.iloc_neg (signal df) 1)) as H by (by eexists).
    apply iloc_neg_is_Some in H. unfold df in H. rewrite length_signal in H. done. }
  change (wp (run_bot_cycle draws) b (λ r b',
            r = Ok tt ∧
            simulation_results b'
            = simulation_results b ++
              match detectTransition previous current with
              | NONE => [trade_log_to_json (trade_log b)]
              | _ => []
              end)).
  unfold run_bot_cycle. apply wp_try_except.
  rewrite run_bot_try_methods.
  unfold get_historical_data, calculate_signals_method, save_trade_log.
  wp_go. fold df. rewrite Hcur. wp_go. rewrite Hprev. wp_go.
  unfold detectTransition.
  destruct (negb (current =? previous)%Z); wp_go; [|done].
  rewrite Hprice. wp_go.
  destruct ((current =? 1)%Z && (previous =? -1)%Z); wp_go;
    [by rewrite app_nil_r|].
  destruct ((current =? -1)%Z && (previous =? 1)%Z); wp_go;
    [by rewrite app_nil_r | done].
Qed.

(** Every simulated cycle works on a full frame.  [get_historical_data]
    always builds [moving_avg_long + 10] rows, so the signals of the last
    two rows exist in every cycle: the [try] body never fails reading
    them, it ends normally or with the AttributeError of the missing
    order method, and the cycle logs the pair and ends normally. *)
Theorem simulation_cycle_reads_both_signals (draws : nat → Qc) (b : bot) :
  let closes := historical_closes draws b in
  let df := calculate_signals (moving_avg_short b) (moving_avg_long b) closes in
  let r := run_bot_cycle draws b in
  length closes = (moving_avg_long b + 10)%nat ∧
  ∃ previous current : Z,
    Pandas.iloc_neg (signal df) 2 = Some previous ∧
    Pandas.iloc_neg (signal df) 1 = Some current ∧
    ((run_bot_try draws b).1 = Ok tt ∨
     (run_bot_try draws b).1 = Raise (AttributeError "place_order_simulation")) ∧
    r.1 = Ok tt ∧ (INFO, Msg_signals previous current) ∈ logger r.2.
Proof.
  intros closes df r.
  assert (length closes = (moving_avg_long b + 10)%nat) as Hlen.
  { unfold closes, historical_closes. by rewrite length_fmap, length_seq. }
  split; [exact Hlen|].
  assert (is_Some (Pandas.iloc_neg (signal df) 2)) as [previous Hprev].
  { apply iloc_neg_is_Some. unfold df. rewrite length_signal. lia. }
  assert (is_Some (Pandas.iloc_neg (signal df) 1)) as [current Hcur].
  { apply iloc_neg_is_Some. unfold df. rewrite length_signal. lia. }
  assert (is_Some (Pandas.iloc_neg (close df) 1)) as [price Hprice].
  { apply iloc_neg_is_Some. simpl. fold closes. lia. }
  exists previous, current. split; [done|]. split; [done|]. split.
  - change (wp (run_bot_try draws) b (λ res _,
              res = Ok tt ∨ res = Raise (AttributeError "place_order_simulation"))).
    rewrite run_bot_try_methods.
    unfold get_historical_data, calculate_signals_method, save_trade_log.
    wp_go. fold closes. fold df. rewrite Hcur. wp_go. rewrite Hprev. wp_go.
    destruct (negb (current =? previous)%Z); wp_go; [|by left].
    rewrite Hprice. wp_go.
    destruct ((current =? 1)%Z && (previous =? -1)%Z); wp_go; [by right|].
    destruct ((current =? -1)%Z && (previous =? 1)%Z); wp_go; [by right | by left].
  - exact (wp_run_bot_cycle_samples draws b previous current Hprev Hcur).
Qed.

End SimulationCycles.

(** * More on the live loop *)

Module LiveExtra.
Import Live LiveSpec LiveFacts.

(** When the klines call fails the cycle does nothing but log: the fetch
    error is recorded, no account is read, no file is written and no
    order is submitted. *)
Theorem failed_fetch_only_logs (ex : exchange) (b : bot) :
  klines ex = None →
  run_bot_cycle ex b
  = (Ok tt, set_logger (λ records, records ++
       [(INFO, Msg_fetching (symbol b)); (ERROR, Msg_fetch_error);
        (INFO, Msg_waiting)]) b).
Proof.
  intros Hk. apply wp_run. unfold run_bot_cycle. apply wp_try_except.
  unfold run_bot_try, get_historical_data. wp_go. rewrite Hk. wp_go.
  split; [done|]. by rewrite !live_set_logger_app.
Qed.

Ltac leaf :=
  repeat apply conj; try done;
  first [ by (exists []; rewrite app_nil_r; split; [done | left])
        | by (eexists; split; [reflexivity | right; left])
        | by (eexists; split; [reflexivity | right; right]) ].

Lemma wp_cycle_orders (ex : exchange) (b : bot) :
  wp (run_bot_cycle ex) b (λ r b',
    r = Ok tt ∧ quantity b' = quantity b ∧ symbol b' = symbol b ∧
    moving_avg_short b' = moving_avg_short b ∧
    moving_avg_long b' = moving_avg_long b ∧
    ∃ added, submitted b' = submitted b ++ added ∧
             at_most_one_order (quantity b) added).
Proof.
  unfold at_most_one_order, run_bot_cycle. apply wp_try_except.
  unfold run_bot_try, get_historical_data. wp_go.
  destruct (klines ex) as [closes|]; wp_go; [|leaf].
  unfold calculate_signals_method. wp_go.
  destruct (Pandas.iloc_neg (close _) 1) as [price|];
    [destruct (Pandas.iloc_neg (MA_short _) 1) as [ma_s|];
     [destruct (Pandas.iloc_neg (MA_long _) 1) as [ma_l|]|]|];
    wp_go; unfold save_market_data; wp_go; try leaf.
  cbn [fmap option_fmap option_map]. wp_go.
  destruct (Pandas.iloc_neg (signal _) 1) as [current|]; wp_go; [|leaf].
  destruct (Pandas.iloc_neg (signal _) 2) as [previous|]; wp_go; [|leaf].
  destruct (negb (current =? previous)%Z); wp_go; [|leaf].
  unfold check_account_balance. wp_go.
  destruct (account ex) as [assets|]; wp_go.
  - destruct ((current =? 1)%Z && (previous =? -1)%Z); wp_go.
    { destruct (holds (Some (nonzero_balances assets)) "USDT");
        unfold place_order; wp_go;
        [destruct (order_ack ex) as [[order_id status]|]; wp_go|]; leaf. }
    destruct ((current =? -1)%Z && (previous =? 1)%Z); wp_go; [|leaf].
    destruct (holds (Some (nonzero_balances assets)) (remove_USDT (symbol b)));
      unfold place_order; wp_go;
      [destruct (order_ack ex) as [[order_id status]|]; wp_go|]; leaf.
  - destruct ((current =? 1)%Z && (previous =? -1)%Z); wp_go; [leaf|].
    destruct ((current =? -1)%Z && (previous =? 1)%Z); wp_go; leaf.
Qed.

(** Whatever the exchange answers, a cycle of the live loop ends
    normally, leaves the configuration alone and submits at most one
    order, a BUY or a SELL of the configured quantity; so a run of [n]
    cycles submits at most [n] orders, all of that quantity, and never
    withdraws one already submitted. *)
Theorem live_loop_submits_at_most_one_order_per_cycle
    (cycles : list exchange) (b : bot) :
  let r := run_bot cycles b in
  r.1 = Ok tt ∧ quantity r.2 = quantity b ∧ symbol r.2 = symbol b ∧
  ∃ added, submitted r.2 = submitted b ++ added ∧
           (length added ≤ length cycles)%nat ∧
           Forall (λ o, (o.1 = "BUY" ∨ o.1 = "SELL") ∧ o.2 = quantity b) added.
Proof.
  revert b. induction cycles as [|ex cycles IH]; intros b r; subst r.
  - repeat apply conj; try done. exists []. by rewrite app_nil_r.
  - unfold run_bot in *.
    pose proof (wp_cycle_orders ex b) as H. unfold wp in H.
    destruct (run_bot_cycle ex b) as [r1 b1] eqn:E1. simpl in H.
    destruct H as (-> & Hq & Hs & _ & _ & added1 & Hsub1 & Hone).
    assert (for_each (ex :: cycles) run_bot_cycle b = for_each cycles run_bot_cycle b1)
      as -> by (cbn [for_each]; unfold bind; by rewrite E1).
    destruct (IH b1) as (Hr & Hq2 & Hs2 & added2 & Hsub2 & Hlen2 & Hall2).
    repeat apply conj; [done | congruence | congruence |].
    exists (added1 ++ added2). repeat apply conj.
    + by rewrite Hsub2, Hsub1, (assoc_L (++)).
    + rewrite length_app. simpl.
      destruct Hone as [-> | [-> | ->]]; simpl; lia.
    + apply Forall_app. split.
      * destruct Hone as [-> | [-> | ->]];
          [ apply Forall_nil; done
          | apply Forall_singleton; split; [by left | done]
          | apply Forall_singleton; split; [by right | done] ].
      * eapply Forall_impl; [exact Hall2|]. intros o [Ho1 Ho2]. split; congruence.
Qed.

Lemma detectTransition_from_flat (current : Z) : detectTransition 0 current = NONE.
Proof.
  unfold detectTransition.
  destruct (negb (current =? 0)%Z); [|done].
  destruct (current =? 1)%Z, (current =? -1)%Z; reflexivity.
Qed.

Lemma previous_long_average_undefined (short long : nat) (closes : list Qc) :
  (2 ≤ length closes ≤ long)%nat →
  Pandas.iloc_neg (MA_long (calculate_signals short long closes)) 2 = Some None.
Proof.
  intros Hlen. cbn [MA_long calculate_signals].
  unfold Pandas.iloc_neg. rewrite length_rolling_mean.
  rewrite bool_decide_eq_true_2 by lia.
  rewrite rolling_mean_lookup by lia.
  case_bool_decide; [|done].
  unfold window_average. rewrite length_take.
  by rewrite bool_decide_eq_false_2 by lia.
Qed.

Lemma previous_signal_flat_below_long_window (short long : nat) (closes : list Qc) :
  (2 ≤ length closes ≤ long)%nat →
  Pandas.iloc_neg (signal (calculate_signals short long closes)) 2 = Some 0%Z.
Proof.
  intros Hlen. unfold Pandas.iloc_neg. rewrite length_signal.
  rewrite bool_decide_eq_true_2 by lia.
  destruct (signal_lookup short long closes (length closes - 2)) as (ma_s & ma_l & _ & Hl & ->);
    [lia|].
  rewrite rolling_mean_lookup in Hl by lia.
  assert (ma_l = None) as ->.
  { injection Hl as <-. case_bool_decide; [|done].
    unfold window_average. rewrite length_take.
    by rewrite bool_decide_eq_false_2 by lia. }
  f_equal. unfold signal_row, float_lt, float_gt. by destruct ma_s.
Qed.

(** A fetch that returns no more rows than the long window never
    trades: the long average is still undefined one row before the last,
    so the previous signal is FLAT, and FLAT to anything is no edge; the
    cycle ends normally and submits no order. *)
Theorem fetch_within_the_long_window_never_trades
    (ex : exchange) (b : bot) (closes : list Qc) :
  klines ex = Some closes →
  (2 ≤ length closes ≤ moving_avg_long b)%nat →
  let df := calculate_signals (moving_avg_short b) (moving_avg_long b) closes in
  let r := run_bot_cycle ex b in
  Pandas.iloc_neg (MA_long df) 2 = Some None ∧
  Pandas.iloc_neg (signal df) 2 = Some 0%Z ∧
  (∀ current, detectTransition 0 current = NONE) ∧
  r.1 = Ok tt ∧ submitted r.2 = submitted b.
Proof.
  intros Hk Hlen df r.
  split; [exact (previous_long_average_undefined
                   (moving_avg_short b) (moving_avg_long b) closes Hlen)|].
  split; [|split; [exact detectTransition_from_flat|]];
    [exact (previous_signal_flat_below_long_window
              (moving_avg_short b) (moving_avg_long b) closes Hlen)|].
  pose proof (previous_signal_flat_below_long_window
                (moving_avg_short b) (moving_avg_long b) closes Hlen) as Hprev.
  assert (is_Some (Pandas.iloc_neg (signal df) 1)) as [current Hcur].
  { apply iloc_neg_is_Some. unfold df. rewrite length_signal. lia. }
  destruct (wp_run_bot_cycle ex b closes 0 current Hk Hprev Hcur) as (Hr & _ & Hsub).
  fold r in Hr, Hsub. rewrite detectTransition_from_flat in Hsub.
  simpl in Hsub. rewrite app_nil_r in Hsub. done.
Qed.

(** Too short a series stops the cycle before any order.  With no row at
    all [calculate_signals] fails and returns None, and saving the
    market data raises AttributeError; with a single row the data is
    saved and reading [iloc[-2]] raises IndexError.  Either way the
    handler of the loop logs the error as the last record of the cycle,
    the cycle ends normally and nothing is submitted. *)
Theorem live_short_series_is_skipped (ex : exchange) (b : bot) :
  (klines ex = Some [] →
     (run_bot_try ex b).1 = Raise (AttributeError "to_csv") ∧
     (run_bot_cycle ex b).1 = Ok tt ∧
     logger (run_bot_cycle ex b).2
     = logger (run_bot_try ex b).2
       ++ [(ERROR, Msg_loop_error (AttributeError "to_csv"))] ∧
     last (logger (run_bot_cycle ex b).2)
     = Some (ERROR, Msg_loop_error (AttributeError "to_csv")) ∧
     submitted (run_bot_cycle ex b).2 = submitted b ∧
     trading_results (run_bot_cycle ex b).2 = trading_results b) ∧
  (∀ c, klines ex = Some [c] →
     (run_bot_try ex b).1 = Raise IndexError ∧
     (run_bot_cycle ex b).1 = Ok tt ∧
     logger (run_bot_cycle ex b).2
     = logger (run_bot_try ex b).2 ++ [(ERROR, Msg_loop_error IndexError)] ∧
     last (logger (run_bot_cycle ex b).2) = Some (ERROR, Msg_loop_error IndexError) ∧
     submitted (run_bot_cycle ex b).2 = submitted b ∧
     trading_results (run_bot_cycle ex b).2
     = trading_results b
       ++ [Market_data (calculate_signals (moving_avg_short b) (moving_avg_long b) [c])]).
Proof.
  split.
  - intros Hk.
    assert (wp (run_bot_try ex) b (λ r b',
              r = Raise (AttributeError "to_csv") ∧ submitted b' = submitted b ∧
              trading_results b' = trading_results b)) as H.
    { unfold run_bot_try, get_historical_data. wp_go. rewrite Hk. wp_go.
      unfold calculate_signals_method. wp_go.
      change (Pandas.iloc_neg (close _) 1) with (@None Qc). wp_go.
      unfold save_market_data. wp_go. done. }
    unfold wp in H. unfold run_bot_cycle, try_except.
    destruct (run_bot_try ex b) as [res s']. simpl in H. destruct H as (-> & Hs & Hf).
    cbn [log modify fst snd]. bot_simpl.
    split; [done|]. split; [done|]. split; [done|]. split; [apply last_snoc|]. done.
  - intros c Hk.
    assert (wp (run_bot_try ex) b (λ r b',
              r = Raise IndexError ∧ submitted b' = submitted b ∧
              trading_results b'
              = trading_results b
                ++ [Market_data (calculate_signals (moving_avg_short b)
                                   (moving_avg_long b) [c])])) as H.
    { assert (∀ A (l : list A), length l = 1%nat →
                is_Some (Pandas.iloc_neg l 1) ∧ Pandas.iloc_neg l 2 = None) as Hone.
      { intros A l Hl. split.
        - apply iloc_neg_is_Some. lia.
        - unfold Pandas.iloc_neg. by rewrite bool_decide_eq_false_2 by lia. }
      set (df := calculate_signals (moving_avg_short b) (moving_avg_long b) [c]).
      destruct (Hone _ (close df) eq_refl) as [[price Hprice] _].
      destruct (Hone _ (MA_short df)) as [[ma_s Hma_s] _];
        [exact (length_rolling_mean (moving_avg_short b) [c])|].
      destruct (Hone _ (MA_long df)) as [[ma_l Hma_l] _];
        [exact (length_rolling_mean (moving_avg_long b) [c])|].
      destruct (Hone _ (signal df)) as [[current Hcur] Hprev];
        [exact (length_signal (moving_avg_short b) (moving_avg_long b) [c])|].
      unfold run_bot_try, get_historical_data. wp_go. rewrite Hk. wp_go.
      unfold calculate_signals_method. wp_go. fold df.
      rewrite Hprice, Hma_s, Hma_l. wp_go.
      unfold save_market_data. wp_go.
      cbn [fmap option_fmap option_map]. wp_go.
      rewrite Hcur. wp_go. rewrite Hprev. wp_go. done. }
    unfold wp in H. unfold run_bot_cycle, try_except.
    destruct (run_bot_try ex b) as [res s']. simpl in H. destruct H as (-> & Hs & Hf).
    cbn [log modify fst snd]. bot_simpl.
    split; [done|]. split; [done|]. split; [done|]. split; [apply last_snoc|]. done.
Qed.

End LiveExtra.

(** * More on the live loop: balances and files *)

Module LiveBalances.
Import Live LiveSpec LiveFacts.

Lemma foldl_insert_is_Some (l : list (string * (Qc * Qc)))
    (m0 : gmap string (Qc * Qc)) (a : string) :
  is_Some (foldl (λ m entry, <[entry.1 := entry.2]> m) m0 l !! a)
  ↔ is_Some (m0 !! a) ∨ ∃ v, (a, v) ∈ l.
Proof.
  revert m0. induction l as [|[k v0] l IH]; intros m0; simpl.
  - split; [by left|]. intros [H | [v Hv]]; [done|]. by apply elem_of_nil in Hv.
  - rewrite IH, lookup_insert_is_Some'. split.
    + intros [[<- | H] | [v Hv]].
      * right. exists v0. by left.
      * by left.
      * right. exists v. by right.
    + intros [H | [v Hv]].
      * left. by right.
      * apply elem_of_cons in Hv as [[= -> ->] | Hv].
        -- left. by left.
        -- right. by exists v.
Qed.

(** The balance test that guards an order, [balances and asset in
    balances], succeeds exactly when the account call answered and its
    list has an entry for that asset with a positive free or locked
    amount. *)
Theorem holds_iff_a_positive_entry (ex : exchange) (a : string) :
  holds (balances_of ex) a = true ↔
  ∃ assets free locked,
    account ex = Some assets ∧ (a, (free, locked)) ∈ assets ∧
    (0 < free ∨ 0 < locked).
Proof.
  unfold holds, balances_of. destruct (account ex) as [assets|]; simpl.
  2:{ split; [done|]. by intros (? & ? & ? & ? & _). }
  assert (is_Some (nonzero_balances assets !! a) ↔
          ∃ free locked, (a, (free, locked)) ∈ assets ∧ (0 < free ∨ 0 < locked)) as Hin.
  { unfold nonzero_balances. rewrite foldl_insert_is_Some, lookup_empty. split.
    - intros [[? H] | [[free locked] Hv]]; [done|].
      apply list_elem_of_filter in Hv as [Hnz Hv]. exists free, locked. split; [done|].
      unfold nonzero in Hnz. simpl in Hnz.
      apply orb_true_iff in Hnz as [H | H]; apply bool_decide_eq_true in H; auto.
    - intros (free & locked & Hv & Hpos). right. exists (free, locked).
      apply list_elem_of_filter. split; [|done].
      unfold nonzero. simpl. apply orb_true_iff.
      destruct Hpos as [H | H]; [left | right]; by apply bool_decide_eq_true. }
  rewrite andb_true_iff, negb_true_iff, bool_decide_eq_false, bool_decide_eq_true.
  split.
  - intros [_ H]. apply Hin in H as (free & locked & H). by exists assets, free, locked.
  - intros (assets' & free & locked & [= <-] & H).
    assert (is_Some (nonzero_balances assets !! a)) as Hsome by (apply Hin; eauto).
    split; [|done]. intros E. rewrite E, lookup_empty in Hsome. by destruct Hsome.
Qed.

(** The files of a cycle over a series of at least two rows: the market
    data is always saved, and an order file follows exactly when an
    order was submitted and the exchange accepted it; a rejected order
    leaves no file. *)
Theorem live_cycle_files (ex : exchange) (b : bot) (closes : list Qc)
    (previous current : Z) :
  let df := calculate_signals (moving_avg_short b) (moving_avg_long b) closes in
  klines ex = Some closes →
  Pandas.iloc_neg (signal df) 2 = Some previous →
  Pandas.iloc_neg (signal df) 1 = Some current →
  trading_results (run_bot_cycle ex b).2
  = trading_results b ++ Market_data df ::
    match orders_for (detectTransition previous current) ex b, order_ack ex with
    | _ :: _, Some (order_id, status) => [Order_json order_id status]
    | _, _ => []
    end.
Proof.
  intros df Hk Hprev Hcur.
  assert (1 ≤ length closes)%nat as Hlen.
  { assert (is_Some (Pandas.iloc_neg (signal df) 1)) as H by (by eexists).
    apply iloc_neg_is_Some in H. unfold df in H. rewrite length_signal in H. lia. }
  assert (is_Some (Pandas.iloc_neg (close df) 1)) as [price Hprice].
  { apply iloc_neg_is_Some. simpl. lia. }
  assert (is_Some (Pandas.iloc_neg (MA_short df) 1)) as [ma_s Hma_s].
  { apply iloc_neg_is_Some. simpl. rewrite length_rolling_mean. lia. }
  assert (is_Some (Pandas.iloc_neg (MA_long df) 1)) as [ma_l Hma_l].
  { apply iloc_neg_is_Some. simpl. rewrite length_rolling_mean. lia. }
  change (wp (run_bot_cycle ex) b (λ _ b',
            trading_results b'
            = trading_results b ++ Market_data df ::
              match orders_for (detectTransition previous current) ex b, order_ack ex with
              | _ :: _, Some (order_id, status) => [Order_json order_id status]
              | _, _ => []
              end)).
  unfold run_bot_cycle. apply wp_try_except.
  unfold run_bot_try, get_historical_data. wp_go. rewrite Hk. wp_go.
  unfold calculate_signals_method. wp_go. fold df.
  rewrite Hprice, Hma_s, Hma_l. wp_go.
  unfold save_market_data. wp_go.
  cbn [fmap option_fmap option_map]. wp_go.
  rewrite Hcur. wp_go. rewrite Hprev. wp_go.
  unfold detectTransition, orders_for, balances_of.
  destruct (negb (current =? previous)%Z); [|by wp_go].
  unfold check_account_balance. wp_go.
  destruct (account ex) as [assets|]; wp_go; cbn [fmap option_fmap option_map].
  - destruct ((current =? 1)%Z && (previous =? -1)%Z); wp_go.
    { destruct (holds (Some (nonzero_balances assets)) "USDT");
        unfold place_order; wp_go;
        [destruct (order_ack ex) as [[order_id status]|]; wp_go|];
        rewrite <- ?(assoc_L (++)); done. }
    destruct ((current =? -1)%Z && (previous =? 1)%Z); wp_go; [|done].
    destruct (holds (Some (nonzero_balances assets)) (remove_USDT (symbol b)));
      unfold place_order; wp_go;
      [destruct (order_ack ex) as [[order_id status]|]; wp_go|];
      rewrite <- ?(assoc_L (++)); done.
  - destruct ((current =? 1)%Z && (previous =? -1)%Z); wp_go; [done|].
    destruct ((current =? -1)%Z && (previous =? 1)%Z); wp_go; done.
Qed.

End LiveBalances.

(** * The balance checker *)

Module BalanceCheckerFacts.
Import BalanceChecker.

Lemma list_balances_converted (balances : list entry) (found_balance : bool) :
  Forall (λ e, is_Some (amounts e)) balances →
  list_balances balances found_balance
  = (concat (block <$> filter (λ e, has_balance e = true) balances),
     Some (found_balance || bool_decide (filter (λ e, has_balance e = true) balances ≠ []))).
Proof.
  intros Hall. revert found_balance.
  induction Hall as [|e rest [[free_balance locked_balance] He] _ IH];
    intros found_balance.
  - simpl. by rewrite orb_false_r.
  - cbn [list_balances]. rewrite He.
    destruct (bool_decide (0 < free_balance) || bool_decide (0 < locked_balance)) eqn:Hpos.
    + rewrite filter_cons_True by (unfold has_balance; by rewrite He).
      assert (block e = [Asset_name (asset e); Free_amount free_balance;
                         Locked_amount locked_balance; Rule]) as Hblk
        by (unfold block; by rewrite He).
      rewrite IH, fmap_cons. cbn [concat]. rewrite Hblk.
      f_equal. by rewrite orb_true_r.
    + rewrite filter_cons_False by (unfold has_balance; rewrite He, Hpos; done).
      by rewrite IH.
Qed.

Lemma no_balances_line_not_in_blocks (l : list entry) :
  No_balances_found ∉ concat (block <$> l).
Proof.
  induction l as [|e l IH]; [apply not_elem_of_nil|].
  rewrite fmap_cons. cbn [concat]. rewrite elem_of_app. intros [Hin | Hin]; [|done].
  unfold block in Hin. destruct (amounts e) as [[f lk]|]; [|by apply elem_of_nil in Hin].
  repeat (apply elem_of_cons in Hin as [Hin|Hin]; [discriminate|]).
  by apply elem_of_nil in Hin.
Qed.

Lemma nothing_listed_iff (l : list entry) :
  filter (λ e, has_balance e = true) l = [] ↔ Forall (λ e, has_balance e = false) l.
Proof.
  split.
  - intros Hnil. apply Forall_forall. intros e He.
    destruct (has_balance e) eqn:Hb; [|done].
    by destruct (filter_nil_not_elem_of (λ e, has_balance e = true) l e Hnil Hb).
  - intros Hf. induction Hf as [|e rest He _ IH]; [done|].
    rewrite filter_cons_False by (by rewrite He). exact IH.
Qed.

(** When the connection works and every amount converts, the checker
    lists exactly the entries with a positive free or locked amount, in
    the order of the account, four lines each, and prints "No non-zero
    balances found." exactly when there is none. *)
Theorem check_balance_lists_the_positive_entries (a : answers) (balances : list entry) :
  client_ok a = true → status_ok a = true → account a = Some balances →
  Forall (λ e, is_Some (amounts e)) balances →
  let listed := filter (λ e, has_balance e = true) balances in
  check_balance a
  = [Connecting; Connection_successful; Checking_balance; Your_current_balances; Rule]
    ++ concat (block <$> listed)
    ++ (if bool_decide (listed = []) then [No_balances_found] else []) ∧
  (No_balances_found ∈ check_balance a ↔ Forall (λ e, has_balance e = false) balances).
Proof.
  intros Hc Hs Ha Hall listed.
  assert (check_balance a
          = [Connecting; Connection_successful; Checking_balance;
             Your_current_balances; Rule]
            ++ concat (block <$> listed)
            ++ (if bool_decide (listed = []) then [No_balances_found] else [])) as E.
  { unfold check_balance. rewrite Hc, Hs, Ha. cbn [negb].
    rewrite (list_balances_converted balances false Hall). fold listed.
    cbn [orb]. repeat case_bool_decide; try reflexivity; exfalso; tauto. }
  split; [exact E|]. rewrite E.
  pose proof (no_balances_line_not_in_blocks listed) as Hnot.
  pose proof (nothing_listed_iff balances) as Hiff. fold listed in Hiff.
  rewrite <- Hiff. case_bool_decide as Hl.
  - split; [done|]. intros _. rewrite !elem_of_app. right. right. by left.
  - split; [|done]. rewrite !elem_of_app, elem_of_nil.
    intros [Hin | [Hin | []]]; [|done].
    repeat (apply elem_of_cons in Hin as [Hin|Hin]; [discriminate|]).
    by apply elem_of_nil in Hin.
Qed.

Lemma list_balances_app_bad (good rest : list entry) (bad : entry) (found_balance : bool) :
  Forall (λ e, is_Some (amounts e)) good → amounts bad = None →
  list_balances (good ++ bad :: rest) found_balance
  = (concat (block <$> filter (λ e, has_balance e = true) good), None).
Proof.
  intros Hall Hbad. revert found_balance.
  induction Hall as [|e good [[free_balance locked_balance] He] _ IH];
    intros found_balance.
  - simpl. by rewrite Hbad.
  - cbn [app list_balances]. rewrite He.
    destruct (bool_decide (0 < free_balance) || bool_decide (0 < locked_balance)) eqn:Hpos.
    + rewrite filter_cons_True by (unfold has_balance; by rewrite He).
      assert (block e = [Asset_name (asset e); Free_amount free_balance;
                         Locked_amount locked_balance; Rule]) as Hblk
        by (unfold block; by rewrite He).
      rewrite IH, fmap_cons. cbn [concat]. by rewrite Hblk.
    + rewrite filter_cons_False by (unfold has_balance; rewrite He, Hpos; done).
      by rewrite IH.
Qed.

(** An amount that does not convert stops the listing where it stands:
    the entries before it are listed as usual, nothing after it is
    looked at, the output ends with the account error, and "No non-zero
    balances found." is not printed even if nothing was listed. *)
Theorem check_balance_stops_at_a_bad_amount
    (a : answers) (good rest : list entry) (bad : entry) :
  client_ok a = true → status_ok a = true →
  account a = Some (good ++ bad :: rest) →
  Forall (λ e, is_Some (amounts e)) good → amounts bad = None →
  check_balance a
  = [Connecting; Connection_successful; Checking_balance; Your_current_balances; Rule]
    ++ concat (block <$> filter (λ e, has_balance e = true) good)
    ++ [Account_error].
Proof.
  intros Hc Hs Ha Hall Hbad. unfold check_balance. rewrite Hc, Hs, Ha. cbn [negb].
  by rewrite (list_balances_app_bad good rest bad false Hall Hbad).
Qed.

End BalanceCheckerFacts.

(** * Further evidence on concrete inputs *)

Lemma missing_account_witness :
  let b := Simulation.set_digital_balance (λ _, {["USDT" := Qc_of_Z 100]})
             (Simulation.init "BTCUSDT" "1h" true (Qc_of_Z 100)) in
  let r := Simulation.place_order_simulation "BUY" 1 1 b in
  r.1 = Raise (KeyError (SimulationSpec.base_asset b)) ∧
  Simulation.digital_balance r.2
  = <["USDT" := Qc_of_Z 100 - 1 * 1]> (Simulation.digital_balance b) ∧
  Simulation.trade_log r.2 = Simulation.trade_log b.
Proof.
  intros b.
  apply (proj1 (SimulationExtra.missing_account_leaves_half_an_order b 1 1) (Qc_of_Z 100)).
  - vm_compute. reflexivity.
  - vm_compute. discriminate.
  - vm_compute. reflexivity.
Defined.

Lemma orders_never_raise_witness :
  let b := Simulation.init "BTCUSDT" "1h" true (Qc_of_Z 100) in
  let orders := [ {| Simulation.order_side := "BUY"; Simulation.order_quantity := dec 1 3;
                     Simulation.order_price := Qc_of_Z 50000 |} ] in
  (Simulation.place_order_simulation "SELL" 1 (Qc_of_Z 60000)
     (Simulation.place_all orders b)).1 = Ok tt.
Proof.
  intros b orders.
  apply (SimulationExtra.orders_never_raise_with_both_accounts b orders).
  split; vm_compute; eexists; reflexivity.
Defined.

Lemma orders_keep_assets_witness :
  let b := Simulation.init "BTCUSDT" "1h" true (Qc_of_Z 100) in
  let orders := [ {| Simulation.order_side := "BUY"; Simulation.order_quantity := dec 1 3;
                     Simulation.order_price := Qc_of_Z 50000 |} ] in
  dom (Simulation.digital_balance (Simulation.place_all orders b))
  = dom (Simulation.digital_balance b) ∧
  Simulation.symbol (Simulation.place_all orders b) = Simulation.symbol b.
Proof.
  intros b orders.
  apply (SimulationExtra.orders_keep_the_set_of_assets orders b).
  split; vm_compute; eexists; reflexivity.
Defined.



Lemma constant_prices_witness :
  Forall (λ z, z = 0%Z)
    (signal (calculate_signals 2 3 [Qc_of_Z 5; Qc_of_Z 5; Qc_of_Z 5; Qc_of_Z 5])).
Proof.
  apply (constant_prices_are_flat 2 3 _ (Qc_of_Z 5)).
  repeat constructor.
Defined.

Lemma base_asset_witness :
  remove_USDT (String.append "BTC" "USDT") = "BTC" ∧
  remove_USDT "BTC" = "BTC" ∧
  (∀ symbol, (String.length (remove_USDT symbol) ≤ String.length symbol)%nat).
Proof. apply (base_asset_of_a_USDT_pair "BTC"). reflexivity. Defined.

Lemma cycle_saves_witness :
  let b := Simulation.init "BTCUSDT" "1h" true (Qc_of_Z 10000) in
  let r := Simulation.run_bot_cycle SimulationSpec.edge_draws b in
  r.1 = Ok tt ∧
  Simulation.simulation_results r.2
  = Simulation.simulation_results b ++
    match detectTransition (-1) 1 with
    | NONE => [Simulation.trade_log_to_json (Simulation.trade_log b)]
    | _ => []
    end.
Proof.
  intros b.
  apply (SimulationCycles.cycle_saves_the_trade_log_unless_an_edge
           SimulationSpec.edge_draws b (-1)%Z 1%Z).
  - vm_compute. reflexivity.
  - vm_compute. reflexivity.
Defined.

Lemma failed_fetch_witness :
  let ex := {| Live.klines := None; Live.account := None; Live.order_ack := None |} in
  let b := Live.init "BTCUSDT" "1h" in
  Live.run_bot_cycle ex b
  = (Ok tt, Live.set_logger (λ records, records ++
       [(INFO, Live.Msg_fetching (Live.symbol b)); (ERROR, Live.Msg_fetch_error);
        (INFO, Live.Msg_waiting)]) b).
Proof.
  intros ex b. apply (LiveExtra.failed_fetch_only_logs ex b). reflexivity.
Defined.

Lemma long_window_witness :
  let ex := {| Live.klines := Some (replicate 50 (Qc_of_Z 100));
               Live.account := None; Live.order_ack := None |} in
  let b := Live.init "BTCUSDT" "1h" in
  let df := calculate_signals (Live.moving_avg_short b) (Live.moving_avg_long b)
              (replicate 50 (Qc_of_Z 100)) in
  let r := Live.run_bot_cycle ex b in
  Pandas.iloc_neg (MA_long df) 2 = Some None ∧
  Pandas.iloc_neg (signal df) 2 = Some 0%Z ∧
  (∀ current, detectTransition 0 current = NONE) ∧
  r.1 = Ok tt ∧ Live.submitted r.2 = Live.submitted b.
Proof.
  intros ex b.
  apply (LiveExtra.fetch_within_the_long_window_never_trades ex b
           (replicate 50 (Qc_of_Z 100))).
  - reflexivity.
  - vm_compute. lia.
Defined.

Lemma live_short_series_witness :
  let ex := {| Live.klines := Some [Qc_of_Z 30000];
               Live.account := None; Live.order_ack := None |} in
  let b := Live.init "BTCUSDT" "1h" in
  (Live.run_bot_try ex b).1 = Raise IndexError ∧
  (Live.run_bot_cycle ex b).1 = Ok tt ∧
  Live.logger (Live.run_bot_cycle ex b).2
  = Live.logger (Live.run_bot_try ex b).2 ++ [(ERROR, Live.Msg_loop_error IndexError)] ∧
  last (Live.logger (Live.run_bot_cycle ex b).2)
  = Some (ERROR, Live.Msg_loop_error IndexError) ∧
  Live.submitted (Live.run_bot_cycle ex b).2 = Live.submitted b ∧
  Live.trading_results (Live.run_bot_cycle ex b).2
  = Live.trading_results b
    ++ [Live.Market_data
          (calculate_signals (Live.moving_avg_short b) (Live.moving_avg_long b)
             [Qc_of_Z 30000])].
Proof.
  intros ex b.
  apply (proj2 (LiveExtra.live_short_series_is_skipped ex b) (Qc_of_Z 30000)).
  reflexivity.
Defined.

Lemma live_cycle_files_witness :
  let b := Live.init "BTCUSDT" "1h" in
  let df := calculate_signals (Live.moving_avg_short b) (Live.moving_avg_long b)
              LiveSpec.edge_closes in
  Live.trading_results (Live.run_bot_cycle LiveSpec.edge_exchange b).2
  = Live.trading_results b ++ Live.Market_data df ::
    match LiveSpec.orders_for (detectTransition (-1) 1) LiveSpec.edge_exchange b,
          Live.order_ack LiveSpec.edge_exchange with
    | _ :: _, Some (order_id, status) => [Live.Order_json order_id status]
    | _, _ => []
    end.
Proof.
  intros b.
  apply (LiveBalances.live_cycle_files LiveSpec.edge_exchange b LiveSpec.edge_closes
           (-1)%Z 1%Z).
  - reflexivity.
  - vm_compute. reflexivity.
  - vm_compute. reflexivity.
Defined.

Lemma check_balance_witness :
  let balances :=
    [ {| BalanceChecker.asset := "BTC"; BalanceChecker.free := Some 0;
         BalanceChecker.locked := Some 0 |};
      {| BalanceChecker.asset := "USDT"; BalanceChecker.free := Some (Qc_of_Z 25);
         BalanceChecker.locked := Some 0 |} ] in
  let a := {| BalanceChecker.client_ok := true; BalanceChecker.status_ok := true;
              BalanceChecker.account := Some balances |} in
  let listed := filter (λ e, BalanceChecker.has_balance e = true) balances in
  BalanceChecker.check_balance a
  = [BalanceChecker.Connecting; BalanceChecker.Connection_successful;
     BalanceChecker.Checking_balance; BalanceChecker.Your_current_balances;
     BalanceChecker.Rule]
    ++ concat (BalanceChecker.block <$> listed)
    ++ (if bool_decide (listed = []) then [BalanceChecker.No_balances_found] else []) ∧
  (BalanceChecker.No_balances_found ∈ BalanceChecker.check_balance a
   ↔ Forall (λ e, BalanceChecker.has_balance e = false) balances).
Proof.
  intros balances a.
  apply (BalanceCheckerFacts.check_balance_lists_the_positive_entries a balances).
  - reflexivity.
  - reflexivity.
  - reflexivity.
  - repeat constructor; eexists; reflexivity.
Defined.

Lemma check_balance_bad_amount_witness :
  let good := [ {| BalanceChecker.asset := "USDT"; BalanceChecker.free := Some (Qc_of_Z 25);
                   BalanceChecker.locked := Some 0 |} ] in
  let bad := {| BalanceChecker.asset := "BTC"; BalanceChecker.free := None;
                BalanceChecker.locked := Some 0 |} in
  let a := {| BalanceChecker.client_ok := true; BalanceChecker.status_ok := true;
              BalanceChecker.account := Some (good ++ bad :: []) |} in
  BalanceChecker.check_balance a
  = [BalanceChecker.Connecting; BalanceChecker.Connection_successful;
     BalanceChecker.Checking_balance; BalanceChecker.Your_current_balances;
     BalanceChecker.Rule]
    ++ concat (BalanceChecker.block <$> filter (λ e, BalanceChecker.has_balance e = true) good)
    ++ [BalanceChecker.Account_error].
Proof.
  intros good bad a.
  apply (BalanceCheckerFacts.check_balance_stops_at_a_bad_amount a good [] bad).
  - reflexivity.
  - reflexivity.
  - reflexivity.
  - repeat constructor; eexists; reflexivity.
  - reflexivity.
Defined.
